(** * Reminder bot: scheduling core

    A shallow embedding of the scheduling and lifecycle code of the
    reminder service:

    - [internal/application/service/scheduler_impl.go] (job registry and
      schedule coordinator),
    - [internal/infrastructure/scheduler/cron.go] (wrapper around the cron
      engine),
    - [internal/application/service/reminder_impl.go] (lifecycle service),
    - the sqlite repositories and the LINE client wrapper they call,
    - the user service and the data transfer objects of the reminders (in
      the last part of the file).

    Stateful code is written in a state monad over a [World] that holds the
    scheduler service, the cron engine, the two tables, the messages pushed
    to LINE, the log, the wall clock and the failures of the environment. *)

From stdpp Require Import gmap strings list fin_maps.
From Stdlib Require Import ZArith Lia DecimalString DecimalPos Sorted.

Local Open Scope Z_scope.

(** ** Package [time] *)

(** A [time.Time] is an instant; it is kept as the number of nanoseconds
    elapsed since January 1, year 1, 00:00:00 UTC, which is the zero value
    of [time.Time]. Clock fields are read in UTC. *)
Abbreviation Time := Z (only parsing).
Abbreviation Duration := Z (only parsing).

Module time.

Definition Nanosecond : Duration := 1.
Definition Second : Duration := 1000000000 * Nanosecond.
Definition Minute : Duration := 60 * Second.
Definition Hour : Duration := 60 * Minute.

Definition IsZero (t : Time) : bool := t =? 0.
Definition Before (t u : Time) : bool := t <? u.
Definition Add (t : Time) (d : Duration) : Time := t + d.

(** Whole seconds and whole days since the zero instant. *)
Definition abs_seconds (t : Time) : Z := t / Second.
Definition abs_days (t : Time) : Z := abs_seconds t / 86400.

Definition second_of (t : Time) : Z := abs_seconds t mod 60.
Definition minute_of (t : Time) : Z := (abs_seconds t / 60) mod 60.
Definition hour_of (t : Time) : Z := (abs_seconds t / 3600) mod 24.

(** Proleptic Gregorian calendar: the date of the day that is [days] days
    after January 1 of year 1. The computation counts from March 1 of
    year 0, so that the leap day is the last day of the counted year;
    [doe] is the day of the 400-year era, [yoe] the year of the era, [doy]
    the day of the year counted from March 1 and [mp] the month counted
    from March. *)
Definition civil_doe (days : Z) : Z := (days + 306) mod 146097.
Definition civil_era (days : Z) : Z := (days + 306) / 146097.
Definition yoe_of_doe (doe : Z) : Z :=
  (doe - doe / 1460 + doe / 36524 - doe / 146096) / 365.
Definition doy_of_doe (doe : Z) : Z :=
  let yoe := yoe_of_doe doe in
  doe - (365 * yoe + yoe / 4 - yoe / 100).
Definition mp_of_doe (doe : Z) : Z := (5 * doy_of_doe doe + 2) / 153.
Definition day_of_doe (doe : Z) : Z :=
  doy_of_doe doe - (153 * mp_of_doe doe + 2) / 5 + 1.
Definition month_of_doe (doe : Z) : Z :=
  let mp := mp_of_doe doe in if mp <? 10 then mp + 3 else mp - 9.

Definition day_of (t : Time) : Z := day_of_doe (civil_doe (abs_days t)).
Definition month_of (t : Time) : Z := month_of_doe (civil_doe (abs_days t)).
Definition year_of (t : Time) : Z :=
  let days := abs_days t in
  let doe := civil_doe days in
  yoe_of_doe doe + civil_era days * 400
  + (if month_of_doe doe <=? 2 then 1 else 0).
(** Sunday is 0; January 1 of year 1 is a Monday. *)
Definition weekday_of (t : Time) : Z := (abs_days t + 1) mod 7.

(** An instant from its clock fields, for writing examples. *)
Definition days_from_civil (y m d : Z) : Z :=
  let y' := if m <=? 2 then y - 1 else y in
  let era := y' / 400 in
  let yoe := y' - era * 400 in
  let mp := if m <=? 2 then m + 9 else m - 3 in
  let doy := (153 * mp + 2) / 5 + d - 1 in
  let doe := yoe * 365 + yoe / 4 - yoe / 100 + doy in
  era * 146097 + doe - 306.
Definition Date (y m d hh mm ss nsec : Z) : Time :=
  (days_from_civil y m d * 86400 + hh * 3600 + mm * 60 + ss) * Second + nsec.

End time.

(** ** Package [fmt] and [strconv]: decimal numerals *)

(** The verb [%d]. *)
Definition fmt_d (z : Z) : string := NilZero.string_of_int (Z.to_int z).

Definition is_digit (c : Ascii.ascii) : bool :=
  let n := Z.of_nat (Ascii.nat_of_ascii c) in (48 <=? n) && (n <=? 57).
Definition digit_value (c : Ascii.ascii) : Z := Z.of_nat (Ascii.nat_of_ascii c) - 48.

Fixpoint digits_value_aux (acc : Z) (s : string) : option Z :=
  match s with
  | EmptyString => Some acc
  | String c s' =>
      if is_digit c then digits_value_aux (acc * 10 + digit_value c) s'
      else None
  end.

(** The value of a non-empty string of decimal digits. *)
Definition digits_value (s : string) : option Z :=
  match s with
  | EmptyString => None
  | _ => digits_value_aux 0 s
  end.

(** [strconv.ParseUint(s, 10, 64)] and [strconv.FormatUint(n, 10)]. *)
Definition strconv_ParseUint (s : string) : option N :=
  match digits_value s with
  | Some v => if v <? 2 ^ 64 then Some (Z.to_N v) else None
  | None => None
  end.
Definition strconv_FormatUint (n : N) : string := fmt_d (Z.of_N n).

(** ** Errors *)

(** The error values of [internal/pkg/errors], [gorm.ErrRecordNotFound] and
    the failures that come from outside the program (database driver, LINE
    transport). An error built with [fmt.Errorf("%w: ...", e)] wraps [e]: it
    is kept as the value it wraps, since [errors.Is] is all the code asks of
    an error. *)
Inductive error : Set :=
  | ErrUserNotFound
  | ErrInvalidStatus
  | ErrReminderNotFound
  | ErrInvalidDateTime
  | ErrDatabaseOperation
  | ErrLineAPI
  | ErrScheduling
  | ErrSnoozeUnavailable
  | ErrInternalServer
  | gorm_ErrRecordNotFound
  | ErrExternal.

#[global] Instance error_eq_dec : EqDecision error.
Proof. solve_decision. Defined.

Definition errors_Is (err target : error) : bool := bool_decide (err = target).

(** A Go result [(T, error)]. A function that returns only [error] returns
    [option error], [None] being [nil]. *)
Inductive result (A : Type) : Type :=
  | Ok (a : A)
  | Err (e : error).
Arguments Ok {A} a.
Arguments Err {A} e.

(** ** Entities: [internal/domain/entity], [internal/domain/constant] *)

Module constant.
Definition StatusInitial : Z := 0.
Definition StatusAwaitingTime : Z := 1.
Definition StatusAwaitingCancel : Z := 2.
End constant.

Module entity.

Record Reminder : Set := mkReminder {
  Reminder_ID : N;
  Reminder_UserID : string;
  Reminder_Content : string;
  Reminder_RemindTime : Time }.

(** The two [*string] columns are [None] when the pointer is [nil]. *)
Record User : Set := mkUser {
  User_ID : string;
  User_TextID : option string;
  User_LastNotifyTextID : option string;
  User_Status : Z }.

Definition SetStatus (u : User) (status : Z) : User :=
  {| User_ID := User_ID u; User_TextID := User_TextID u;
     User_LastNotifyTextID := User_LastNotifyTextID u;
     User_Status := status |}.

End entity.
Export entity.

(** ** Function values *)

(** The closures that [ScheduleReminder] and [ScheduleReminderCleanup] hand
    to the cron engine, with the reminder id they capture, and the two method
    values of the reminder service that [NewReminderService] installs as
    handlers. *)
Inductive jobFunc : Set :=
  | notify_jobFunc (reminderID : N)
  | cleanup_jobFunc (capturedReminderID : N).

Inductive handlerFunc : Set :=
  | rs_HandleReminderNotification
  | rs_CleanupOldReminders.

#[global] Instance jobFunc_eq_dec : EqDecision jobFunc.
Proof. solve_decision. Defined.

(** ** The cron engine, [github.com/robfig/cron/v3], with seconds *)

Module cron.

Abbreviation EntryID := Z (only parsing).

(** One field of a schedule: every value, or one value. *)
Inductive FieldSpec : Set :=
  | Star
  | Exactly (n : Z).

Record SpecSchedule : Set := mkSpec {
  Second : FieldSpec; Minute : FieldSpec; Hour : FieldSpec;
  Dom : FieldSpec; Month : FieldSpec; Dow : FieldSpec }.

Definition is_space (c : Ascii.ascii) : bool :=
  let n := Ascii.nat_of_ascii c in
  ((9 <=? n) && (n <=? 13))%nat || (n =? 32)%nat.

Definition flush (cur : string) (acc : list string) : list string :=
  match cur with EmptyString => acc | _ => cur :: acc end.

(** [strings.Fields]: the maximal runs of characters that are not white
    space. *)
Fixpoint fields_aux (cur : string) (s : string) : list string :=
  match s with
  | EmptyString => flush cur []
  | String c s' =>
      if is_space c then flush cur (fields_aux EmptyString s')
      else fields_aux (cur +:+ String c EmptyString) s'
  end.
Definition Fields (s : string) : list string := fields_aux EmptyString s.

(** One field within its bounds. The program's specs hold only decimal
    numbers and [*]; lists, ranges, steps and names are not interpreted,
    and a field that uses them is rejected. *)
Definition getField (lo hi : Z) (field : string) : option FieldSpec :=
  if bool_decide (field = "*") || bool_decide (field = "?") then Some Star
  else
    match digits_value field with
    | Some n => if (lo <=? n) && (n <=? hi) then Some (Exactly n) else None
    | None => None
    end.

(** The parser of [cron.New(cron.WithSeconds())]: six fields. *)
Definition Parse (spec : string) : option SpecSchedule :=
  match Fields spec with
  | [s; m; h; d; mo; w] =>
      match getField 0 59 s, getField 0 59 m, getField 0 23 h,
            getField 1 31 d, getField 1 12 mo, getField 0 6 w with
      | Some s, Some m, Some h, Some d, Some mo, Some w =>
          Some (mkSpec s m h d mo w)
      | _, _, _, _, _, _ => None
      end
  | _ => None
  end.

Definition field_matches (f : FieldSpec) (v : Z) : bool :=
  match f with Star => true | Exactly n => n =? v end.
Definition is_star (f : FieldSpec) : bool :=
  match f with Star => true | Exactly _ => false end.

Definition dayMatches (s : SpecSchedule) (t : Time) : bool :=
  let domMatch := field_matches (Dom s) (time.day_of t) in
  let dowMatch := field_matches (Dow s) (time.weekday_of t) in
  if is_star (Dom s) || is_star (Dow s) then domMatch && dowMatch
  else domMatch || dowMatch.

(** The schedule is due in the second that holds [t]. *)
Definition matches (s : SpecSchedule) (t : Time) : bool :=
  field_matches (Second s) (time.second_of t)
  && field_matches (Minute s) (time.minute_of t)
  && field_matches (Hour s) (time.hour_of t)
  && dayMatches s t
  && field_matches (Month s) (time.month_of t).

Record Entry : Set := mkEntry {
  ID : EntryID;
  Schedule : SpecSchedule;
  Job : jobFunc }.

Record Cron : Set := mkCron {
  entries : list Entry;
  nextID : EntryID }.

Definition New : Cron := {| entries := []; nextID := 0 |}.

Definition AddFunc (spec : string) (cmd : jobFunc) (c : Cron)
  : result EntryID * Cron :=
  match Parse spec with
  | None => (Err ErrExternal, c)
  | Some schedule =>
      let id := nextID c + 1 in
      (Ok id, {| entries := entries c ++ [mkEntry id schedule cmd];
                 nextID := id |})
  end.

Definition Remove (id : EntryID) (c : Cron) : Cron :=
  {| entries := filter (fun e => ID e ≠ id) (entries c);
     nextID := nextID c |}.

End cron.

(** ** The log, [internal/pkg/logger] *)

(** One constructor for each message the modelled code formats, with the
    values it prints (an error printed with [%v] is the second argument of
    [LError]). *)
Inductive LogMsg : Set :=
  (* infrastructure/scheduler/cron.go *)
  | Msg_FailedToAddCronJob
  | Msg_AddedCronJob (id : Z) (spec : string)
  | Msg_RemovedCronJob (id : Z)
  (* infrastructure/line *)
  | Msg_SentPushMessage
  (* application/service/scheduler_impl.go *)
  | Msg_NotificationHandlerNotSet
  | Msg_CleanupHandlerNotSet
  | Msg_StoredJobID (entryID : Z) (reminderID : N) (jobType : string)
  | Msg_RemovedJobID (entryID : Z) (reminderID : N) (jobType : string)
  | Msg_InvalidOrPastTime (reminderID : N) (t : Time)
  | Msg_ExecutingNotificationJob (reminderID : N)
  | Msg_ErrorHandlingNotification (reminderID : N)
  | Msg_ScheduledNotification (reminderID : N) (t : Time) (entryID : Z)
  | Msg_ExecutingCleanupJob (reminderID : N)
  | Msg_ErrorHandlingCleanup (reminderID : N)
  | Msg_ScheduledCleanup (reminderID : N) (t : Time) (entryID : Z)
  | Msg_CancelledNotificationSchedule (reminderID : N) (entryID : Z)
  | Msg_NoActiveNotificationSchedule (reminderID : N)
  | Msg_CancelledCleanupSchedule (reminderID : N) (entryID : Z)
  | Msg_NoActiveCleanupSchedule (reminderID : N)
  | Msg_InitializingSchedules
  | Msg_FailedToRetrieveReminders
  | Msg_ZeroTimeSkipping (reminderID : N)
  | Msg_FailedToDeletePastReminder (reminderID : N)
  | Msg_DeletedPastReminder (reminderID : N)
  | Msg_FailedToScheduleDuringInit (reminderID : N)
  | Msg_InitializationComplete (scheduledCount deletedCount : Z)
  | Msg_CurrentCronEntries (es : list cron.Entry)
  (* application/service/reminder_impl.go *)
  | Msg_FailedToCreateReminder (userID : string)
  | Msg_CreatedInitialReminder (reminderID : N) (userID : string)
  | Msg_FailedToFindByContent (content userID : string)
  | Msg_FailedToDeleteByContent (content userID : string)
  | Msg_FailedToCancelNotificationSchedule (reminderID : N)
  | Msg_FailedToCancelCleanupSchedule (reminderID : N)
  | Msg_CancelledReminders (cancelledCount : Z) (content userID : string)
  | Msg_FailedToFindUserDuringSnooze (userID : string)
  | Msg_FailedToParseLastNotifyTextID (textID userID : string)
  | Msg_OriginalReminderNotFound (reminderID : N) (userID : string)
  | Msg_FailedToFindOriginalReminder (reminderID : N) (userID : string)
  | Msg_FailedToCancelCleanupDuringSnooze (reminderID : N)
  | Msg_FailedToUpdateUserDuringSnooze (userID : string)
  | Msg_SnoozeInitiated (userID : string) (newReminderID : N)
  | Msg_HandlingNotification (reminderID : N)
  | Msg_ReminderNotFoundDuringNotification (reminderID : N)
  | Msg_FailedToFindReminderForNotification (reminderID : N)
  | Msg_FailedToPushNotification (reminderID : N) (userID : string)
  | Msg_PushedNotification (reminderID : N) (userID : string)
  | Msg_FailedToFindUserAfterNotification (userID : string) (reminderID : N)
  | Msg_FailedToUpdateLastNotify (userID : string) (reminderID : N)
  | Msg_UpdatedLastNotify (userID : string) (reminderID : N)
  | Msg_FailedToScheduleCleanup (reminderID : N)
  | Msg_CleaningUp (reminderID : N)
  | Msg_AlreadyDeletedBeforeCleanup (reminderID : N)
  | Msg_FailedToDeleteDuringCleanup (reminderID : N)
  | Msg_CleanedUp (reminderID : N)
  | Msg_HandlersSet
  (* application/service/user_impl.go *)
  | Msg_FailedToDeleteRemindersOnUnfollow (userID : string)
  | Msg_DeletedRemindersOnUnfollow (userID : string)
  | Msg_FailedToDeleteUserSession (userID : string)
  | Msg_DeletedUserSession (userID : string).

Inductive LogLine : Set :=
  | LError (msg : LogMsg) (err : option error)
  | LWarn (msg : LogMsg)
  | LInfo (msg : LogMsg)
  | LDebug (msg : LogMsg).

(** ** The world *)

(** The table [reminder_content]: its rows in storage order and the last
    value of the auto-increment key. *)
Record ReminderTable : Set := mkTable {
  rows : list Reminder;
  sequence : N }.

(** A message pushed to LINE: the recipient and the text; every pushed
    message carries the one quick reply button that sends the snooze
    command. *)
Record PushedMessage : Set := mkPushed {
  push_to : string;
  push_text : string }.

(** Calls that leave the process and can fail there. *)
Inductive external_call : Set :=
  | call_reminder_FindByID (id : N)
  | call_reminder_FindByUserIDAndContent (userID content : string)
  | call_reminder_FindAll
  | call_reminder_Create (userID : string)
  | call_reminder_Delete (id : N)
  | call_reminder_DeleteByUserIDAndContent (userID content : string)
  | call_reminder_DeleteByUserID (userID : string)
  | call_user_FindByUserID (userID : string)
  | call_user_Update (userID : string)
  | call_user_Delete (userID : string)
  | call_line_PushMessage (to : string).

(** The fields of [schedulerService] that hold state of its own; the cron
    scheduler, the repository and the logger it points to are fields of the
    world. *)
Record schedulerService : Type := mkService {
  handleNotificationFunc : option handlerFunc;
  handleCleanupFunc : option handlerFunc;
  jobStore : gmap N (gmap string Z) }.

Record World : Type := mkWorld {
  svc : schedulerService;
  cronScheduler : cron.Cron;
  reminder_content : ReminderTable;
  user_session : gmap string User;
  pushed : list PushedMessage;
  logged : list LogLine;
  (** [time.Now()] returns [wall_now]; the clock then moves to the next
      reading of [wall_later], and stays where it is when there is none. *)
  wall_now : Time;
  wall_later : list Time;
  (** The external calls that fail. *)
  failing : external_call -> bool }.

Definition set_svc (f : schedulerService -> schedulerService) (w : World) : World :=
  mkWorld (f (svc w)) (cronScheduler w) (reminder_content w) (user_session w)
    (pushed w) (logged w) (wall_now w) (wall_later w) (failing w).
Definition set_cronScheduler (f : cron.Cron -> cron.Cron) (w : World) : World :=
  mkWorld (svc w) (f (cronScheduler w)) (reminder_content w) (user_session w)
    (pushed w) (logged w) (wall_now w) (wall_later w) (failing w).
Definition set_reminder_content (f : ReminderTable -> ReminderTable) (w : World) : World :=
  mkWorld (svc w) (cronScheduler w) (f (reminder_content w)) (user_session w)
    (pushed w) (logged w) (wall_now w) (wall_later w) (failing w).
Definition set_user_session (f : gmap string User -> gmap string User) (w : World) : World :=
  mkWorld (svc w) (cronScheduler w) (reminder_content w) (f (user_session w))
    (pushed w) (logged w) (wall_now w) (wall_later w) (failing w).
Definition set_pushed (f : list PushedMessage -> list PushedMessage) (w : World) : World :=
  mkWorld (svc w) (cronScheduler w) (reminder_content w) (user_session w)
    (f (pushed w)) (logged w) (wall_now w) (wall_later w) (failing w).
Definition set_logged (f : list LogLine -> list LogLine) (w : World) : World :=
  mkWorld (svc w) (cronScheduler w) (reminder_content w) (user_session w)
    (pushed w) (f (logged w)) (wall_now w) (wall_later w) (failing w).
Definition set_clock (t : Time) (l : list Time) (w : World) : World :=
  mkWorld (svc w) (cronScheduler w) (reminder_content w) (user_session w)
    (pushed w) (logged w) t l (failing w).

Definition set_jobStore (f : gmap N (gmap string Z) -> gmap N (gmap string Z))
    (s : schedulerService) : schedulerService :=
  mkService (handleNotificationFunc s) (handleCleanupFunc s) (f (jobStore s)).

(** ** The state monad *)

Definition M (A : Type) : Type := World -> A * World.

#[global] Instance M_ret : MRet M := fun A (a : A) (w : World) => (a, w).
#[global] Instance M_bind : MBind M :=
  fun A B (k : A -> M B) (m : M A) (w : World) =>
    let (a, w') := m w in k a w'.

Definition get : M World := fun w => (w, w).
Definition modify (f : World -> World) : M unit := fun w => (tt, f w).

Definition log_line (l : LogLine) : M unit :=
  modify (set_logged (fun ls => ls ++ [l])).
Definition log_Error (m : LogMsg) (err : option error) := log_line (LError m err).
Definition log_Warn (m : LogMsg) := log_line (LWarn m).
Definition log_Info (m : LogMsg) := log_line (LInfo m).
Definition log_Debug (m : LogMsg) := log_line (LDebug m).

Definition time_Now : M Time := fun w =>
  (wall_now w, match wall_later w with
          | [] => w
          | t :: l => set_clock t l w
          end).

Definition fails (c : external_call) : M bool := fun w => (failing w c, w).

(** ** The repositories, [internal/infrastructure/database/sqlite] *)

(** Every method takes a [context.Context], which the model leaves out: a
    cancelled context is one of the ways an external call fails. An error of
    the driver is returned wrapped, and is not [gorm.ErrRecordNotFound]. *)
Module reminderRepo.

Definition matches_id (id : N) (r : Reminder) : bool := (Reminder_ID r =? id)%N.

Definition FindByID (id : N) : M (result Reminder) :=
  bad ← fails (call_reminder_FindByID id);
  if bad : bool then mret (Err ErrExternal)
  else
    w ← get;
    match List.find (matches_id id) (rows (reminder_content w)) with
    | Some r => mret (Ok r)
    | None => mret (Err gorm_ErrRecordNotFound)
    end.

Definition same_user_content (userID content : string) (r : Reminder) : Prop :=
  Reminder_UserID r = userID ∧ Reminder_Content r = content.
#[global] Instance same_user_content_dec userID content r :
  Decision (same_user_content userID content r).
Proof. unfold same_user_content. apply _. Defined.

Definition FindByUserIDAndContent (userID content : string)
  : M (result (list Reminder)) :=
  bad ← fails (call_reminder_FindByUserIDAndContent userID content);
  if bad : bool then mret (Err ErrExternal)
  else
    w ← get;
    mret (Ok (filter (same_user_content userID content)
                (rows (reminder_content w)))).

Definition FindAll : M (result (list Reminder)) :=
  bad ← fails call_reminder_FindAll;
  if bad : bool then mret (Err ErrExternal)
  else w ← get; mret (Ok (rows (reminder_content w))).

(** A reminder created with a zero key takes the next value of the
    sequence; a key that is already in the table is refused. *)
Definition Create (reminder : Reminder) : M (result N) :=
  bad ← fails (call_reminder_Create (Reminder_UserID reminder));
  if bad : bool then mret (Err ErrExternal)
  else
    w ← get;
    let t := reminder_content w in
    let id := if (Reminder_ID reminder =? 0)%N then (sequence t + 1)%N
              else Reminder_ID reminder in
    if existsb (matches_id id) (rows t) then mret (Err ErrExternal)
    else
      modify (set_reminder_content (fun t =>
        {| rows := rows t ++ [mkReminder id (Reminder_UserID reminder)
                                (Reminder_Content reminder)
                                (Reminder_RemindTime reminder)];
           sequence := N.max (sequence t) id |}));;
      mret (Ok id).

(** Deleting a row that is not there is not an error. *)
Definition Delete (id : N) : M (option error) :=
  bad ← fails (call_reminder_Delete id);
  if bad : bool then mret (Some ErrExternal)
  else
    modify (set_reminder_content (fun t =>
      {| rows := filter (fun r => Reminder_ID r ≠ id) (rows t);
         sequence := sequence t |}));;
    mret None.

Definition DeleteByUserIDAndContent (userID content : string) : M (option error) :=
  bad ← fails (call_reminder_DeleteByUserIDAndContent userID content);
  if bad : bool then mret (Some ErrExternal)
  else
    modify (set_reminder_content (fun t =>
      {| rows := filter (fun r => ¬ same_user_content userID content r) (rows t);
         sequence := sequence t |}));;
    mret None.

Definition DeleteByUserID (userID : string) : M (option error) :=
  bad ← fails (call_reminder_DeleteByUserID userID);
  if bad : bool then mret (Some ErrExternal)
  else
    modify (set_reminder_content (fun t =>
      {| rows := filter (fun r => Reminder_UserID r ≠ userID) (rows t);
         sequence := sequence t |}));;
    mret None.

End reminderRepo.

Module userRepo.

Definition FindByUserID (userID : string) : M (result User) :=
  bad ← fails (call_user_FindByUserID userID);
  if bad : bool then mret (Err ErrExternal)
  else
    w ← get;
    match user_session w !! userID with
    | Some u => mret (Ok u)
    | None => mret (Err gorm_ErrRecordNotFound)
    end.

(** [Save]: every column of the row of this user is written. *)
Definition Update (user : User) : M (option error) :=
  bad ← fails (call_user_Update (User_ID user));
  if bad : bool then mret (Some ErrExternal)
  else
    modify (set_user_session (fun m => <[User_ID user := user]> m));;
    mret None.

Definition Delete (userID : string) : M (option error) :=
  bad ← fails (call_user_Delete userID);
  if bad : bool then mret (Some ErrExternal)
  else
    modify (set_user_session (fun m => delete userID m));;
    mret None.

End userRepo.

(** ** The LINE client, [internal/infrastructure/line] *)

Module lineClient.

Definition PushMessages (to : string) (text : string) : M (option error) :=
  bad ← fails (call_line_PushMessage to);
  if bad : bool then mret (Some ErrExternal)
  else
    modify (set_pushed (fun l => l ++ [mkPushed to text]));;
    log_Debug Msg_SentPushMessage;;
    mret None.

End lineClient.

(** ** [internal/infrastructure/scheduler/cron.go] *)

Module scheduler.

(** [NewScheduler]: the engine is created with seconds precision. *)
Definition NewScheduler : cron.Cron := cron.New.

Definition AddJob (spec : string) (cmd : jobFunc) : M (result cron.EntryID) :=
  w ← get;
  let (res, c) := cron.AddFunc spec cmd (cronScheduler w) in
  modify (set_cronScheduler (fun _ => c));;
  match res with
  | Err err =>
      log_Error Msg_FailedToAddCronJob (Some err);;
      mret (Err err)
  | Ok id =>
      log_Info (Msg_AddedCronJob id spec);;
      mret (Ok id)
  end.

Definition RemoveJob (id : cron.EntryID) : M unit :=
  modify (set_cronScheduler (cron.Remove id));;
  log_Info (Msg_RemovedCronJob id).

Definition GetEntries : M (list cron.Entry) :=
  w ← get; mret (cron.entries (cronScheduler w)).

End scheduler.

(** ** The scheduler service, [internal/application/service/scheduler_impl.go] *)

Definition jobTypeNotify : string := "notify".
Definition jobTypeCleanup : string := "cleanup".
(** Grace period after notification before cleanup. *)
Definition cleanupGracePeriod : Duration := 24 * time.Hour.

Definition NewSchedulerService : schedulerService :=
  {| handleNotificationFunc := None;
     handleCleanupFunc := None;
     jobStore := ∅ |}.

Definition SetNotificationHandler (handler : option handlerFunc) : M unit :=
  modify (set_svc (fun s =>
    mkService handler (handleCleanupFunc s) (jobStore s))).

Definition SetCleanupHandler (handler : option handlerFunc) : M unit :=
  modify (set_svc (fun s =>
    mkService (handleNotificationFunc s) handler (jobStore s))).

(** Seconds Minutes Hours DayOfMonth Month DayOfWeek. *)
Definition formatCronSpec (t : Time) : string :=
  fmt_d (time.second_of t) +:+ " " +:+ fmt_d (time.minute_of t) +:+ " "
  +:+ fmt_d (time.hour_of t) +:+ " " +:+ fmt_d (time.day_of t) +:+ " "
  +:+ fmt_d (time.month_of t) +:+ " *".

Definition storeJobID (reminderID : N) (jobType : string) (entryID : cron.EntryID)
  : M unit :=
  modify (set_svc (set_jobStore (fun js =>
    let js :=
      match js !! reminderID with
      | Some _ => js
      | None => <[reminderID := ∅]> js
      end in
    <[reminderID := <[jobType := entryID]> (default ∅ (js !! reminderID))]> js)));;
  log_Debug (Msg_StoredJobID entryID reminderID jobType).

Definition removeJobID (reminderID : N) (jobType : string)
  : M (cron.EntryID * bool) :=
  w ← get;
  match jobStore (svc w) !! reminderID with
  | Some jobs =>
      match jobs !! jobType with
      | Some entryID =>
          modify (set_svc (set_jobStore (fun js =>
            let jobs := delete jobType jobs in
            let js := <[reminderID := jobs]> js in
            if bool_decide (size jobs = 0%nat) then delete reminderID js
            else js)));;
          log_Debug (Msg_RemovedJobID entryID reminderID jobType);;
          mret (entryID, true)
      | None => mret (0, false)
      end
  | None => mret (0, false)
  end.

Definition CancelReminderSchedule (reminderID : N) : M (option error) :=
  r ← removeJobID reminderID jobTypeNotify;
  (let '(entryID, ok) := r in
   if ok : bool then
     scheduler.RemoveJob entryID;;
     log_Info (Msg_CancelledNotificationSchedule reminderID entryID)
   else
     log_Debug (Msg_NoActiveNotificationSchedule reminderID));;
  mret None.

Definition CancelCleanupSchedule (reminderID : N) : M (option error) :=
  r ← removeJobID reminderID jobTypeCleanup;
  (let '(entryID, ok) := r in
   if ok : bool then
     scheduler.RemoveJob entryID;;
     log_Info (Msg_CancelledCleanupSchedule reminderID entryID)
   else
     log_Debug (Msg_NoActiveCleanupSchedule reminderID));;
  mret None.

Definition ScheduleReminder (reminder : Reminder) : M (option error) :=
  w ← get;
  match handleNotificationFunc (svc w) with
  | None =>
      log_Error Msg_NotificationHandlerNotSet None;;
      mret (Some ErrInternalServer)
  | Some _ =>
      (* [IsZero() || Before(time.Now())]: the clock is read when the time is
         not zero *)
      late ← (if time.IsZero (Reminder_RemindTime reminder) then mret true
              else now ← time_Now;
                   mret (time.Before (Reminder_RemindTime reminder) now));
      if late : bool then
        log_Warn (Msg_InvalidOrPastTime (Reminder_ID reminder)
                    (Reminder_RemindTime reminder));;
        mret (Some ErrScheduling)
      else
        (* Cancel existing notification job for this reminder, if any *)
        CancelReminderSchedule (Reminder_ID reminder);;
        let spec := formatCronSpec (Reminder_RemindTime reminder) in
        let reminderID := Reminder_ID reminder in
        res ← scheduler.AddJob spec (notify_jobFunc reminderID);
        match res with
        | Err err => mret (Some ErrScheduling)
        | Ok entryID =>
            storeJobID reminderID jobTypeNotify entryID;;
            log_Info (Msg_ScheduledNotification reminderID
                        (Reminder_RemindTime reminder) entryID);;
            mret None
        end
  end.

Definition ScheduleReminderCleanup (reminderID : N) : M (option error) :=
  w ← get;
  match handleCleanupFunc (svc w) with
  | None =>
      log_Error Msg_CleanupHandlerNotSet None;;
      mret (Some ErrInternalServer)
  | Some _ =>
      (* Cancel existing cleanup job first *)
      CancelCleanupSchedule reminderID;;
      now ← time_Now;
      let cleanupTime := time.Add now cleanupGracePeriod in
      let spec := formatCronSpec cleanupTime in
      let capturedReminderID := reminderID in
      res ← scheduler.AddJob spec (cleanup_jobFunc capturedReminderID);
      match res with
      | Err err => mret (Some ErrScheduling)
      | Ok entryID =>
          storeJobID capturedReminderID jobTypeCleanup entryID;;
          log_Info (Msg_ScheduledCleanup capturedReminderID cleanupTime entryID);;
          mret None
      end
  end.

(** The loop of [InitializeSchedules], with its two counters. *)
Fixpoint InitializeSchedules_loop (reminders : list Reminder) (now : Time)
    (scheduledCount deletedCount : Z) : M (Z * Z) :=
  match reminders with
  | [] => mret (scheduledCount, deletedCount)
  | reminder :: rest =>
      if time.IsZero (Reminder_RemindTime reminder) then
        log_Warn (Msg_ZeroTimeSkipping (Reminder_ID reminder));;
        InitializeSchedules_loop rest now scheduledCount deletedCount
      else if time.Before (Reminder_RemindTime reminder) now then
        (* Delete past reminders immediately on startup *)
        err ← reminderRepo.Delete (Reminder_ID reminder);
        match err with
        | Some err =>
            log_Error (Msg_FailedToDeletePastReminder (Reminder_ID reminder))
              (Some err);;
            InitializeSchedules_loop rest now scheduledCount deletedCount
        | None =>
            log_Info (Msg_DeletedPastReminder (Reminder_ID reminder));;
            InitializeSchedules_loop rest now scheduledCount (deletedCount + 1)
        end
      else
        (* Schedule future reminders *)
        err ← ScheduleReminder reminder;
        match err with
        | Some err =>
            log_Error (Msg_FailedToScheduleDuringInit (Reminder_ID reminder))
              (Some err);;
            InitializeSchedules_loop rest now scheduledCount deletedCount
        | None =>
            InitializeSchedules_loop rest now (scheduledCount + 1) deletedCount
        end
  end.

Definition InitializeSchedules : M (option error) :=
  log_Info Msg_InitializingSchedules;;
  res ← reminderRepo.FindAll;
  match res with
  | Err err =>
      log_Error Msg_FailedToRetrieveReminders (Some err);;
      mret (Some ErrDatabaseOperation)
  | Ok reminders =>
      now ← time_Now;
      counts ← InitializeSchedules_loop reminders now 0 0;
      log_Info (Msg_InitializationComplete counts.1 counts.2);;
      es ← scheduler.GetEntries;
      log_Debug (Msg_CurrentCronEntries es);;
      mret None
  end.

(** ** The reminder service, [internal/application/service/reminder_impl.go] *)

Module reminderService.

(** The test [errors.Is(err, gorm.ErrRecordNotFound) ||
    errors.Is(errors.Unwrap(err), gorm.ErrRecordNotFound)]. *)
Definition is_record_not_found (err : error) : bool :=
  errors_Is err gorm_ErrRecordNotFound.

Definition CreateReminder (userID content : string) : M (result N) :=
  let reminder := mkReminder 0%N userID content 0 in
  res ← reminderRepo.Create reminder;
  match res with
  | Err err =>
      log_Error (Msg_FailedToCreateReminder userID) (Some err);;
      mret (Err ErrDatabaseOperation)
  | Ok reminderID =>
      log_Info (Msg_CreatedInitialReminder reminderID userID);;
      mret (Ok reminderID)
  end.

(** The loop of [CancelReminder] over the reminders it found. *)
Fixpoint CancelReminder_loop (remindersToCancel : list Reminder)
    (cancelledCount : Z) : M Z :=
  match remindersToCancel with
  | [] => mret cancelledCount
  | reminder :: rest =>
      err ← CancelReminderSchedule (Reminder_ID reminder);
      match err with
      | Some err =>
          log_Error (Msg_FailedToCancelNotificationSchedule (Reminder_ID reminder))
            (Some err)
      | None => mret tt
      end;;
      err ← CancelCleanupSchedule (Reminder_ID reminder);
      match err with
      | Some err =>
          log_Error (Msg_FailedToCancelCleanupSchedule (Reminder_ID reminder))
            (Some err)
      | None => mret tt
      end;;
      CancelReminder_loop rest (cancelledCount + 1)
  end.

Definition CancelReminder (userID content : string) : M (option error) :=
  res ← reminderRepo.FindByUserIDAndContent userID content;
  match res with
  | Err err =>
      log_Error (Msg_FailedToFindByContent content userID) (Some err);;
      mret (Some ErrDatabaseOperation)
  | Ok remindersToCancel =>
      if bool_decide (length remindersToCancel = 0%nat) then
        mret (Some ErrReminderNotFound)
      else
        (* Delete from DB first *)
        err ← reminderRepo.DeleteByUserIDAndContent userID content;
        match err with
        | Some err =>
            log_Error (Msg_FailedToDeleteByContent content userID) (Some err);;
            mret (Some ErrDatabaseOperation)
        | None =>
            cancelledCount ← CancelReminder_loop remindersToCancel 0;
            log_Info (Msg_CancelledReminders cancelledCount content userID);;
            mret None
        end
  end.

Definition Snooze (userID : string) : M (result string) :=
  res ← userRepo.FindByUserID userID;
  match res with
  | Err err =>
      if is_record_not_found err then mret (Err ErrUserNotFound)
      else
        log_Error (Msg_FailedToFindUserDuringSnooze userID) (Some err);;
        mret (Err ErrDatabaseOperation)
  | Ok user =>
      match User_LastNotifyTextID user with
      | None => mret (Err ErrSnoozeUnavailable)
      | Some lastNotifyTextID =>
          if bool_decide (lastNotifyTextID = "") then
            mret (Err ErrSnoozeUnavailable)
          else
            match strconv_ParseUint lastNotifyTextID with
            | None =>
                log_Error (Msg_FailedToParseLastNotifyTextID lastNotifyTextID userID)
                  (Some ErrExternal);;
                mret (Err ErrInternalServer)
            | Some lastNotifyID =>
                res ← reminderRepo.FindByID lastNotifyID;
                match res with
                | Err err =>
                    if is_record_not_found err then
                      log_Warn (Msg_OriginalReminderNotFound lastNotifyID userID);;
                      mret (Err ErrSnoozeUnavailable)
                    else
                      log_Error (Msg_FailedToFindOriginalReminder lastNotifyID userID)
                        (Some err);;
                      mret (Err ErrDatabaseOperation)
                | Ok originalReminder =>
                    (* Cancel the cleanup job for the original reminder *)
                    err ← CancelCleanupSchedule (Reminder_ID originalReminder);
                    match err with
                    | Some err =>
                        log_Error (Msg_FailedToCancelCleanupDuringSnooze
                                     (Reminder_ID originalReminder)) (Some err)
                    | None => mret tt
                    end;;
                    (* Create a new reminder entry with the same content *)
                    res ← CreateReminder userID (Reminder_Content originalReminder);
                    match res with
                    | Err err => mret (Err err)
                    | Ok newReminderID =>
                        let newReminderIDStr := strconv_FormatUint newReminderID in
                        let user := SetStatus user constant.StatusAwaitingTime in
                        let user :=
                          mkUser (User_ID user) (Some newReminderIDStr)
                            (User_LastNotifyTextID user) (User_Status user) in
                        err ← userRepo.Update user;
                        match err with
                        | Some err =>
                            log_Error (Msg_FailedToUpdateUserDuringSnooze userID)
                              (Some err);;
                            mret (Err ErrDatabaseOperation)
                        | None =>
                            log_Info (Msg_SnoozeInitiated userID newReminderID);;
                            mret (Ok (Reminder_Content originalReminder))
                        end
                    end
                end
            end
      end
  end.

(** The text of the notification: the content between corner brackets,
    followed by the Japanese for "it is time". *)
Definition messageText (content : string) : string :=
  "「" +:+ content +:+ "」の時間です".

Definition HandleReminderNotification (reminderID : N) : M (option error) :=
  log_Info (Msg_HandlingNotification reminderID);;
  res ← reminderRepo.FindByID reminderID;
  match res with
  | Err err =>
      if is_record_not_found err then
        log_Warn (Msg_ReminderNotFoundDuringNotification reminderID);;
        mret None (* Don't treat as error if already deleted *)
      else
        log_Error (Msg_FailedToFindReminderForNotification reminderID) (Some err);;
        mret (Some ErrDatabaseOperation)
  | Ok reminder =>
      (* Send push message *)
      err ← lineClient.PushMessages (Reminder_UserID reminder)
              (messageText (Reminder_Content reminder));
      match err with
      | Some err =>
          log_Error (Msg_FailedToPushNotification reminderID (Reminder_UserID reminder))
            (Some err)
      | None =>
          log_Info (Msg_PushedNotification reminderID (Reminder_UserID reminder))
      end;;
      (* Update user's last notified ID *)
      let reminderIDStr := strconv_FormatUint reminderID in
      res ← userRepo.FindByUserID (Reminder_UserID reminder);
      match res with
      | Err err =>
          log_Error (Msg_FailedToFindUserAfterNotification (Reminder_UserID reminder)
                       reminderID) (Some err)
      | Ok user =>
          let user :=
            mkUser (User_ID user) (User_TextID user) (Some reminderIDStr)
              (User_Status user) in
          err ← userRepo.Update user;
          match err with
          | Some err =>
              log_Error (Msg_FailedToUpdateLastNotify (Reminder_UserID reminder)
                           reminderID) (Some err)
          | None =>
              log_Debug (Msg_UpdatedLastNotify (Reminder_UserID reminder) reminderID)
          end
      end;;
      (* Schedule cleanup job *)
      err ← ScheduleReminderCleanup reminderID;
      match err with
      | Some err => log_Error (Msg_FailedToScheduleCleanup reminderID) (Some err)
      | None => mret tt
      end;;
      mret None
  end.

Definition CleanupOldReminders (reminderID : N) : M (option error) :=
  log_Info (Msg_CleaningUp reminderID);;
  err ← reminderRepo.Delete reminderID;
  match err with
  | Some err =>
      if is_record_not_found err then
        log_Warn (Msg_AlreadyDeletedBeforeCleanup reminderID);;
        mret None
      else
        log_Error (Msg_FailedToDeleteDuringCleanup reminderID) (Some err);;
        mret (Some ErrDatabaseOperation)
  | None =>
      log_Info (Msg_CleanedUp reminderID);;
      mret None
  end.

(** [NewReminderService] installs the two handlers; the scheduler service it
    is given is the implementation of this package. *)
Definition NewReminderService : M unit :=
  SetNotificationHandler (Some rs_HandleReminderNotification);;
  SetCleanupHandler (Some rs_CleanupOldReminders);;
  log_Info Msg_HandlersSet.

End reminderService.

(** ** The user service *)

Module userService.

(** [DeleteUser] handles the unfollow event: the reminders of the user are
    deleted, then the session. *)
Definition DeleteUser (userID : string) : M (option error) :=
  err ← reminderRepo.DeleteByUserID userID;
  match err with
  | Some err => log_Error (Msg_FailedToDeleteRemindersOnUnfollow userID) (Some err)
  | None => log_Info (Msg_DeletedRemindersOnUnfollow userID)
  end;;
  err ← userRepo.Delete userID;
  match err with
  | Some err =>
      log_Error (Msg_FailedToDeleteUserSession userID) (Some err);;
      mret (Some ErrDatabaseOperation)
  | None =>
      log_Info (Msg_DeletedUserSession userID);;
      mret None
  end.

End userService.

(** ** Running a job *)

Definition call_handler (h : handlerFunc) (reminderID : N) : M (option error) :=
  match h with
  | rs_HandleReminderNotification =>
      reminderService.HandleReminderNotification reminderID
  | rs_CleanupOldReminders => reminderService.CleanupOldReminders reminderID
  end.

(** The body of the closure of [ScheduleReminder], for a handler that is
    set. *)
Definition notify_body (h : handlerFunc) (reminderID : N) : M unit :=
  log_Info (Msg_ExecutingNotificationJob reminderID);;
  err ← call_handler h reminderID;
  match err with
  | Some err => log_Error (Msg_ErrorHandlingNotification reminderID) (Some err)
  | None => mret tt
  end;;
  (* Remove the job ID from store after execution (it's a one-off) *)
  removeJobID reminderID jobTypeNotify;;
  mret tt.

(** The body of the closure of [ScheduleReminderCleanup]. *)
Definition cleanup_body (h : handlerFunc) (capturedReminderID : N) : M unit :=
  log_Info (Msg_ExecutingCleanupJob capturedReminderID);;
  err ← call_handler h capturedReminderID;
  match err with
  | Some err => log_Error (Msg_ErrorHandlingCleanup capturedReminderID) (Some err)
  | None => mret tt
  end;;
  (* Remove the job ID from store after execution *)
  removeJobID capturedReminderID jobTypeCleanup;;
  mret tt.

(** A closure reads the handler from the service when it runs; calling a
    [nil] function value panics, and there is no world after that. *)
Definition run_jobFunc (j : jobFunc) (w : World) : option World :=
  match j with
  | notify_jobFunc reminderID =>
      h ← handleNotificationFunc (svc w);
      Some (notify_body h reminderID w).2
  | cleanup_jobFunc capturedReminderID =>
      h ← handleCleanupFunc (svc w);
      Some (cleanup_body h capturedReminderID w).2
  end.

(** The engine runs the entries that are due at [t]: the entries it holds at
    that moment, one after the other in the order they were added. *)
Fixpoint run_jobs (js : list jobFunc) (w : World) : option World :=
  match js with
  | [] => Some w
  | j :: js => w' ← run_jobFunc j w; run_jobs js w'
  end.

Definition due (t : Time) (c : cron.Cron) : list cron.Entry :=
  filter (fun e => cron.matches (cron.Schedule e) t = true) (cron.entries c).

Definition fire (t : Time) (w : World) : option World :=
  run_jobs (cron.Job <$> due t (cronScheduler w)) w.

(** ** Start of the process, [cmd/api/main.go] *)

(** The world when the services have been built and before the schedules are
    initialized: an empty registry, an engine without entries, both handlers
    set. *)
Definition started (t : ReminderTable) (users : gmap string User)
    (now : Time) (later : list Time) (failing : external_call -> bool) : World :=
  (reminderService.NewReminderService
     (mkWorld NewSchedulerService scheduler.NewScheduler t users [] [] now later
        failing)).2.

Definition no_failure : external_call -> bool := fun _ => false.

(** * Properties *)

(** ** Clock fields *)

Section ClockFields.

Import time.

Lemma second_of_range t : 0 <= second_of t < 60.
Proof. unfold second_of. apply Z.mod_pos_bound. lia. Qed.

Lemma minute_of_range t : 0 <= minute_of t < 60.
Proof. unfold minute_of. apply Z.mod_pos_bound. lia. Qed.

Lemma hour_of_range t : 0 <= hour_of t < 24.
Proof. unfold hour_of. apply Z.mod_pos_bound. lia. Qed.

Lemma civil_doe_range days : 0 <= civil_doe days < 146097.
Proof. unfold civil_doe. apply Z.mod_pos_bound. lia. Qed.

Lemma doy_of_doe_range doe : 0 <= doe < 146097 -> 0 <= doy_of_doe doe <= 365.
Proof.
  intros H. unfold doy_of_doe, yoe_of_doe.
  Z.div_mod_to_equations. lia.
Qed.

Lemma mp_of_doe_range doe : 0 <= doe < 146097 -> 0 <= mp_of_doe doe <= 11.
Proof.
  intros H. pose proof (doy_of_doe_range doe H) as Hd.
  unfold mp_of_doe. Z.div_mod_to_equations. lia.
Qed.

Lemma day_of_range t : 1 <= day_of t <= 31.
Proof.
  unfold day_of. pose proof (civil_doe_range (abs_days t)) as H.
  pose proof (doy_of_doe_range _ H) as Hd.
  unfold day_of_doe, mp_of_doe.
  Z.div_mod_to_equations. lia.
Qed.

Lemma month_of_range t : 1 <= month_of t <= 12.
Proof.
  unfold month_of, month_of_doe.
  pose proof (mp_of_doe_range _ (civil_doe_range (abs_days t))) as H.
  destruct (Z.ltb_spec (mp_of_doe (civil_doe (abs_days t))) 10); lia.
Qed.

End ClockFields.

(** ** Numerals and the parser of the cron engine *)

Fixpoint all_below (n : nat) (p : Z -> bool) : bool :=
  match n with
  | O => true
  | S k => p (Z.of_nat k) && all_below k p
  end.

Lemma all_below_spec n p :
  all_below n p = true -> forall z, 0 <= z < Z.of_nat n -> p z = true.
Proof.
  induction n as [|k IH]; simpl; intros H z Hz; [lia|].
  apply andb_true_iff in H as [Hk Hrest].
  destruct (decide (z = Z.of_nat k)) as [->|Hne]; [done|].
  apply IH; [done|lia].
Qed.

Fixpoint no_space (s : string) : bool :=
  match s with
  | EmptyString => true
  | String c s' => negb (cron.is_space c) && no_space s'
  end.

(** What the parser needs to know of a numeral below sixty. *)
Definition numeral_ok (z : Z) : bool :=
  bool_decide (digits_value (fmt_d z) = Some z)
  && no_space (fmt_d z)
  && negb (bool_decide (fmt_d z = "")).

Lemma numerals_ok z : 0 <= z < 60 -> numeral_ok z = true.
Proof. apply (all_below_spec 60). vm_compute. reflexivity. Qed.

Lemma getField_numeral lo hi z :
  0 <= z < 60 -> lo <= z <= hi ->
  cron.getField lo hi (fmt_d z) = Some (cron.Exactly z).
Proof.
  intros Hz Hb. pose proof (numerals_ok z Hz) as H.
  unfold numeral_ok in H.
  apply andb_true_iff in H as [H _]. apply andb_true_iff in H as [H _].
  apply bool_decide_eq_true in H.
  unfold cron.getField.
  assert (fmt_d z ≠ "*") as H1 by (intros E; rewrite E in H; discriminate).
  assert (fmt_d z ≠ "?") as H2 by (intros E; rewrite E in H; discriminate).
  rewrite (bool_decide_eq_false_2 _ H1), (bool_decide_eq_false_2 _ H2). simpl.
  rewrite H.
  destruct (Z.leb_spec lo z); [|lia]. destruct (Z.leb_spec z hi); [|lia]. done.
Qed.

Lemma string_app_cons x (a b : string) : String x a +:+ b = String x (a +:+ b).
Proof. reflexivity. Qed.

Lemma string_app_assoc (a b c : string) : (a +:+ b) +:+ c = a +:+ (b +:+ c).
Proof.
  induction a as [|x a IH]; [done|].
  rewrite !string_app_cons. f_equal. exact IH.
Qed.

Lemma string_app_empty_r (a : string) : a +:+ "" = a.
Proof.
  induction a as [|x a IH]; [done|]. rewrite string_app_cons. by f_equal.
Qed.

Lemma fields_aux_word cur a s :
  no_space a = true ->
  cron.fields_aux cur (a +:+ s) = cron.fields_aux (cur +:+ a) s.
Proof.
  revert cur. induction a as [|c a IH]; intros cur H.
  - by rewrite string_app_empty_r.
  - simpl in H. apply andb_true_iff in H as [Hc Ha].
    apply negb_true_iff in Hc.
    rewrite string_app_cons. simpl. rewrite Hc.
    rewrite (IH _ Ha), string_app_assoc. reflexivity.
Qed.

Lemma Fields_numeral z rest :
  0 <= z < 60 ->
  cron.Fields (fmt_d z +:+ " " +:+ rest) = fmt_d z :: cron.Fields rest.
Proof.
  intros Hz. pose proof (numerals_ok z Hz) as H. unfold numeral_ok in H.
  apply andb_true_iff in H as [H Hne]. apply andb_true_iff in H as [_ Hsp].
  apply negb_true_iff, bool_decide_eq_false in Hne.
  unfold cron.Fields. rewrite (fields_aux_word _ _ _ Hsp).
  rewrite string_app_cons. change ("" +:+ rest) with rest. simpl.
  change ("" +:+ fmt_d z) with (fmt_d z).
  destruct (fmt_d z); [done|reflexivity].
Qed.

(** The schedule that the engine builds for the spec of an instant. *)
Definition schedule_at (t : Time) : cron.SpecSchedule :=
  cron.mkSpec (cron.Exactly (time.second_of t)) (cron.Exactly (time.minute_of t))
    (cron.Exactly (time.hour_of t)) (cron.Exactly (time.day_of t))
    (cron.Exactly (time.month_of t)) cron.Star.

Lemma Fields_formatCronSpec t :
  cron.Fields (formatCronSpec t)
  = [fmt_d (time.second_of t); fmt_d (time.minute_of t); fmt_d (time.hour_of t);
     fmt_d (time.day_of t); fmt_d (time.month_of t); "*"].
Proof.
  pose proof (second_of_range t). pose proof (minute_of_range t).
  pose proof (hour_of_range t). pose proof (day_of_range t).
  pose proof (month_of_range t).
  unfold formatCronSpec.
  rewrite !Fields_numeral by lia.
  replace (fmt_d (time.month_of t) +:+ " *")
    with (fmt_d (time.month_of t) +:+ " " +:+ "*") by reflexivity.
  rewrite Fields_numeral by lia. reflexivity.
Qed.

(** The engine accepts every spec that [formatCronSpec] builds. *)
Lemma Parse_formatCronSpec t :
  cron.Parse (formatCronSpec t) = Some (schedule_at t).
Proof.
  pose proof (second_of_range t). pose proof (minute_of_range t).
  pose proof (hour_of_range t). pose proof (day_of_range t).
  pose proof (month_of_range t).
  unfold cron.Parse. rewrite Fields_formatCronSpec.
  rewrite !getField_numeral by lia. reflexivity.
Qed.

Lemma schedule_at_matches t : cron.matches (schedule_at t) t = true.
Proof.
  unfold cron.matches, cron.dayMatches, schedule_at; simpl.
  rewrite !Z.eqb_refl. reflexivity.
Qed.

(** ** The job registry *)

(** The handle that the registry holds for a reminder and a job type. *)
Definition registered (js : gmap N (gmap string Z)) (reminderID : N)
    (jobType : string) : option Z :=
  js !! reminderID ≫= fun jobs => jobs !! jobType.

(** The registry after [storeJobID] and after a [removeJobID] that finds the
    handle. *)
Definition register (reminderID : N) (jobType : string) (entryID : Z)
    (js : gmap N (gmap string Z)) : gmap N (gmap string Z) :=
  <[reminderID := <[jobType := entryID]> (default ∅ (js !! reminderID))]> js.

Definition unregister (reminderID : N) (jobType : string)
    (js : gmap N (gmap string Z)) : gmap N (gmap string Z) :=
  let jobs := delete jobType (default ∅ (js !! reminderID)) in
  if bool_decide (size jobs = 0%nat) then delete reminderID js
  else <[reminderID := jobs]> js.

(** No reminder keeps an empty bucket. *)
Definition pruned (js : gmap N (gmap string Z)) : Prop :=
  map_Forall (fun _ jobs => jobs ≠ (∅ : gmap string Z)) js.

Lemma registered_register rid k e js rid' k' :
  registered (register rid k e js) rid' k'
  = if decide (rid' = rid ∧ k' = k) then Some e else registered js rid' k'.
Proof.
  unfold registered, register.
  destruct (decide (rid' = rid)) as [->|Hr].
  - rewrite lookup_insert_eq. simpl.
    destruct (decide (k' = k)) as [->|Hk].
    + rewrite lookup_insert_eq. by rewrite decide_True.
    + rewrite lookup_insert_ne by done. rewrite decide_False by (intros [? ?]; done).
      destruct (js !! rid); simpl; [done|]. by rewrite lookup_empty.
  - rewrite lookup_insert_ne by done. by rewrite decide_False by (intros [? ?]; done).
Qed.

Lemma registered_unregister rid k js rid' k' :
  registered (unregister rid k js) rid' k'
  = if decide (rid' = rid ∧ k' = k) then None else registered js rid' k'.
Proof.
  unfold registered, unregister.
  case_bool_decide as Hsz.
  - apply map_size_empty_iff in Hsz.
    destruct (decide (rid' = rid)) as [->|Hr].
    + rewrite lookup_delete_eq. simpl.
      case_decide; [done|].
      destruct (js !! rid) as [jobs|]; simpl in *; [|done].
      destruct (decide (k' = k)) as [->|Hk]; [tauto|].
      rewrite <- (lookup_delete_ne jobs k k') by done.
      by rewrite Hsz, lookup_empty.
    + rewrite lookup_delete_ne by done. by rewrite decide_False by (intros [? ?]; done).
  - destruct (decide (rid' = rid)) as [->|Hr].
    + rewrite lookup_insert_eq. simpl.
      destruct (decide (k' = k)) as [->|Hk].
      * rewrite lookup_delete_eq. by rewrite decide_True.
      * rewrite lookup_delete_ne by done. rewrite decide_False by (intros [? ?]; done).
        destruct (js !! rid); simpl; [done|]. by rewrite lookup_empty.
    + rewrite lookup_insert_ne by done. by rewrite decide_False by (intros [? ?]; done).
Qed.

Lemma pruned_empty : pruned ∅.
Proof. apply map_Forall_empty. Qed.

Lemma pruned_register rid k e js : pruned js -> pruned (register rid k e js).
Proof.
  intros H. unfold register. apply map_Forall_insert_2; [|done].
  intros E. apply (f_equal (fun m => m !! k)) in E.
  by rewrite lookup_insert_eq, lookup_empty in E.
Qed.

Lemma pruned_unregister rid k js : pruned js -> pruned (unregister rid k js).
Proof.
  intros H. unfold unregister. case_bool_decide as Hsz.
  - by apply map_Forall_delete.
  - apply map_Forall_insert_2; [|done].
    intros E. apply Hsz. by rewrite E, map_size_empty.
Qed.

(** ** Running the monad *)

Ltac run :=
  unfold mbind, M_bind, mret, M_ret, get, modify, fails, log_Error, log_Warn,
    log_Info, log_Debug, log_line in *; simpl in *.

Lemma bind_run {A B} (m : M A) (k : A -> M B) w :
  (m ≫= k) w = let (a, w') := m w in k a w'.
Proof. reflexivity. Qed.

(** ** [storeJobID] and [removeJobID] *)

Definition add_log (l : list LogLine) (w : World) : World :=
  set_logged (fun ls => ls ++ l) w.

Definition set_registry (js : gmap N (gmap string Z)) (w : World) : World :=
  set_svc (set_jobStore (fun _ => js)) w.

Lemma storeJobID_run rid k e w :
  storeJobID rid k e w
  = (tt, add_log [LDebug (Msg_StoredJobID e rid k)]
           (set_registry (register rid k e (jobStore (svc w))) w)).
Proof.
  unfold storeJobID. run. f_equal.
  unfold add_log, set_registry, set_logged, set_svc, set_jobStore; simpl.
  f_equal. f_equal. unfold register.
  destruct (jobStore (svc w) !! rid) eqn:E; simpl; [by rewrite E|].
  rewrite lookup_insert_eq. simpl. by rewrite insert_insert_eq.
Qed.

Lemma removeJobID_absent rid k w :
  registered (jobStore (svc w)) rid k = None ->
  removeJobID rid k w = ((0, false), w).
Proof.
  unfold registered, removeJobID. run. intros H.
  destruct (jobStore (svc w) !! rid) as [jobs|]; simpl in *; [|done].
  by rewrite H.
Qed.

Lemma removeJobID_present rid k e w :
  registered (jobStore (svc w)) rid k = Some e ->
  removeJobID rid k w
  = ((e, true), add_log [LDebug (Msg_RemovedJobID e rid k)]
                  (set_registry (unregister rid k (jobStore (svc w))) w)).
Proof.
  unfold registered, removeJobID. run. intros H.
  destruct (jobStore (svc w) !! rid) as [jobs|] eqn:E; simpl in *; [|done].
  rewrite H. f_equal.
  unfold add_log, set_registry, set_logged, set_svc, set_jobStore; simpl.
  f_equal. f_equal. unfold unregister. rewrite E. simpl.
  case_bool_decide; [|done]. by rewrite delete_insert_eq.
Qed.

#[global] Arguments storeJobID : simpl never.
#[global] Arguments removeJobID : simpl never.

(** ** The effect of the scheduler service on the world, the log apart *)

(** Lines of the log that later properties count; the other lines are
    [quiet]. *)
Definition quiet_line (x : LogLine) : bool :=
  match x with
  | LInfo (Msg_HandlingNotification _) => false
  | LInfo (Msg_CleaningUp _) => false
  | LInfo (Msg_InitializationComplete _ _) => false
  | _ => true
  end.
Definition quiet (l : list LogLine) : Prop := forallb quiet_line l = true.

Lemma quiet_app l1 l2 : quiet l1 -> quiet l2 -> quiet (l1 ++ l2).
Proof. unfold quiet. rewrite forallb_app. by intros -> ->. Qed.

Lemma add_log_add_log l1 l2 w : add_log l2 (add_log l1 w) = add_log (l1 ++ l2) w.
Proof. unfold add_log, set_logged; simpl. by rewrite app_assoc. Qed.

Lemma add_log_nil w : add_log [] w = w.
Proof. unfold add_log, set_logged. destruct w; simpl. by rewrite app_nil_r. Qed.

(** The clock after a reading. *)
Definition tick (w : World) : World :=
  match wall_later w with
  | [] => w
  | t :: l => set_clock t l w
  end.

(** The world after a cancellation for the key [(rid, k)]. *)
Definition cancel_core (rid : N) (k : string) (w : World) : World :=
  match registered (jobStore (svc w)) rid k with
  | Some e =>
      set_cronScheduler (cron.Remove e)
        (set_registry (unregister rid k (jobStore (svc w))) w)
  | None => w
  end.

(** The world after a job has been added to the engine with the spec of the
    instant [t] and its handle stored for the key [(rid, k)]. *)
Definition arm (t : Time) (j : jobFunc) (rid : N) (k : string) (w : World) : World :=
  let id := cron.nextID (cronScheduler w) + 1 in
  set_registry (register rid k id (jobStore (svc w)))
    (set_cronScheduler (fun c =>
       cron.mkCron (cron.entries c ++ [cron.mkEntry id (schedule_at t) j]) id) w).

Lemma tick_add_log l w : tick (add_log l w) = add_log l (tick w).
Proof. unfold tick; simpl. by destruct (wall_later w). Qed.

Lemma cancel_core_add_log rid k l w :
  cancel_core rid k (add_log l w) = add_log l (cancel_core rid k w).
Proof. unfold cancel_core; simpl. by destruct (registered _ _ _). Qed.

Lemma arm_add_log t j rid k l w :
  arm t j rid k (add_log l w) = add_log l (arm t j rid k w).
Proof. reflexivity. Qed.

Lemma time_Now_run w : time_Now w = (wall_now w, tick w).
Proof. reflexivity. Qed.

Lemma RemoveJob_run e w :
  scheduler.RemoveJob e w
  = (tt, add_log [LInfo (Msg_RemovedCronJob e)] (set_cronScheduler (cron.Remove e) w)).
Proof. reflexivity. Qed.

Lemma AddJob_run t j w :
  scheduler.AddJob (formatCronSpec t) j w
  = (Ok (cron.nextID (cronScheduler w) + 1),
     add_log [LInfo (Msg_AddedCronJob (cron.nextID (cronScheduler w) + 1)
                       (formatCronSpec t))]
       (set_cronScheduler (fun c =>
          cron.mkCron (cron.entries c
                       ++ [cron.mkEntry (cron.nextID (cronScheduler w) + 1)
                             (schedule_at t) j])
            (cron.nextID (cronScheduler w) + 1)) w)).
Proof.
  unfold scheduler.AddJob, cron.AddFunc. run.
  rewrite Parse_formatCronSpec. reflexivity.
Qed.

#[global] Arguments scheduler.AddJob : simpl never.
#[global] Arguments scheduler.RemoveJob : simpl never.
#[global] Arguments time_Now : simpl never.
#[global] Arguments formatCronSpec : simpl never.

(** ** Runs *)

(** The lines of a log that are not quiet. *)
Definition loud (l : list LogLine) : list LogLine :=
  List.filter (fun x => negb (quiet_line x)) l.

Lemma loud_app l1 l2 : loud (l1 ++ l2) = loud l1 ++ loud l2.
Proof. apply List.filter_app. Qed.

(** [runs m w r ll c]: from the world [w], whatever has been logged so far,
    the computation [m] returns [r], logs lines of which [ll] are the loud
    ones, and leaves the world [c] with these lines added to the log. *)
Definition runs {A} (m : M A) (w : World) (r : A) (ll : list LogLine)
    (c : World) : Prop :=
  forall l0, exists l, loud l = ll /\ m (add_log l0 w) = (r, add_log (l0 ++ l) c).

Lemma runs_now {A} (m : M A) w r ll c :
  runs m w r ll c -> exists l, loud l = ll /\ m w = (r, add_log l c).
Proof.
  intros H. destruct (H []) as (l & Hl & E).
  rewrite add_log_nil in E. by exists l.
Qed.

Lemma runs_ret {A} (a : A) w : runs (mret a) w a [] w.
Proof. intros l0. exists []. by rewrite app_nil_r. Qed.

Lemma runs_bind {A B} (m : M A) (k : A -> M B) w a ll1 c1 r ll2 c2 :
  runs m w a ll1 c1 -> runs (k a) c1 r ll2 c2 ->
  runs (m ≫= k) w r (ll1 ++ ll2) c2.
Proof.
  intros H1 H2 l0. destruct (H1 l0) as (l1 & Hl1 & E1).
  destruct (H2 (l0 ++ l1)) as (l2 & Hl2 & E2).
  exists (l1 ++ l2). split; [by rewrite loud_app, Hl1, Hl2|].
  rewrite bind_run, E1, E2. by rewrite app_assoc.
Qed.

Lemma runs_get {A} (k : World -> M A) w r ll c :
  (forall l0, runs (k (add_log l0 w)) w r ll c) -> runs (get ≫= k) w r ll c.
Proof. intros H l0. exact (H l0 l0). Qed.

Lemma runs_log x w : runs (log_line x) w tt (loud [x]) w.
Proof.
  intros l0. exists [x]. split; [done|].
  unfold log_line, modify. f_equal. exact (add_log_add_log l0 [x] w).
Qed.

Lemma runs_fails c w : runs (fails c) w (failing w c) [] w.
Proof. intros l0. exists []. by rewrite app_nil_r. Qed.

Lemma runs_modify f w :
  (forall l, f (add_log l w) = add_log l (f w)) -> runs (modify f) w tt [] (f w).
Proof. intros H l0. exists []. rewrite app_nil_r. run. by rewrite H. Qed.

Lemma runs_time_Now w : runs time_Now w (wall_now w) [] (tick w).
Proof.
  intros l0. exists []. rewrite app_nil_r, time_Now_run. by rewrite tick_add_log.
Qed.

(** Two worlds that differ by the bracketing of their logs. *)
Ltac same_world :=
  unfold add_log, set_registry, set_logged, set_svc, set_jobStore,
    set_cronScheduler, set_clock; simpl;
  rewrite <- ?app_assoc;
  first [reflexivity | rewrite app_nil_r; reflexivity].

Lemma runs_removeJobID_present rid k e w :
  registered (jobStore (svc w)) rid k = Some e ->
  runs (removeJobID rid k) w (e, true) []
    (set_registry (unregister rid k (jobStore (svc w))) w).
Proof.
  intros E l0.
  eexists. split; [|rewrite (removeJobID_present rid k e (add_log l0 w) E);
    f_equal; same_world]. reflexivity.
Qed.

Lemma runs_removeJobID_absent rid k w :
  registered (jobStore (svc w)) rid k = None ->
  runs (removeJobID rid k) w (0, false) [] w.
Proof.
  intros E l0. exists []. rewrite app_nil_r. split; [done|].
  by rewrite (removeJobID_absent rid k (add_log l0 w) E).
Qed.

Lemma runs_storeJobID rid k e w :
  runs (storeJobID rid k e) w tt []
    (set_registry (register rid k e (jobStore (svc w))) w).
Proof.
  intros l0. eexists. split; [|rewrite storeJobID_run; f_equal; same_world].
  reflexivity.
Qed.

Lemma runs_RemoveJob e w :
  runs (scheduler.RemoveJob e) w tt [] (set_cronScheduler (cron.Remove e) w).
Proof.
  intros l0. eexists. split; [|rewrite RemoveJob_run; f_equal; same_world].
  reflexivity.
Qed.

Lemma runs_AddJob t j w :
  runs (scheduler.AddJob (formatCronSpec t) j) w
    (Ok (cron.nextID (cronScheduler w) + 1)) []
    (set_cronScheduler (fun c =>
       cron.mkCron (cron.entries c
                    ++ [cron.mkEntry (cron.nextID (cronScheduler w) + 1)
                          (schedule_at t) j])
         (cron.nextID (cronScheduler w) + 1)) w).
Proof.
  intros l0. eexists. split; [|rewrite AddJob_run; f_equal; same_world].
  reflexivity.
Qed.

Lemma is_record_not_found_external :
  reminderService.is_record_not_found ErrExternal = false.
Proof. reflexivity. Qed.

Lemma is_record_not_found_gorm :
  reminderService.is_record_not_found gorm_ErrRecordNotFound = true.
Proof. reflexivity. Qed.

(** Steps through a computation: binds, reads of the world, log lines and
    the operations whose runs are known. *)
Ltac step_op := fail.

Ltac step :=
  cbv beta iota;
  rewrite ?is_record_not_found_external, ?is_record_not_found_gorm;
  cbv beta iota;
  lazymatch goal with
  | |- runs (get ≫= _) _ _ _ _ => apply runs_get; intros ?; simpl
  | |- runs (_ ≫= _) _ _ _ _ => eapply runs_bind
  | |- runs (mret _) _ _ _ _ => apply runs_ret
  | |- runs (log_Error _ _) _ _ _ _ => apply runs_log
  | |- runs (log_Warn _) _ _ _ _ => apply runs_log
  | |- runs (log_Info _) _ _ _ _ => apply runs_log
  | |- runs (log_Debug _) _ _ _ _ => apply runs_log
  | |- runs (fails _) _ _ _ _ => apply runs_fails
  | |- runs time_Now _ _ _ _ => apply runs_time_Now
  | |- runs (removeJobID _ _) _ _ _ _ =>
      first [ eapply runs_removeJobID_present; eassumption
            | apply runs_removeJobID_absent; assumption ]
  | |- runs (storeJobID _ _ _) _ _ _ _ => apply runs_storeJobID
  | |- runs (scheduler.RemoveJob _) _ _ _ _ => apply runs_RemoveJob
  | |- runs (scheduler.AddJob (formatCronSpec _) _) _ _ _ _ => apply runs_AddJob
  | |- _ => step_op
  end.

Lemma runs_eq {A} (m : M A) w r r' ll ll' c c' :
  runs m w r ll c -> r = r' -> ll = ll' -> c = c' -> runs m w r' ll' c'.
Proof. by intros H <- <- <-. Qed.

Ltac steps := repeat step.

Lemma runs_CancelReminderSchedule rid w :
  runs (CancelReminderSchedule rid) w None [] (cancel_core rid jobTypeNotify w).
Proof.
  unfold CancelReminderSchedule, cancel_core.
  destruct (registered (jobStore (svc w)) rid jobTypeNotify) eqn:E;
    (eapply runs_eq; [steps|reflexivity..]).
Qed.

Lemma runs_CancelCleanupSchedule rid w :
  runs (CancelCleanupSchedule rid) w None [] (cancel_core rid jobTypeCleanup w).
Proof.
  unfold CancelCleanupSchedule, cancel_core.
  destruct (registered (jobStore (svc w)) rid jobTypeCleanup) eqn:E;
    (eapply runs_eq; [steps|reflexivity..]).
Qed.

#[global] Arguments CancelReminderSchedule : simpl never.
#[global] Arguments CancelCleanupSchedule : simpl never.

Ltac step_op ::=
  lazymatch goal with
  | |- runs (CancelReminderSchedule _) _ _ _ _ => apply runs_CancelReminderSchedule
  | |- runs (CancelCleanupSchedule _) _ _ _ _ => apply runs_CancelCleanupSchedule
  end.

(** The three ways [ScheduleReminder] runs. *)
Definition valid_time (t now : Time) : bool :=
  negb (time.IsZero t || time.Before t now).

Lemma runs_ScheduleReminder_unset r w :
  handleNotificationFunc (svc w) = None ->
  runs (ScheduleReminder r) w (Some ErrInternalServer) [] w.
Proof.
  intros H. unfold ScheduleReminder. step. rewrite H.
  eapply runs_eq; [steps|reflexivity..].
Qed.

(** The world after [ScheduleReminder] has refused a reminder for its time:
    the clock has been read unless the time is zero. *)
Definition refused (r : Reminder) (w : World) : World :=
  if time.IsZero (Reminder_RemindTime r) then w else tick w.

Lemma runs_ScheduleReminder_invalid r w :
  handleNotificationFunc (svc w) <> None ->
  valid_time (Reminder_RemindTime r) (wall_now w) = false ->
  runs (ScheduleReminder r) w (Some ErrScheduling) [] (refused r w).
Proof.
  intros H Hv. unfold ScheduleReminder, refused. step.
  destruct (handleNotificationFunc (svc w)); [|done].
  apply negb_false_iff in Hv.
  destruct (time.IsZero (Reminder_RemindTime r)) eqn:Hz.
  - eapply runs_eq; [steps|reflexivity..].
  - simpl in Hv.
    eapply runs_eq; [step; [steps|]; rewrite Hv; steps|reflexivity..].
Qed.

Lemma runs_ScheduleReminder_valid r w :
  handleNotificationFunc (svc w) <> None ->
  valid_time (Reminder_RemindTime r) (wall_now w) = true ->
  runs (ScheduleReminder r) w None []
    (arm (Reminder_RemindTime r) (notify_jobFunc (Reminder_ID r)) (Reminder_ID r)
       jobTypeNotify (cancel_core (Reminder_ID r) jobTypeNotify (tick w))).
Proof.
  intros H Hv. unfold ScheduleReminder. step.
  destruct (handleNotificationFunc (svc w)); [|done].
  apply negb_true_iff, orb_false_elim in Hv as [Hz Hb]. rewrite Hz.
  eapply runs_eq; [step; [steps|]; rewrite Hb; steps|reflexivity..].
Qed.

Lemma cancel_core_frame rid k w :
  let w' := cancel_core rid k w in
  handleNotificationFunc (svc w') = handleNotificationFunc (svc w)
  /\ handleCleanupFunc (svc w') = handleCleanupFunc (svc w)
  /\ reminder_content w' = reminder_content w
  /\ user_session w' = user_session w
  /\ pushed w' = pushed w /\ logged w' = logged w
  /\ wall_now w' = wall_now w /\ wall_later w' = wall_later w
  /\ failing w' = failing w.
Proof. unfold cancel_core. by destruct (registered _ _ _). Qed.

Lemma tick_frame w :
  let w' := tick w in
  svc w' = svc w /\ cronScheduler w' = cronScheduler w
  /\ reminder_content w' = reminder_content w
  /\ user_session w' = user_session w
  /\ pushed w' = pushed w /\ logged w' = logged w
  /\ failing w' = failing w.
Proof. unfold tick. by destruct (wall_later w). Qed.

Lemma refused_frame r w :
  let w' := refused r w in
  svc w' = svc w /\ cronScheduler w' = cronScheduler w
  /\ reminder_content w' = reminder_content w
  /\ user_session w' = user_session w
  /\ pushed w' = pushed w /\ logged w' = logged w
  /\ failing w' = failing w.
Proof. unfold refused. destruct (time.IsZero _); [done|apply tick_frame]. Qed.

Lemma runs_ScheduleReminderCleanup_unset rid w :
  handleCleanupFunc (svc w) = None ->
  runs (ScheduleReminderCleanup rid) w (Some ErrInternalServer) [] w.
Proof.
  intros H. unfold ScheduleReminderCleanup. step. rewrite H.
  eapply runs_eq; [steps|reflexivity..].
Qed.

Lemma runs_ScheduleReminderCleanup_set rid w :
  handleCleanupFunc (svc w) <> None ->
  runs (ScheduleReminderCleanup rid) w None []
    (arm (time.Add (wall_now w) cleanupGracePeriod) (cleanup_jobFunc rid) rid
       jobTypeCleanup (tick (cancel_core rid jobTypeCleanup w))).
Proof.
  intros H. unfold ScheduleReminderCleanup. step.
  destruct (handleCleanupFunc (svc w)); [|done].
  eapply runs_eq; [steps|try reflexivity..].
  destruct (cancel_core_frame rid jobTypeCleanup w) as (_&_&_&_&_&_&->&_).
  reflexivity.
Qed.

#[global] Arguments ScheduleReminder : simpl never.
#[global] Arguments ScheduleReminderCleanup : simpl never.

(** ** The registry and the engine *)

Definition job_reminder (j : jobFunc) : N :=
  match j with notify_jobFunc r => r | cleanup_jobFunc r => r end.
Definition job_type (j : jobFunc) : string :=
  match j with
  | notify_jobFunc _ => jobTypeNotify
  | cleanup_jobFunc _ => jobTypeCleanup
  end.

(** The entry of the engine with the handle [e] runs the job of the key
    [(rid, k)]. *)
Definition handle_live (c : cron.Cron) (rid : N) (k : string) (e : Z) : Prop :=
  Exists (fun en => cron.ID en = e ∧ job_reminder (cron.Job en) = rid
                    ∧ job_type (cron.Job en) = k) (cron.entries c).

(** The entries of the engine that run the job of a key, by their handles. *)
Definition live_handles (c : cron.Cron) (rid : N) (k : string) : list Z :=
  cron.ID <$> filter (fun en => job_reminder (cron.Job en) = rid
                                ∧ job_type (cron.Job en) = k) (cron.entries c).

(** A registry is [sound] when every handle it holds is the handle of an
    entry of the engine that runs the job of that key; handles are not used
    twice, and the engine has issued all of them. *)
Definition sound (w : World) : Prop :=
  NoDup (cron.ID <$> cron.entries (cronScheduler w))
  ∧ Forall (fun en => cron.ID en <= cron.nextID (cronScheduler w))
      (cron.entries (cronScheduler w))
  ∧ map_Forall (fun rid jobs =>
      map_Forall (fun k e => handle_live (cronScheduler w) rid k e) jobs)
      (jobStore (svc w))
  ∧ pruned (jobStore (svc w)).

(** It is [exact] when, moreover, every entry of the engine is the one that
    the registry holds for its key. *)
Definition exact (w : World) : Prop :=
  sound w
  ∧ Forall (fun en =>
      registered (jobStore (svc w)) (job_reminder (cron.Job en))
        (job_type (cron.Job en)) = Some (cron.ID en))
      (cron.entries (cronScheduler w)).

#[global] Instance handle_live_dec c rid k e : Decision (handle_live c rid k e).
Proof. unfold handle_live. apply _. Defined.
#[global] Instance pruned_dec js : Decision (pruned js).
Proof. unfold pruned. apply _. Defined.
#[global] Instance sound_dec w : Decision (sound w).
Proof. unfold sound. apply _. Defined.
#[global] Instance exact_dec w : Decision (exact w).
Proof. unfold exact. apply _. Defined.

Lemma sound_registered w rid k e :
  sound w -> registered (jobStore (svc w)) rid k = Some e ->
  handle_live (cronScheduler w) rid k e.
Proof.
  intros (_ & _ & H & _) Hr. unfold registered in Hr.
  destruct (jobStore (svc w) !! rid) as [jobs|] eqn:E; simpl in Hr; [|done].
  exact (H rid jobs E k e Hr).
Qed.

Lemma sound_intro w :
  NoDup (cron.ID <$> cron.entries (cronScheduler w)) ->
  Forall (fun en => cron.ID en <= cron.nextID (cronScheduler w))
    (cron.entries (cronScheduler w)) ->
  (forall rid k e, registered (jobStore (svc w)) rid k = Some e ->
                   handle_live (cronScheduler w) rid k e) ->
  pruned (jobStore (svc w)) ->
  sound w.
Proof.
  intros H1 H2 H3 H4. repeat split; try done.
  intros rid jobs E k e Hk. apply H3. unfold registered. by rewrite E.
Qed.

Lemma ids_inj (l : list cron.Entry) en en' :
  NoDup (cron.ID <$> l) -> en ∈ l -> en' ∈ l -> cron.ID en = cron.ID en' ->
  en = en'.
Proof.
  induction l as [|x l IH]; intros Hnd H1 H2 Heq; [by apply elem_of_nil in H1|].
  rewrite fmap_cons in Hnd. apply NoDup_cons in Hnd as [Hx Hnd].
  apply elem_of_cons in H1 as [->|H1]; apply elem_of_cons in H2 as [->|H2];
    try done.
  - exfalso. apply Hx. rewrite Heq. by apply list_elem_of_fmap_2.
  - exfalso. apply Hx. rewrite <- Heq. by apply list_elem_of_fmap_2.
  - by apply IH.
Qed.

Lemma NoDup_ids_filter (P : cron.Entry -> Prop) `{!forall x, Decision (P x)} l :
  NoDup (cron.ID <$> l) -> NoDup (cron.ID <$> filter P l).
Proof.
  induction l as [|x l IH]; [done|].
  rewrite fmap_cons, NoDup_cons. intros [Hx Hnd].
  rewrite filter_cons. case_decide; [|by apply IH].
  rewrite fmap_cons, NoDup_cons. split; [|by apply IH].
  intros Hin. apply Hx.
  apply list_elem_of_fmap in Hin as (y & -> & Hy).
  apply list_elem_of_filter in Hy as [_ Hy]. by apply list_elem_of_fmap_2.
Qed.

(** In a sound world the handles of two keys differ. *)
Lemma sound_handles_differ w rid k e rid' k' e' :
  sound w ->
  registered (jobStore (svc w)) rid k = Some e ->
  registered (jobStore (svc w)) rid' k' = Some e' ->
  e = e' -> rid = rid' ∧ k = k'.
Proof.
  intros Hs H1 H2 ->.
  pose proof (sound_registered _ _ _ _ Hs H1) as L1.
  pose proof (sound_registered _ _ _ _ Hs H2) as L2.
  apply Exists_exists in L1 as (en & Hin & Hid & Hr & Hk).
  apply Exists_exists in L2 as (en' & Hin' & Hid' & Hr' & Hk').
  destruct Hs as (Hnd & _).
  assert (en = en') as -> by (eapply ids_inj; eauto; congruence).
  by subst.
Qed.

(** The soundness and the exactness of a world depend on the service and on
    the engine only. *)
Lemma sound_ext w w' :
  jobStore (svc w') = jobStore (svc w) -> cronScheduler w' = cronScheduler w ->
  sound w -> sound w'.
Proof. unfold sound. by intros -> ->. Qed.

Lemma exact_ext w w' :
  jobStore (svc w') = jobStore (svc w) -> cronScheduler w' = cronScheduler w ->
  exact w -> exact w'.
Proof. unfold exact, sound. by intros -> ->. Qed.

Lemma tick_sound w : sound w -> sound (tick w).
Proof.
  destruct (tick_frame w) as (E1 & E2 & _). apply sound_ext; [by rewrite E1|done].
Qed.

Lemma tick_exact w : exact w -> exact (tick w).
Proof.
  destruct (tick_frame w) as (E1 & E2 & _). apply exact_ext; [by rewrite E1|done].
Qed.

Lemma refused_sound r w : sound w -> sound (refused r w).
Proof. unfold refused. destruct (time.IsZero _); [done|apply tick_sound]. Qed.

Lemma refused_exact r w : exact w -> exact (refused r w).
Proof. unfold refused. destruct (time.IsZero _); [done|apply tick_exact]. Qed.

Lemma add_log_sound l w : sound w -> sound (add_log l w).
Proof. by apply sound_ext. Qed.

Lemma add_log_exact l w : exact w -> exact (add_log l w).
Proof. by apply exact_ext. Qed.

(** *** Cancellation *)

Lemma cancel_core_registered rid k w rid' k' :
  registered (jobStore (svc (cancel_core rid k w))) rid' k'
  = if decide (rid' = rid ∧ k' = k) then None
    else registered (jobStore (svc w)) rid' k'.
Proof.
  unfold cancel_core.
  destruct (registered (jobStore (svc w)) rid k) as [e|] eqn:E; simpl.
  - apply registered_unregister.
  - case_decide as H; [|done]. destruct H as [-> ->]. done.
Qed.

Lemma cancel_core_entries rid k w :
  cron.entries (cronScheduler (cancel_core rid k w))
  = match registered (jobStore (svc w)) rid k with
    | Some e => filter (fun en => cron.ID en ≠ e) (cron.entries (cronScheduler w))
    | None => cron.entries (cronScheduler w)
    end.
Proof. unfold cancel_core. by destruct (registered _ _ _). Qed.

Lemma cancel_core_nextID rid k w :
  cron.nextID (cronScheduler (cancel_core rid k w)) = cron.nextID (cronScheduler w).
Proof. unfold cancel_core. by destruct (registered _ _ _). Qed.

Lemma cancel_core_pruned rid k w :
  pruned (jobStore (svc w)) -> pruned (jobStore (svc (cancel_core rid k w))).
Proof.
  unfold cancel_core. destruct (registered _ _ _); [|done].
  simpl. apply pruned_unregister.
Qed.

Lemma cancel_core_sound rid k w : sound w -> sound (cancel_core rid k w).
Proof.
  intros Hs. pose proof Hs as (Hnd & Hb & _ & Hp).
  apply sound_intro.
  - rewrite cancel_core_entries. destruct (registered _ _ _); [|done].
    by apply NoDup_ids_filter.
  - rewrite cancel_core_entries, cancel_core_nextID.
    destruct (registered _ _ _); [|done].
    apply Forall_forall. intros en Hin%list_elem_of_filter.
    rewrite Forall_forall in Hb. apply Hb. tauto.
  - intros rid' k' e'. rewrite cancel_core_registered.
    case_decide as Hkey; [done|]. intros Hr'.
    pose proof (sound_registered _ _ _ _ Hs Hr') as L.
    unfold handle_live. rewrite cancel_core_entries.
    destruct (registered (jobStore (svc w)) rid k) as [e|] eqn:E; [|done].
    apply Exists_exists in L as (en & Hin & Hid & Hj).
    apply Exists_exists. exists en. split; [|done].
    apply list_elem_of_filter. split; [|done].
    intros Heq. apply Hkey.
    destruct (sound_handles_differ w rid k e rid' k' e' Hs E Hr'); [congruence|].
    by subst.
  - by apply cancel_core_pruned.
Qed.

Lemma cancel_core_exact rid k w : exact w -> exact (cancel_core rid k w).
Proof.
  intros [Hs He]. split; [by apply cancel_core_sound|].
  rewrite Forall_forall in He. apply Forall_forall. intros en.
  rewrite cancel_core_entries, cancel_core_registered.
  destruct (registered (jobStore (svc w)) rid k) as [e|] eqn:E.
  - intros [Hne Hin]%list_elem_of_filter.
    case_decide as Hkey; [|by apply He].
    destruct Hkey as [Hr Hk]. specialize (He en Hin).
    rewrite Hr, Hk, E in He. congruence.
  - intros Hin. case_decide as Hkey; [|by apply He].
    destruct Hkey as [Hr Hk]. specialize (He en Hin).
    rewrite Hr, Hk, E in He. congruence.
Qed.

(** After a cancellation in an exact world, no entry of the engine runs the
    job of the key. *)
Lemma cancel_core_no_live rid k w :
  exact w -> live_handles (cronScheduler (cancel_core rid k w)) rid k = [].
Proof.
  intros He. pose proof (cancel_core_exact rid k w He) as [_ He'].
  unfold live_handles.
  destruct (filter _ _) as [|en l] eqn:E; [done|]. exfalso.
  assert (en ∈ en :: l) as Hin by left.
  rewrite <- E in Hin. apply list_elem_of_filter in Hin as [[Hr Hk] Hin].
  rewrite Forall_forall in He'. specialize (He' en Hin).
  rewrite cancel_core_registered, decide_True in He' by done. done.
Qed.

(** *** Arming *)

Lemma arm_registered t j rid k w rid' k' :
  registered (jobStore (svc (arm t j rid k w))) rid' k'
  = if decide (rid' = rid ∧ k' = k) then Some (cron.nextID (cronScheduler w) + 1)
    else registered (jobStore (svc w)) rid' k'.
Proof. unfold arm; simpl. apply registered_register. Qed.

Lemma arm_entries t j rid k w :
  cron.entries (cronScheduler (arm t j rid k w))
  = cron.entries (cronScheduler w)
    ++ [cron.mkEntry (cron.nextID (cronScheduler w) + 1) (schedule_at t) j].
Proof. reflexivity. Qed.

Lemma arm_nextID t j rid k w :
  cron.nextID (cronScheduler (arm t j rid k w)) = cron.nextID (cronScheduler w) + 1.
Proof. reflexivity. Qed.

Lemma arm_frame t j rid k w :
  let w' := arm t j rid k w in
  handleNotificationFunc (svc w') = handleNotificationFunc (svc w)
  /\ handleCleanupFunc (svc w') = handleCleanupFunc (svc w)
  /\ reminder_content w' = reminder_content w
  /\ user_session w' = user_session w
  /\ pushed w' = pushed w /\ logged w' = logged w
  /\ wall_now w' = wall_now w /\ wall_later w' = wall_later w
  /\ failing w' = failing w.
Proof. by repeat split. Qed.

Lemma fresh_handle w en :
  sound w -> en ∈ cron.entries (cronScheduler w) ->
  cron.ID en ≠ cron.nextID (cronScheduler w) + 1.
Proof.
  intros (_ & Hb & _) Hin. rewrite Forall_forall in Hb.
  specialize (Hb en Hin). lia.
Qed.

Lemma arm_sound t j w :
  sound w -> sound (arm t j (job_reminder j) (job_type j) w).
Proof.
  intros Hs. pose proof Hs as (Hnd & Hb & _ & Hp).
  apply sound_intro.
  - rewrite arm_entries, fmap_app. apply NoDup_app. split; [done|]. split.
    + intros e Hin Hin'. apply list_elem_of_singleton in Hin'.
      apply list_elem_of_fmap in Hin as (en & -> & Hen).
      by apply (fresh_handle w en).
    + apply NoDup_singleton.
  - rewrite arm_entries, arm_nextID. apply Forall_app. split.
    + eapply Forall_impl; [exact Hb|]. simpl. intros. lia.
    + apply Forall_singleton. simpl. lia.
  - intros rid' k' e'. rewrite arm_registered. unfold handle_live.
    rewrite arm_entries, Exists_app.
    case_decide as Hkey.
    + intros [= <-]. right. apply Exists_cons_hd. simpl.
      destruct Hkey as [-> ->]. done.
    + intros Hr. left. exact (sound_registered _ _ _ _ Hs Hr).
  - simpl. by apply pruned_register.
Qed.

Lemma arm_exact t j w :
  exact w ->
  registered (jobStore (svc w)) (job_reminder j) (job_type j) = None ->
  exact (arm t j (job_reminder j) (job_type j) w).
Proof.
  intros [Hs He] Hfree. split; [by apply arm_sound|].
  rewrite arm_entries. apply Forall_app. split.
  - rewrite Forall_forall in He. apply Forall_forall. intros en Hin.
    rewrite arm_registered. specialize (He en Hin).
    case_decide as Hkey; [|done]. destruct Hkey as [Hr Hk].
    rewrite Hr, Hk, Hfree in He. done.
  - apply Forall_singleton. simpl.
    rewrite (arm_registered t j (job_reminder j) (job_type j) w).
    by rewrite decide_True.
Qed.

(** *** Live handles in an exact world *)

Lemma all_equal_singleton (l : list Z) e :
  NoDup l -> e ∈ l -> (forall x, x ∈ l -> x = e) -> l = [e].
Proof.
  intros Hnd Hin Hall. destruct l as [|x l]; [by apply elem_of_nil in Hin|].
  assert (x = e) as -> by (apply Hall; left).
  f_equal. destruct l as [|y l]; [done|]. exfalso.
  assert (y = e) as -> by (apply Hall; right; left).
  apply NoDup_cons in Hnd as [Hx _]. apply Hx. left.
Qed.

Lemma exact_live_handles w rid k :
  exact w ->
  live_handles (cronScheduler w) rid k
  = match registered (jobStore (svc w)) rid k with
    | Some e => [e]
    | None => []
    end.
Proof.
  intros [Hs He]. pose proof Hs as (Hnd & _).
  rewrite Forall_forall in He. unfold live_handles.
  destruct (registered (jobStore (svc w)) rid k) as [e|] eqn:E.
  - apply all_equal_singleton.
    + by apply NoDup_ids_filter.
    + pose proof (sound_registered _ _ _ _ Hs E) as L.
      apply Exists_exists in L as (en & Hin & <- & Hj).
      apply list_elem_of_fmap_2, list_elem_of_filter. done.
    + intros x (en & -> & Hen)%list_elem_of_fmap.
      apply list_elem_of_filter in Hen as [[Hr Hk] Hin].
      specialize (He en Hin). rewrite Hr, Hk, E in He. congruence.
  - destruct (filter _ _) as [|en l] eqn:F; [done|]. exfalso.
    assert (en ∈ en :: l) as Hin by left.
    rewrite <- F in Hin. apply list_elem_of_filter in Hin as [[Hr Hk] Hin].
    specialize (He en Hin). rewrite Hr, Hk, E in He. done.
Qed.

(** ** Sequences of calls to the scheduler service *)

Inductive call : Set :=
  | call_ScheduleReminder (reminder : Reminder)
  | call_ScheduleReminderCleanup (reminderID : N)
  | call_CancelReminderSchedule (reminderID : N)
  | call_CancelCleanupSchedule (reminderID : N).

Definition do_call (c : call) : M (option error) :=
  match c with
  | call_ScheduleReminder reminder => ScheduleReminder reminder
  | call_ScheduleReminderCleanup reminderID => ScheduleReminderCleanup reminderID
  | call_CancelReminderSchedule reminderID => CancelReminderSchedule reminderID
  | call_CancelCleanupSchedule reminderID => CancelCleanupSchedule reminderID
  end.

Fixpoint do_calls (cs : list call) (w : World) : World :=
  match cs with
  | [] => w
  | c :: cs => do_calls cs (do_call c w).2
  end.

(** The key of the job that a call schedules. *)
Definition scheduled_key (c : call) : option (N * string) :=
  match c with
  | call_ScheduleReminder reminder => Some (Reminder_ID reminder, jobTypeNotify)
  | call_ScheduleReminderCleanup reminderID => Some (reminderID, jobTypeCleanup)
  | _ => None
  end.

(** The world of a process that has built its scheduler service and has
    not scheduled anything yet; the handlers may be set or not. *)
Definition fresh (hn hc : option handlerFunc) (t : ReminderTable)
    (users : gmap string User) (now : Time) (later : list Time)
    (failing : external_call -> bool) : World :=
  mkWorld (mkService hn hc ∅) scheduler.NewScheduler t users [] [] now later failing.

Lemma fresh_exact hn hc t users now later failing :
  exact (fresh hn hc t users now later failing).
Proof.
  split; [|by apply Forall_nil].
  apply sound_intro; simpl.
  - apply NoDup_nil_2.
  - apply Forall_nil_2.
  - intros rid k e. unfold registered. by rewrite lookup_empty.
  - apply pruned_empty.
Qed.

(** The log is the only part of the world that [add_log] touches. *)
Lemma svc_add_log l w : svc (add_log l w) = svc w.
Proof. reflexivity. Qed.
Lemma cronScheduler_add_log l w : cronScheduler (add_log l w) = cronScheduler w.
Proof. reflexivity. Qed.
Lemma reminder_content_add_log l w : reminder_content (add_log l w) = reminder_content w.
Proof. reflexivity. Qed.
Lemma user_session_add_log l w : user_session (add_log l w) = user_session w.
Proof. reflexivity. Qed.
Lemma pushed_add_log l w : pushed (add_log l w) = pushed w.
Proof. reflexivity. Qed.
Lemma logged_add_log l w : logged (add_log l w) = logged w ++ l.
Proof. reflexivity. Qed.
Lemma wall_now_add_log l w : wall_now (add_log l w) = wall_now w.
Proof. reflexivity. Qed.
Lemma wall_later_add_log l w : wall_later (add_log l w) = wall_later w.
Proof. reflexivity. Qed.
Lemma failing_add_log l w : failing (add_log l w) = failing w.
Proof. reflexivity. Qed.

Ltac drop_log :=
  cbn [fst snd] in *;
  rewrite ?svc_add_log, ?cronScheduler_add_log, ?reminder_content_add_log,
    ?user_session_add_log, ?pushed_add_log, ?wall_now_add_log,
    ?wall_later_add_log, ?failing_add_log in *.

Lemma ScheduleReminder_exact r w : exact w -> exact (ScheduleReminder r w).2.
Proof.
  intros He.
  destruct (handleNotificationFunc (svc w)) as [h|] eqn:Hh.
  - assert (handleNotificationFunc (svc w) ≠ None) as Hset by congruence.
    destruct (valid_time (Reminder_RemindTime r) (wall_now w)) eqn:Hv.
    + destruct (runs_now _ _ _ _ _ (runs_ScheduleReminder_valid r w Hset Hv))
        as (l & _ & ->).
      apply add_log_exact.
      apply (arm_exact _ (notify_jobFunc (Reminder_ID r))).
      * by apply cancel_core_exact, tick_exact.
      * simpl. rewrite cancel_core_registered. by rewrite decide_True.
    + destruct (runs_now _ _ _ _ _ (runs_ScheduleReminder_invalid r w Hset Hv))
        as (l & _ & ->).
      by apply add_log_exact, refused_exact.
  - destruct (runs_now _ _ _ _ _ (runs_ScheduleReminder_unset r w Hh))
      as (l & _ & ->).
    by apply add_log_exact.
Qed.

Lemma ScheduleReminderCleanup_exact rid w :
  exact w -> exact (ScheduleReminderCleanup rid w).2.
Proof.
  intros He.
  destruct (handleCleanupFunc (svc w)) as [h|] eqn:Hh.
  - assert (handleCleanupFunc (svc w) ≠ None) as Hset by congruence.
    destruct (runs_now _ _ _ _ _ (runs_ScheduleReminderCleanup_set rid w Hset))
      as (l & _ & ->).
    apply add_log_exact.
    apply (arm_exact _ (cleanup_jobFunc rid)).
    + by apply tick_exact, cancel_core_exact.
    + simpl. destruct (tick_frame (cancel_core rid jobTypeCleanup w)) as (-> & _).
      rewrite cancel_core_registered. by rewrite decide_True.
  - destruct (runs_now _ _ _ _ _ (runs_ScheduleReminderCleanup_unset rid w Hh))
      as (l & _ & ->).
    by apply add_log_exact.
Qed.

Lemma do_call_exact c w : exact w -> exact (do_call c w).2.
Proof.
  intros He. destruct c as [r|rid|rid|rid]; simpl.
  - by apply ScheduleReminder_exact.
  - by apply ScheduleReminderCleanup_exact.
  - destruct (runs_now _ _ _ _ _ (runs_CancelReminderSchedule rid w)) as (l & _ & ->).
    by apply add_log_exact, cancel_core_exact.
  - destruct (runs_now _ _ _ _ _ (runs_CancelCleanupSchedule rid w)) as (l & _ & ->).
    by apply add_log_exact, cancel_core_exact.
Qed.

Lemma do_calls_exact cs w : exact w -> exact (do_calls cs w).
Proof.
  revert w. induction cs as [|c cs IH]; intros w He; [done|].
  simpl. by apply IH, do_call_exact.
Qed.

(** The handle that a cancellation removes from the engine does not come
    back with the next job. *)
Lemma cancelled_handle_gone t j rid k w e :
  sound w -> registered (jobStore (svc w)) rid k = Some e ->
  e ∉ cron.ID <$> cron.entries (cronScheduler (arm t j rid k (cancel_core rid k w))).
Proof.
  intros Hs E Hin.
  rewrite arm_entries, cancel_core_entries, cancel_core_nextID, E in Hin.
  rewrite fmap_app in Hin. apply elem_of_app in Hin as [Hin|Hin].
  - apply list_elem_of_fmap in Hin as (en & -> & Hen).
    by apply list_elem_of_filter in Hen as [Hne _].
  - apply list_elem_of_singleton in Hin. simpl in Hin.
    pose proof (sound_registered _ _ _ _ Hs E) as L.
    apply Exists_exists in L as (en & Hen & Hid & _).
    apply (fresh_handle w en Hs Hen). congruence.
Qed.

Lemma do_call_replaces c rid k w :
  exact w -> scheduled_key c = Some (rid, k) -> (do_call c w).1 = None ->
  (forall e, registered (jobStore (svc w)) rid k = Some e ->
             e ∉ cron.ID <$> cron.entries (cronScheduler (do_call c w).2))
  ∧ registered (jobStore (svc (do_call c w).2)) rid k
    = Some (cron.nextID (cronScheduler w) + 1)
  ∧ live_handles (cronScheduler (do_call c w).2) rid k
    = [cron.nextID (cronScheduler w) + 1].
Proof.
  intros He Hkey Hok.
  pose proof (do_call_exact c w He) as He'.
  pose proof (exact_live_handles _ rid k He') as Hlive.
  destruct He as [Hs _].
  destruct c as [r|rid0|rid0|rid0]; try done;
    injection Hkey as <- <-; unfold do_call in *.
  - destruct (handleNotificationFunc (svc w)) as [h|] eqn:Hh.
    + assert (handleNotificationFunc (svc w) ≠ None) as Hset by congruence.
      destruct (valid_time (Reminder_RemindTime r) (wall_now w)) eqn:Hv.
      * destruct (runs_now _ _ _ _ _ (runs_ScheduleReminder_valid r w Hset Hv))
          as (l & _ & E).
        rewrite E in *. drop_log.
        destruct (tick_frame w) as (Hsvc & Hcron & _).
        assert (registered (jobStore (svc (arm (Reminder_RemindTime r)
                  (notify_jobFunc (Reminder_ID r)) (Reminder_ID r) jobTypeNotify
                  (cancel_core (Reminder_ID r) jobTypeNotify (tick w)))))
                  (Reminder_ID r) jobTypeNotify
                = Some (cron.nextID (cronScheduler w) + 1)) as Hreg.
        { rewrite arm_registered, decide_True by done.
          by rewrite cancel_core_nextID, Hcron. }
        split; [|split; [done|by rewrite Hlive, Hreg]].
        intros e Hr. apply cancelled_handle_gone; [by apply tick_sound|].
        by rewrite Hsvc.
      * destruct (runs_now _ _ _ _ _ (runs_ScheduleReminder_invalid r w Hset Hv))
          as (l & _ & E).
        by rewrite E in Hok.
    + destruct (runs_now _ _ _ _ _ (runs_ScheduleReminder_unset r w Hh))
        as (l & _ & E).
      by rewrite E in Hok.
  - destruct (handleCleanupFunc (svc w)) as [h|] eqn:Hh.
    + assert (handleCleanupFunc (svc w) ≠ None) as Hset by congruence.
      destruct (runs_now _ _ _ _ _ (runs_ScheduleReminderCleanup_set rid0 w Hset))
        as (l & _ & E).
      rewrite E in *. drop_log.
      assert (arm (time.Add (wall_now w) cleanupGracePeriod) (cleanup_jobFunc rid0)
                rid0 jobTypeCleanup (tick (cancel_core rid0 jobTypeCleanup w))
              = tick (arm (time.Add (wall_now w) cleanupGracePeriod)
                        (cleanup_jobFunc rid0) rid0 jobTypeCleanup
                        (cancel_core rid0 jobTypeCleanup w))) as Harm.
      { unfold tick, arm; simpl.
        by destruct (wall_later (cancel_core rid0 jobTypeCleanup w)). }
      rewrite Harm in *.
      destruct (tick_frame (arm (time.Add (wall_now w) cleanupGracePeriod)
                  (cleanup_jobFunc rid0) rid0 jobTypeCleanup
                  (cancel_core rid0 jobTypeCleanup w))) as (Hsvc & Hcron & _).
      rewrite Hsvc, Hcron in *.
      assert (registered (jobStore (svc (arm (time.Add (wall_now w) cleanupGracePeriod)
                  (cleanup_jobFunc rid0) rid0 jobTypeCleanup
                  (cancel_core rid0 jobTypeCleanup w)))) rid0 jobTypeCleanup
              = Some (cron.nextID (cronScheduler w) + 1)) as Hreg.
      { rewrite arm_registered, decide_True by done.
        by rewrite cancel_core_nextID. }
      split; [|split; [done|by rewrite Hlive, Hreg]].
      intros e Hr. by apply cancelled_handle_gone.
    + destruct (runs_now _ _ _ _ _ (runs_ScheduleReminderCleanup_unset rid0 w Hh))
        as (l & _ & E).
      by rewrite E in Hok.
Qed.

(** C1. After every sequence of [ScheduleReminder],
    [ScheduleReminderCleanup], [CancelReminderSchedule] and
    [CancelCleanupSchedule] calls made from the start of the service, the
    entries of the engine that run the job of a key [(reminder id, kind)] are
    exactly the handle that the job registry holds for that key, so that
    there is at most one; and a call that schedules a job for a key removes
    the handle the registry held for it from the engine and from the
    registry before it stores the new handle, which is then the only live
    one. *)
Theorem C1_at_most_one_live_job_per_key
    (hn hc : option handlerFunc) (t : ReminderTable) (users : gmap string User)
    (now : Time) (later : list Time) (failing : external_call -> bool)
    (cs : list call) :
  let w := do_calls cs (fresh hn hc t users now later failing) in
  (forall rid k,
     live_handles (cronScheduler w) rid k
     = match registered (jobStore (svc w)) rid k with
       | Some e => [e]
       | None => []
       end)
  ∧ (forall rid k, (length (live_handles (cronScheduler w) rid k) <= 1)%nat)
  ∧ (forall c rid k,
       scheduled_key c = Some (rid, k) -> (do_call c w).1 = None ->
       (forall e, registered (jobStore (svc w)) rid k = Some e ->
                  e ∉ cron.ID <$> cron.entries (cronScheduler (do_call c w).2))
       ∧ registered (jobStore (svc (do_call c w).2)) rid k
         = Some (cron.nextID (cronScheduler w) + 1)
       ∧ live_handles (cronScheduler (do_call c w).2) rid k
         = [cron.nextID (cronScheduler w) + 1]).
Proof.
  intros w.
  assert (exact w) as He by apply do_calls_exact, fresh_exact.
  split; [|split].
  - intros rid k. by apply exact_live_handles.
  - intros rid k. rewrite (exact_live_handles w rid k He).
    destruct (registered _ _ _); simpl; lia.
  - intros c rid k. by apply do_call_replaces.
Qed.

(** ** Runs of the repositories and of the LINE client *)

Definition find_reminder (id : N) (w : World) : option Reminder :=
  List.find (reminderRepo.matches_id id) (rows (reminder_content w)).

Definition delete_reminder (id : N) (w : World) : World :=
  set_reminder_content (fun t =>
    {| rows := filter (fun r => Reminder_ID r ≠ id) (rows t);
       sequence := sequence t |}) w.

Definition delete_by_content (userID content : string) (w : World) : World :=
  set_reminder_content (fun t =>
    {| rows := filter (fun r => ¬ reminderRepo.same_user_content userID content r)
                 (rows t);
       sequence := sequence t |}) w.

Definition next_id (w : World) : N := (sequence (reminder_content w) + 1)%N.

Definition insert_reminder (userID content : string) (w : World) : World :=
  set_reminder_content (fun t =>
    {| rows := rows t ++ [mkReminder (next_id w) userID content 0];
       sequence := N.max (sequence t) (next_id w) |}) w.

Definition save_user (u : User) (w : World) : World :=
  set_user_session (fun m => <[User_ID u := u]> m) w.

Definition push (to text : string) (w : World) : World :=
  set_pushed (fun l => l ++ [mkPushed to text]) w.

Ltac prim f :=
  let l0 := fresh "l0" in
  intros l0; eexists; (split; [|unfold f; run; repeat (
    match goal with
    | H : ?x = _ |- context [?x] => rewrite H
    end; simpl); f_equal; same_world]); reflexivity.

Lemma runs_FindByID_fail id w :
  failing w (call_reminder_FindByID id) = true ->
  runs (reminderRepo.FindByID id) w (Err ErrExternal) [] w.
Proof. intros H. prim reminderRepo.FindByID. Qed.

Lemma runs_FindByID_found id r w :
  failing w (call_reminder_FindByID id) = false -> find_reminder id w = Some r ->
  runs (reminderRepo.FindByID id) w (Ok r) [] w.
Proof. unfold find_reminder. intros H1 H2. prim reminderRepo.FindByID. Qed.

Lemma runs_FindByID_missing id w :
  failing w (call_reminder_FindByID id) = false -> find_reminder id w = None ->
  runs (reminderRepo.FindByID id) w (Err gorm_ErrRecordNotFound) [] w.
Proof. unfold find_reminder. intros H1 H2. prim reminderRepo.FindByID. Qed.

Lemma runs_FindByUserIDAndContent_fail userID content w :
  failing w (call_reminder_FindByUserIDAndContent userID content) = true ->
  runs (reminderRepo.FindByUserIDAndContent userID content) w (Err ErrExternal) [] w.
Proof. intros H. prim reminderRepo.FindByUserIDAndContent. Qed.

Lemma runs_FindByUserIDAndContent_ok userID content w :
  failing w (call_reminder_FindByUserIDAndContent userID content) = false ->
  runs (reminderRepo.FindByUserIDAndContent userID content) w
    (Ok (filter (reminderRepo.same_user_content userID content)
           (rows (reminder_content w)))) [] w.
Proof. intros H. prim reminderRepo.FindByUserIDAndContent. Qed.

Lemma runs_FindAll_fail w :
  failing w call_reminder_FindAll = true ->
  runs reminderRepo.FindAll w (Err ErrExternal) [] w.
Proof. intros H. prim reminderRepo.FindAll. Qed.

Lemma runs_FindAll_ok w :
  failing w call_reminder_FindAll = false ->
  runs reminderRepo.FindAll w (Ok (rows (reminder_content w))) [] w.
Proof. intros H. prim reminderRepo.FindAll. Qed.

Lemma runs_Delete_fail id w :
  failing w (call_reminder_Delete id) = true ->
  runs (reminderRepo.Delete id) w (Some ErrExternal) [] w.
Proof. intros H. prim reminderRepo.Delete. Qed.

Lemma runs_Delete_ok id w :
  failing w (call_reminder_Delete id) = false ->
  runs (reminderRepo.Delete id) w None [] (delete_reminder id w).
Proof. intros H. unfold delete_reminder. prim reminderRepo.Delete. Qed.

Lemma runs_DeleteByUserIDAndContent_fail userID content w :
  failing w (call_reminder_DeleteByUserIDAndContent userID content) = true ->
  runs (reminderRepo.DeleteByUserIDAndContent userID content) w (Some ErrExternal) [] w.
Proof. intros H. prim reminderRepo.DeleteByUserIDAndContent. Qed.

Lemma runs_DeleteByUserIDAndContent_ok userID content w :
  failing w (call_reminder_DeleteByUserIDAndContent userID content) = false ->
  runs (reminderRepo.DeleteByUserIDAndContent userID content) w None []
    (delete_by_content userID content w).
Proof.
  intros H. unfold delete_by_content. prim reminderRepo.DeleteByUserIDAndContent.
Qed.

Lemma runs_Create_fail userID content w :
  failing w (call_reminder_Create userID) = true ->
  runs (reminderRepo.Create (mkReminder 0 userID content 0)) w (Err ErrExternal) [] w.
Proof. intros H. prim reminderRepo.Create. Qed.

Lemma runs_Create_taken userID content w :
  failing w (call_reminder_Create userID) = false ->
  existsb (reminderRepo.matches_id (next_id w)) (rows (reminder_content w)) = true ->
  runs (reminderRepo.Create (mkReminder 0 userID content 0)) w (Err ErrExternal) [] w.
Proof. unfold next_id. intros H1 H2. prim reminderRepo.Create. Qed.

Lemma runs_Create_ok userID content w :
  failing w (call_reminder_Create userID) = false ->
  existsb (reminderRepo.matches_id (next_id w)) (rows (reminder_content w)) = false ->
  runs (reminderRepo.Create (mkReminder 0 userID content 0)) w (Ok (next_id w)) []
    (insert_reminder userID content w).
Proof.
  unfold next_id, insert_reminder, next_id. intros H1 H2. prim reminderRepo.Create.
Qed.

Lemma runs_FindByUserID_fail userID w :
  failing w (call_user_FindByUserID userID) = true ->
  runs (userRepo.FindByUserID userID) w (Err ErrExternal) [] w.
Proof. intros H. prim userRepo.FindByUserID. Qed.

Lemma runs_FindByUserID_found userID u w :
  failing w (call_user_FindByUserID userID) = false ->
  user_session w !! userID = Some u ->
  runs (userRepo.FindByUserID userID) w (Ok u) [] w.
Proof. intros H1 H2. prim userRepo.FindByUserID. Qed.

Lemma runs_FindByUserID_missing userID w :
  failing w (call_user_FindByUserID userID) = false ->
  user_session w !! userID = None ->
  runs (userRepo.FindByUserID userID) w (Err gorm_ErrRecordNotFound) [] w.
Proof. intros H1 H2. prim userRepo.FindByUserID. Qed.

Lemma runs_Update_fail u w :
  failing w (call_user_Update (User_ID u)) = true ->
  runs (userRepo.Update u) w (Some ErrExternal) [] w.
Proof. intros H. prim userRepo.Update. Qed.

Lemma runs_Update_ok u w :
  failing w (call_user_Update (User_ID u)) = false ->
  runs (userRepo.Update u) w None [] (save_user u w).
Proof. intros H. unfold save_user. prim userRepo.Update. Qed.

Lemma runs_PushMessages_fail to text w :
  failing w (call_line_PushMessage to) = true ->
  runs (lineClient.PushMessages to text) w (Some ErrExternal) [] w.
Proof. intros H. prim lineClient.PushMessages. Qed.

Lemma runs_PushMessages_ok to text w :
  failing w (call_line_PushMessage to) = false ->
  runs (lineClient.PushMessages to text) w None [] (push to text w).
Proof. intros H. unfold push. prim lineClient.PushMessages. Qed.

#[global] Arguments reminderRepo.FindByID : simpl never.
#[global] Arguments reminderRepo.FindByUserIDAndContent : simpl never.
#[global] Arguments reminderRepo.FindAll : simpl never.
#[global] Arguments reminderRepo.Create : simpl never.
#[global] Arguments reminderRepo.Delete : simpl never.
#[global] Arguments reminderRepo.DeleteByUserIDAndContent : simpl never.
#[global] Arguments userRepo.FindByUserID : simpl never.
#[global] Arguments userRepo.Update : simpl never.
#[global] Arguments lineClient.PushMessages : simpl never.

Ltac step_op ::=
  lazymatch goal with
  | |- runs (CancelReminderSchedule _) _ _ _ _ => apply runs_CancelReminderSchedule
  | |- runs (CancelCleanupSchedule _) _ _ _ _ => apply runs_CancelCleanupSchedule
  | |- runs (ScheduleReminderCleanup _) _ _ _ _ =>
      first [ apply runs_ScheduleReminderCleanup_set;
              unfold save_user, push; simpl; congruence
            | apply runs_ScheduleReminderCleanup_unset;
              unfold save_user, push; simpl; assumption ]
  | |- runs (reminderRepo.FindByID _) _ _ _ _ =>
      first [ eapply runs_FindByID_found; eassumption
            | apply runs_FindByID_missing; assumption
            | apply runs_FindByID_fail; assumption ]
  | |- runs (reminderRepo.FindByUserIDAndContent _ _) _ _ _ _ =>
      first [ apply runs_FindByUserIDAndContent_ok; assumption
            | apply runs_FindByUserIDAndContent_fail; assumption ]
  | |- runs reminderRepo.FindAll _ _ _ _ =>
      first [ apply runs_FindAll_ok; assumption
            | apply runs_FindAll_fail; assumption ]
  | |- runs (reminderRepo.Create _) _ _ _ _ =>
      first [ apply runs_Create_ok; assumption
            | apply runs_Create_taken; assumption
            | apply runs_Create_fail; assumption ]
  | |- runs (reminderRepo.Delete _) _ _ _ _ =>
      first [ apply runs_Delete_ok; assumption
            | apply runs_Delete_fail; assumption ]
  | |- runs (reminderRepo.DeleteByUserIDAndContent _ _) _ _ _ _ =>
      first [ apply runs_DeleteByUserIDAndContent_ok; assumption
            | apply runs_DeleteByUserIDAndContent_fail; assumption ]
  | |- runs (userRepo.FindByUserID _) _ _ _ _ =>
      first [ eapply runs_FindByUserID_found; eassumption
            | apply runs_FindByUserID_missing; assumption
            | apply runs_FindByUserID_fail; assumption ]
  | |- runs (userRepo.Update _) _ _ _ _ =>
      first [ apply runs_Update_ok; assumption
            | apply runs_Update_fail; assumption ]
  | |- runs (lineClient.PushMessages _ _) _ _ _ _ =>
      first [ apply runs_PushMessages_ok; assumption
            | apply runs_PushMessages_fail; assumption ]
  end.

(** ** Runs of the handlers *)

Definition cleanup_core (rid : N) (w : World) : World :=
  match handleCleanupFunc (svc w) with
  | None => w
  | Some _ =>
      arm (time.Add (wall_now w) cleanupGracePeriod) (cleanup_jobFunc rid) rid
        jobTypeCleanup (tick (cancel_core rid jobTypeCleanup w))
  end.

Definition push_core (to text : string) (w : World) : World :=
  if failing w (call_line_PushMessage to) then w else push to text w.

Definition with_last_notify (u : User) (rid : N) : User :=
  mkUser (User_ID u) (User_TextID u) (Some (strconv_FormatUint rid)) (User_Status u).

Definition last_notify_core (userID : string) (rid : N) (w : World) : World :=
  if failing w (call_user_FindByUserID userID) then w
  else
    match user_session w !! userID with
    | None => w
    | Some u =>
        if failing w (call_user_Update (User_ID u)) then w
        else save_user (with_last_notify u rid) w
    end.

(** The world after the notification handler has run for a reminder that is
    in the table. *)
Definition notified_core (r : Reminder) (w : World) : World :=
  cleanup_core (Reminder_ID r)
    (last_notify_core (Reminder_UserID r) (Reminder_ID r)
       (push_core (Reminder_UserID r)
          (reminderService.messageText (Reminder_Content r)) w)).

Lemma runs_CleanupOldReminders_ok rid w :
  failing w (call_reminder_Delete rid) = false ->
  runs (reminderService.CleanupOldReminders rid) w None
    [LInfo (Msg_CleaningUp rid)] (delete_reminder rid w).
Proof.
  intros H. unfold reminderService.CleanupOldReminders.
  eapply runs_eq; [steps|reflexivity..].
Qed.

Lemma runs_CleanupOldReminders_fail rid w :
  failing w (call_reminder_Delete rid) = true ->
  runs (reminderService.CleanupOldReminders rid) w (Some ErrDatabaseOperation)
    [LInfo (Msg_CleaningUp rid)] w.
Proof.
  intros H. unfold reminderService.CleanupOldReminders.
  eapply runs_eq; [steps|reflexivity..].
Qed.

Lemma runs_HandleReminderNotification_fail rid w :
  failing w (call_reminder_FindByID rid) = true ->
  runs (reminderService.HandleReminderNotification rid) w
    (Some ErrDatabaseOperation) [LInfo (Msg_HandlingNotification rid)] w.
Proof.
  intros H. unfold reminderService.HandleReminderNotification.
  eapply runs_eq; [steps|reflexivity..].
Qed.

Lemma runs_HandleReminderNotification_missing rid w :
  failing w (call_reminder_FindByID rid) = false ->
  find_reminder rid w = None ->
  runs (reminderService.HandleReminderNotification rid) w None
    [LInfo (Msg_HandlingNotification rid)] w.
Proof.
  intros H1 H2. unfold reminderService.HandleReminderNotification.
  eapply runs_eq; [steps|reflexivity..].
Qed.

Lemma runs_HandleReminderNotification_found rid r w :
  failing w (call_reminder_FindByID rid) = false ->
  find_reminder rid w = Some r ->
  runs (reminderService.HandleReminderNotification rid) w None
    [LInfo (Msg_HandlingNotification rid)]
    (cleanup_core rid
       (last_notify_core (Reminder_UserID r) rid
          (push_core (Reminder_UserID r)
             (reminderService.messageText (Reminder_Content r)) w))).
Proof.
  intros H1 H2. unfold reminderService.HandleReminderNotification.
  unfold cleanup_core, last_notify_core, push_core.
  destruct (failing w (call_line_PushMessage (Reminder_UserID r))) eqn:Hp;
  destruct (failing w (call_user_FindByUserID (Reminder_UserID r))) eqn:Hf;
  simpl; rewrite ?Hf;
  try (destruct (user_session w !! Reminder_UserID r) as [u|] eqn:Hu; simpl;
       [destruct (failing w (call_user_Update (User_ID u))) eqn:Hup|]);
  simpl;
  (destruct (handleCleanupFunc (svc w)) as [hc|] eqn:Hc;
   (eapply runs_eq; [steps|reflexivity..])).
Qed.

(** ** Cancellation *)

Lemma cancel_core_absent rid k w :
  registered (jobStore (svc w)) rid k = None -> cancel_core rid k w = w.
Proof. unfold cancel_core. by intros ->. Qed.

Lemma cancel_core_other_live rid k w rid' k' e' :
  sound w -> ¬ (rid' = rid ∧ k' = k) ->
  registered (jobStore (svc w)) rid' k' = Some e' ->
  handle_live (cronScheduler (cancel_core rid k w)) rid' k' e'.
Proof.
  intros Hs Hne Hr. apply sound_registered; [by apply cancel_core_sound|].
  rewrite cancel_core_registered. by rewrite decide_False.
Qed.

(** What is asked of the cancellation [cancel] of the jobs of type [k], for
    the reminder [rid] in the world [w]. *)
Definition cancel_is_idempotent_and_local (cancel : N -> M (option error))
    (k : string) (rid : N) (w : World) : Prop :=
  (cancel rid w).1 = None
  ∧ (registered (jobStore (svc w)) rid k = None ->
     exists l, (cancel rid w).2 = add_log l w)
  ∧ (exists l, cancel rid (cancel rid w).2 = (None, add_log l (cancel rid w).2))
  ∧ (forall rid' k', ¬ (rid' = rid ∧ k' = k) ->
     registered (jobStore (svc (cancel rid w).2)) rid' k'
     = registered (jobStore (svc w)) rid' k')
  ∧ (sound w -> forall rid' k' e', ¬ (rid' = rid ∧ k' = k) ->
     registered (jobStore (svc w)) rid' k' = Some e' ->
     handle_live (cronScheduler (cancel rid w).2) rid' k' e').

Lemma cancel_core_is_idempotent_and_local cancel k rid w :
  (forall w, runs (cancel rid) w None [] (cancel_core rid k w)) ->
  cancel_is_idempotent_and_local cancel k rid w.
Proof.
  intros Hrun. unfold cancel_is_idempotent_and_local.
  destruct (runs_now _ _ _ _ _ (Hrun w)) as (l & _ & E). rewrite E. drop_log.
  split; [done|]. split; [|split; [|split]].
  - intros Habs. exists l. by rewrite cancel_core_absent.
  - destruct (runs_now _ _ _ _ _ (Hrun (add_log l (cancel_core rid k w))))
      as (l' & _ & E').
    exists l'. rewrite E'. f_equal. f_equal. apply cancel_core_absent.
    rewrite svc_add_log, cancel_core_registered. by rewrite decide_True.
  - intros rid' k' Hne. rewrite cancel_core_registered. by rewrite decide_False.
  - intros Hs rid' k' e' Hne Hr. by apply cancel_core_other_live.
Qed.

(** C8. [CancelReminderSchedule] and [CancelCleanupSchedule] never return an
    error. When no job of the kind is registered for the reminder (it was
    never scheduled, it has fired, or it has been cancelled), the call
    leaves the world as it is, lines of log apart; so does a second call
    after a first one. A call never changes what the registry holds for
    another key, and in a sound world the entry of the engine that another
    key's handle names is still there. *)
Theorem C8_cancel_is_idempotent_and_local (rid : N) (w : World) :
  cancel_is_idempotent_and_local CancelReminderSchedule jobTypeNotify rid w
  ∧ cancel_is_idempotent_and_local CancelCleanupSchedule jobTypeCleanup rid w.
Proof.
  split; apply cancel_core_is_idempotent_and_local; intros w0.
  - apply runs_CancelReminderSchedule.
  - apply runs_CancelCleanupSchedule.
Qed.

(** ** Scheduling a notification *)

(** C2 as the specification words it asks for an error when the time of the
    reminder is not strictly after the present; a reminder whose time is the
    present instant is scheduled. *)
Lemma C2_counterexample_time_equal_to_now :
  let t := time.Date 2025 3 1 12 0 0 0 in
  let w := started (mkTable [] 0) ∅ t [] no_failure in
  let r := mkReminder 1 "u" "milk" t in
  handleNotificationFunc (svc w) ≠ None
  ∧ time.IsZero (Reminder_RemindTime r) = false
  ∧ (wall_now w <? Reminder_RemindTime r) = false
  ∧ (ScheduleReminder r w).1 = None
  ∧ registered (jobStore (svc (ScheduleReminder r w).2)) 1 jobTypeNotify = Some 1.
Proof. vm_compute. by repeat split. Qed.

(** C2, amended. [ScheduleReminder] returns an error in two cases, and only
    in them: the internal-server error when the notification handler is not
    set, and the scheduling error when the handler is set and the time of the
    reminder is zero or strictly before the present (a time equal to the
    present is accepted). In both cases the registry, the engine and the two
    tables are left as they were. In every other case it returns no error,
    the registry holds for [(id, notify)] the handle of a new entry of the
    engine that runs the notify job of the reminder, and the schedule of this
    entry is the one the engine parses from the spec of the reminder's time,
    which is due at that time; the tables are left as they were. *)
Theorem C2_ScheduleReminder_fails_on_preconditions_only (r : Reminder) (w : World) :
  let t := Reminder_RemindTime r in
  let rid := Reminder_ID r in
  let res := (ScheduleReminder r w).1 in
  let w' := (ScheduleReminder r w).2 in
  let unset := handleNotificationFunc (svc w) = None in
  let late := time.IsZero t || time.Before t (wall_now w) = true in
  (unset -> res = Some ErrInternalServer)
  ∧ (¬ unset -> late -> res = Some ErrScheduling)
  ∧ (unset ∨ late ->
     jobStore (svc w') = jobStore (svc w) ∧ cronScheduler w' = cronScheduler w
     ∧ reminder_content w' = reminder_content w ∧ user_session w' = user_session w)
  ∧ (¬ unset -> ¬ late ->
     let e := cron.nextID (cronScheduler w) + 1 in
     res = None
     ∧ registered (jobStore (svc w')) rid jobTypeNotify = Some e
     ∧ cron.mkEntry e (schedule_at t) (notify_jobFunc rid)
       ∈ cron.entries (cronScheduler w')
     ∧ cron.Parse (formatCronSpec t) = Some (schedule_at t)
     ∧ cron.matches (schedule_at t) t = true
     ∧ reminder_content w' = reminder_content w ∧ user_session w' = user_session w).
Proof.
  intros t rid res w' unset late. subst t rid res w' unset late.
  destruct (handleNotificationFunc (svc w)) as [h|] eqn:Hh.
  - assert (handleNotificationFunc (svc w) ≠ None) as Hset by congruence.
    destruct (valid_time (Reminder_RemindTime r) (wall_now w)) eqn:Hv.
    + destruct (runs_now _ _ _ _ _ (runs_ScheduleReminder_valid r w Hset Hv))
        as (l & _ & ->). drop_log.
      unfold valid_time in Hv. apply negb_true_iff in Hv.
      split; [done|]. split; [intros _ Hl; congruence|].
      split; [intros [?|Hl]; congruence|]. intros _ _.
      destruct (tick_frame w) as (Hsvc & Hcron & Hrem & Husr & _).
      destruct (cancel_core_frame (Reminder_ID r) jobTypeNotify (tick w))
        as (_ & _ & Hrem' & Husr' & _).
      split; [done|]. split.
      { rewrite arm_registered, decide_True by done.
        by rewrite cancel_core_nextID, Hcron. }
      split.
      { rewrite arm_entries, cancel_core_nextID, Hcron.
        apply elem_of_app. right. by apply list_elem_of_singleton. }
      split; [apply Parse_formatCronSpec|]. split; [apply schedule_at_matches|].
      split; simpl; congruence.
    + destruct (runs_now _ _ _ _ _ (runs_ScheduleReminder_invalid r w Hset Hv))
        as (l & _ & ->). drop_log.
      unfold valid_time in Hv. apply negb_false_iff in Hv.
      destruct (refused_frame r w) as (Hsvc & Hcron & Hrem & Husr & _).
      split; [done|]. split; [done|]. split; [by rewrite Hsvc|].
      intros _ Hl. done.
  - destruct (runs_now _ _ _ _ _ (runs_ScheduleReminder_unset r w Hh))
      as (l & _ & ->). drop_log.
    split; [done|]. split; [done|]. split; [done|]. done.
Qed.

(** ** Runs of the closures *)

(** The registry after [removeJobID]; the engine is not touched. *)
Definition forget (rid : N) (k : string) (w : World) : World :=
  match registered (jobStore (svc w)) rid k with
  | Some e => set_registry (unregister rid k (jobStore (svc w))) w
  | None => w
  end.

Lemma runs_removeJobID rid k w :
  exists r, runs (removeJobID rid k) w r [] (forget rid k w).
Proof.
  unfold forget.
  destruct (registered (jobStore (svc w)) rid k) as [e|] eqn:E.
  - eexists. by apply runs_removeJobID_present.
  - eexists. by apply runs_removeJobID_absent.
Qed.

Lemma forget_registered rid k w rid' k' :
  registered (jobStore (svc (forget rid k w))) rid' k'
  = if decide (rid' = rid ∧ k' = k) then None
    else registered (jobStore (svc w)) rid' k'.
Proof.
  unfold forget.
  destruct (registered (jobStore (svc w)) rid k) as [e|] eqn:E; simpl.
  - apply registered_unregister.
  - case_decide as H; [|done]. destruct H as [-> ->]. done.
Qed.

Lemma forget_frame rid k w :
  let w' := forget rid k w in
  handleNotificationFunc (svc w') = handleNotificationFunc (svc w)
  /\ handleCleanupFunc (svc w') = handleCleanupFunc (svc w)
  /\ cronScheduler w' = cronScheduler w
  /\ reminder_content w' = reminder_content w
  /\ user_session w' = user_session w
  /\ pushed w' = pushed w /\ logged w' = logged w
  /\ wall_now w' = wall_now w /\ wall_later w' = wall_later w
  /\ failing w' = failing w.
Proof. unfold forget. by destruct (registered _ _ _). Qed.

Lemma forget_sound rid k w : sound w -> sound (forget rid k w).
Proof.
  intros Hs. pose proof Hs as (Hnd & Hb & _ & Hp).
  destruct (forget_frame rid k w) as (_ & _ & Hc & _).
  apply sound_intro; rewrite ?Hc; try done.
  - intros rid' k' e'. rewrite forget_registered. case_decide; [done|].
    unfold handle_live. rewrite ?Hc. by apply sound_registered.
  - unfold forget. destruct (registered _ _ _); [|done].
    simpl. by apply pruned_unregister.
Qed.

(** The world after the notification handler. *)
Definition notification_core (rid : N) (w : World) : World :=
  if failing w (call_reminder_FindByID rid) then w
  else
    match find_reminder rid w with
    | None => w
    | Some r =>
        cleanup_core rid
          (last_notify_core (Reminder_UserID r) rid
             (push_core (Reminder_UserID r)
                (reminderService.messageText (Reminder_Content r)) w))
    end.

Definition notification_result (rid : N) (w : World) : option error :=
  if failing w (call_reminder_FindByID rid) then Some ErrDatabaseOperation
  else None.

Lemma runs_HandleReminderNotification rid w :
  runs (reminderService.HandleReminderNotification rid) w
    (notification_result rid w) [LInfo (Msg_HandlingNotification rid)]
    (notification_core rid w).
Proof.
  unfold notification_result, notification_core.
  destruct (failing w (call_reminder_FindByID rid)) eqn:Hf.
  - by apply runs_HandleReminderNotification_fail.
  - destruct (find_reminder rid w) as [r|] eqn:Hr.
    + by apply runs_HandleReminderNotification_found.
    + by apply runs_HandleReminderNotification_missing.
Qed.

(** The world after the cleanup handler. *)
Definition cleaned_core (rid : N) (w : World) : World :=
  if failing w (call_reminder_Delete rid) then w else delete_reminder rid w.

Definition cleaned_result (rid : N) (w : World) : option error :=
  if failing w (call_reminder_Delete rid) then Some ErrDatabaseOperation
  else None.

Lemma runs_CleanupOldReminders rid w :
  runs (reminderService.CleanupOldReminders rid) w (cleaned_result rid w)
    [LInfo (Msg_CleaningUp rid)] (cleaned_core rid w).
Proof.
  unfold cleaned_result, cleaned_core.
  destruct (failing w (call_reminder_Delete rid)) eqn:Hf.
  - by apply runs_CleanupOldReminders_fail.
  - by apply runs_CleanupOldReminders_ok.
Qed.

#[global] Arguments reminderService.HandleReminderNotification : simpl never.
#[global] Arguments reminderService.CleanupOldReminders : simpl never.

Lemma runs_log_after_handler (err : option error) m w :
  runs (match err with
        | Some err => log_Error m (Some err)
        | None => mret tt
        end) w tt [] w.
Proof. destruct err; [apply runs_log|apply runs_ret]. Qed.

Lemma runs_notify_body rid w :
  runs (notify_body rs_HandleReminderNotification rid) w tt
    [LInfo (Msg_HandlingNotification rid)]
    (forget rid jobTypeNotify (notification_core rid w)).
Proof.
  unfold notify_body, call_handler.
  destruct (runs_removeJobID rid jobTypeNotify (notification_core rid w)) as [r Hr].
  eapply runs_eq.
  { step; [step|]. step; [apply runs_HandleReminderNotification|].
    step; [apply runs_log_after_handler|]. step; [exact Hr|]. step. }
  all: reflexivity.
Qed.

Lemma runs_cleanup_body rid w :
  runs (cleanup_body rs_CleanupOldReminders rid) w tt
    [LInfo (Msg_CleaningUp rid)]
    (forget rid jobTypeCleanup (cleaned_core rid w)).
Proof.
  unfold cleanup_body, call_handler.
  destruct (runs_removeJobID rid jobTypeCleanup (cleaned_core rid w)) as [r Hr].
  eapply runs_eq.
  { step; [step|]. step; [apply runs_CleanupOldReminders|].
    step; [apply runs_log_after_handler|]. step; [exact Hr|]. step. }
  all: reflexivity.
Qed.

(** What a closure does when the handlers are those of the reminder
    service. *)
Lemma run_notify_jobFunc rid w :
  handleNotificationFunc (svc w) = Some rs_HandleReminderNotification ->
  exists l, loud l = [LInfo (Msg_HandlingNotification rid)]
    ∧ run_jobFunc (notify_jobFunc rid) w
      = Some (add_log l (forget rid jobTypeNotify (notification_core rid w))).
Proof.
  intros H. destruct (runs_now _ _ _ _ _ (runs_notify_body rid w)) as (l & Hl & E).
  exists l. split; [done|]. unfold run_jobFunc. rewrite H. simpl. by rewrite E.
Qed.

Lemma run_cleanup_jobFunc rid w :
  handleCleanupFunc (svc w) = Some rs_CleanupOldReminders ->
  exists l, loud l = [LInfo (Msg_CleaningUp rid)]
    ∧ run_jobFunc (cleanup_jobFunc rid) w
      = Some (add_log l (forget rid jobTypeCleanup (cleaned_core rid w))).
Proof.
  intros H. destruct (runs_now _ _ _ _ _ (runs_cleanup_body rid w)) as (l & Hl & E).
  exists l. split; [done|]. unfold run_jobFunc. rewrite H. simpl. by rewrite E.
Qed.

(** ** What the handlers leave untouched *)

Lemma push_core_frame to text w :
  let w' := push_core to text w in
  svc w' = svc w /\ cronScheduler w' = cronScheduler w
  /\ reminder_content w' = reminder_content w
  /\ user_session w' = user_session w /\ logged w' = logged w
  /\ wall_now w' = wall_now w /\ wall_later w' = wall_later w
  /\ failing w' = failing w.
Proof. unfold push_core. by destruct (failing w _). Qed.

Lemma last_notify_core_frame userID rid w :
  let w' := last_notify_core userID rid w in
  svc w' = svc w /\ cronScheduler w' = cronScheduler w
  /\ reminder_content w' = reminder_content w
  /\ pushed w' = pushed w /\ logged w' = logged w
  /\ wall_now w' = wall_now w /\ wall_later w' = wall_later w
  /\ failing w' = failing w.
Proof.
  unfold last_notify_core. destruct (failing w _); [done|].
  destruct (user_session w !! userID) as [u|]; [|done].
  by destruct (failing w _).
Qed.

Lemma cleaned_core_frame rid w :
  let w' := cleaned_core rid w in
  svc w' = svc w /\ cronScheduler w' = cronScheduler w
  /\ user_session w' = user_session w
  /\ pushed w' = pushed w /\ logged w' = logged w
  /\ wall_now w' = wall_now w /\ wall_later w' = wall_later w
  /\ failing w' = failing w.
Proof. unfold cleaned_core. by destruct (failing w _). Qed.

(** The world in which the notification handler schedules the cleanup. *)
Definition before_cleanup (r : Reminder) (rid : N) (w : World) : World :=
  last_notify_core (Reminder_UserID r) rid
    (push_core (Reminder_UserID r)
       (reminderService.messageText (Reminder_Content r)) w).

Lemma before_cleanup_frame r rid w :
  let w' := before_cleanup r rid w in
  svc w' = svc w /\ cronScheduler w' = cronScheduler w
  /\ reminder_content w' = reminder_content w
  /\ wall_now w' = wall_now w /\ wall_later w' = wall_later w
  /\ failing w' = failing w.
Proof.
  unfold before_cleanup.
  destruct (last_notify_core_frame (Reminder_UserID r) rid
              (push_core (Reminder_UserID r)
                 (reminderService.messageText (Reminder_Content r)) w))
    as (-> & -> & -> & _ & _ & -> & -> & ->).
  destruct (push_core_frame (Reminder_UserID r)
              (reminderService.messageText (Reminder_Content r)) w)
    as (-> & -> & -> & _ & _ & -> & -> & ->).
  done.
Qed.

(** The engine after the cleanup has been scheduled. *)
Lemma cleanup_core_entries rid w :
  handleCleanupFunc (svc w) ≠ None ->
  cron.entries (cronScheduler (cleanup_core rid w))
  = match registered (jobStore (svc w)) rid jobTypeCleanup with
    | Some e => filter (fun en => cron.ID en ≠ e) (cron.entries (cronScheduler w))
    | None => cron.entries (cronScheduler w)
    end
    ++ [cron.mkEntry (cron.nextID (cronScheduler w) + 1)
          (schedule_at (time.Add (wall_now w) cleanupGracePeriod))
          (cleanup_jobFunc rid)].
Proof.
  intros H. unfold cleanup_core. destruct (handleCleanupFunc (svc w)); [|done].
  rewrite arm_entries.
  destruct (tick_frame (cancel_core rid jobTypeCleanup w)) as (_ & -> & _).
  by rewrite cancel_core_entries, cancel_core_nextID.
Qed.

Lemma cleanup_core_registered rid w rid' k' :
  handleCleanupFunc (svc w) ≠ None ->
  registered (jobStore (svc (cleanup_core rid w))) rid' k'
  = if decide (rid' = rid ∧ k' = jobTypeCleanup)
    then Some (cron.nextID (cronScheduler w) + 1)
    else registered (jobStore (svc w)) rid' k'.
Proof.
  intros H. unfold cleanup_core. destruct (handleCleanupFunc (svc w)); [|done].
  rewrite arm_registered.
  destruct (tick_frame (cancel_core rid jobTypeCleanup w)) as (-> & -> & _).
  rewrite cancel_core_registered, cancel_core_nextID.
  by repeat case_decide.
Qed.

Lemma cleanup_core_sound rid w : sound w -> sound (cleanup_core rid w).
Proof.
  intros Hs. unfold cleanup_core. destruct (handleCleanupFunc (svc w)); [|done].
  apply (arm_sound _ (cleanup_jobFunc rid)). by apply tick_sound, cancel_core_sound.
Qed.

Lemma cleanup_core_keeps_notify rid w en :
  sound w -> en ∈ cron.entries (cronScheduler w) ->
  job_type (cron.Job en) = jobTypeNotify ->
  en ∈ cron.entries (cronScheduler (cleanup_core rid w)).
Proof.
  intros Hs Hin Hty.
  destruct (handleCleanupFunc (svc w)) as [h|] eqn:Hh;
    [|by unfold cleanup_core; rewrite Hh].
  rewrite cleanup_core_entries by congruence.
  apply elem_of_app. left.
  destruct (registered (jobStore (svc w)) rid jobTypeCleanup) as [e|] eqn:E; [|done].
  apply list_elem_of_filter. split; [|done]. intros Hid.
  pose proof (sound_registered _ _ _ _ Hs E) as L.
  apply Exists_exists in L as (en' & Hin' & Hid' & _ & Hty').
  destruct Hs as (Hnd & _).
  assert (en = en') as -> by (eapply ids_inj; eauto; congruence).
  rewrite Hty in Hty'. discriminate.
Qed.

Lemma notification_core_keeps_notify rid w en :
  sound w -> en ∈ cron.entries (cronScheduler w) ->
  job_type (cron.Job en) = jobTypeNotify ->
  en ∈ cron.entries (cronScheduler (notification_core rid w)).
Proof.
  intros Hs Hin Hty. unfold notification_core.
  destruct (failing w _); [done|]. destruct (find_reminder rid w) as [r|]; [|done].
  fold (before_cleanup r rid w).
  destruct (before_cleanup_frame r rid w) as (Hsvc & Hcron & _).
  apply cleanup_core_keeps_notify; [|by rewrite Hcron|done].
  eapply sound_ext; [| |exact Hs]; by rewrite ?Hsvc.
Qed.

(** ** The spec of a job has no year *)

Lemma formatCronSpec_fields_only t t' :
  time.second_of t' = time.second_of t -> time.minute_of t' = time.minute_of t ->
  time.hour_of t' = time.hour_of t -> time.day_of t' = time.day_of t ->
  time.month_of t' = time.month_of t ->
  formatCronSpec t' = formatCronSpec t ∧ cron.matches (schedule_at t) t' = true.
Proof.
  intros H1 H2 H3 H4 H5. split.
  - unfold formatCronSpec. by rewrite H1, H2, H3, H4, H5.
  - unfold cron.matches, cron.dayMatches, schedule_at; simpl.
    rewrite H1, H2, H3, H4, H5, !Z.eqb_refl. reflexivity.
Qed.

(** C10 as the specification words it asks that the closure of every fired
    job leave the entries of the engine as they were and never call
    [RemoveJob]. The closure of a notify job runs the notification handler,
    and the handler schedules the cleanup of the reminder: the engine gets a
    new entry, and when the registry held a cleanup job for the reminder,
    [RemoveJob] takes its entry out of the engine. *)
Lemma C10_counterexample_notify_closure_changes_the_engine :
  let t0 := time.Date 2025 3 1 12 0 0 0 in
  let t1 := time.Date 2025 3 1 13 0 0 0 in
  let r1 := mkReminder 1 "u" "milk" t1 in
  let w0 := started (mkTable [r1] 1) {[ "u" := mkUser "u" None None 0 ]} t0 []
              no_failure in
  let w1 := (InitializeSchedules w0).2 in
  let w2 := do_calls [call_ScheduleReminderCleanup 1; call_ScheduleReminder r1] w0 in
  (cron.ID <$> cron.entries (cronScheduler w1) = [1]
   ∧ exists w', fire t1 w1 = Some w'
       ∧ cron.ID <$> cron.entries (cronScheduler w') = [1; 2])
  ∧ (cron.ID <$> cron.entries (cronScheduler w2) = [1; 2]
     ∧ registered (jobStore (svc w2)) 1 jobTypeCleanup = Some 1
     ∧ exists w', fire t1 w2 = Some w'
         ∧ cron.ID <$> cron.entries (cronScheduler w') = [2; 3]).
Proof.
  split.
  - split; [vm_compute; reflexivity|].
    eexists. split; [vm_compute; reflexivity|vm_compute; reflexivity].
  - split; [vm_compute; reflexivity|]. split; [vm_compute; reflexivity|].
    eexists. split; [vm_compute; reflexivity|vm_compute; reflexivity].
Qed.

(** C10, amended. With the handlers of the reminder service set and a sound
    registry, the closure of a fired job completes, and:
    - the closure of a cleanup job leaves the engine as it was; the registry
      no longer holds a handle for [(id, cleanup)], and holds for every other
      key what it held;
    - after the closure of a notify job the registry no longer holds a handle
      for [(id, notify)], and holds what it held for every key but this one
      and [(id, cleanup)]; every entry of the engine that runs a notify job,
      the one that fired among them, is still in the engine; when the lookup
      of the reminder fails or the reminder is not in the table, the engine
      and what the registry holds for [(id, cleanup)] are as they were; when
      the reminder is in the table, the entry that the registry held for
      [(id, cleanup)], if any, has been removed from the engine, one entry
      has been added, which runs the cleanup job of the reminder and is armed
      for the present plus the grace period, and the registry holds its
      handle for [(id, cleanup)].
    No closure removes its own entry from the engine. The spec that
    [formatCronSpec] builds has six fields, the second, the minute, the hour,
    the day of the month and the month of the instant and a star for the day
    of the week; it has no year, so that it is the spec of every instant with
    the same five fields, and the schedule is due at each of them. *)
Theorem C10_closure_leaves_its_engine_entry (rid : N) (w : World) (t t' : Time) :
  handleNotificationFunc (svc w) = Some rs_HandleReminderNotification ->
  handleCleanupFunc (svc w) = Some rs_CleanupOldReminders ->
  sound w ->
  let reg := registered (jobStore (svc w)) in
  (exists w',
     run_jobFunc (cleanup_jobFunc rid) w = Some w'
     ∧ cronScheduler w' = cronScheduler w
     ∧ registered (jobStore (svc w')) rid jobTypeCleanup = None
     ∧ (forall rid' k', ¬ (rid' = rid ∧ k' = jobTypeCleanup) ->
        registered (jobStore (svc w')) rid' k' = reg rid' k'))
  ∧ (exists w',
       run_jobFunc (notify_jobFunc rid) w = Some w'
       ∧ registered (jobStore (svc w')) rid jobTypeNotify = None
       ∧ (forall rid' k',
            ¬ (rid' = rid ∧ (k' = jobTypeNotify ∨ k' = jobTypeCleanup)) ->
            registered (jobStore (svc w')) rid' k' = reg rid' k')
       ∧ (forall en, en ∈ cron.entries (cronScheduler w) ->
                     job_type (cron.Job en) = jobTypeNotify ->
                     en ∈ cron.entries (cronScheduler w'))
       ∧ (failing w (call_reminder_FindByID rid) = true
          ∨ find_reminder rid w = None ->
          cronScheduler w' = cronScheduler w
          ∧ registered (jobStore (svc w')) rid jobTypeCleanup = reg rid jobTypeCleanup)
       ∧ (forall r, failing w (call_reminder_FindByID rid) = false ->
            find_reminder rid w = Some r ->
            let e := cron.nextID (cronScheduler w) + 1 in
            cron.entries (cronScheduler w')
            = match reg rid jobTypeCleanup with
              | Some e0 =>
                  filter (fun en => cron.ID en ≠ e0) (cron.entries (cronScheduler w))
              | None => cron.entries (cronScheduler w)
              end
              ++ [cron.mkEntry e (schedule_at (time.Add (wall_now w) cleanupGracePeriod))
                    (cleanup_jobFunc rid)]
            ∧ registered (jobStore (svc w')) rid jobTypeCleanup = Some e))
  ∧ cron.Fields (formatCronSpec t)
    = [fmt_d (time.second_of t); fmt_d (time.minute_of t); fmt_d (time.hour_of t);
       fmt_d (time.day_of t); fmt_d (time.month_of t); "*"]
  ∧ cron.Parse (formatCronSpec t) = Some (schedule_at t)
  ∧ (time.second_of t' = time.second_of t -> time.minute_of t' = time.minute_of t ->
     time.hour_of t' = time.hour_of t -> time.day_of t' = time.day_of t ->
     time.month_of t' = time.month_of t ->
     formatCronSpec t' = formatCronSpec t ∧ cron.matches (schedule_at t) t' = true).
Proof.
  intros Hn Hc Hs reg. subst reg.
  split; [|split; [|split; [|split]]].
  - destruct (run_cleanup_jobFunc rid w Hc) as (l & _ & ->).
    eexists. split; [done|]. drop_log.
    destruct (forget_frame rid jobTypeCleanup (cleaned_core rid w)) as (_ & _ & -> & _).
    destruct (cleaned_core_frame rid w) as (Hsvc & -> & _).
    split; [done|]. split.
    + rewrite forget_registered. by rewrite decide_True.
    + intros rid' k' Hne. rewrite forget_registered, decide_False by done.
      by rewrite Hsvc.
  - destruct (run_notify_jobFunc rid w Hn) as (l & _ & ->).
    eexists. split; [done|]. drop_log.
    destruct (forget_frame rid jobTypeNotify (notification_core rid w))
      as (_ & _ & -> & _).
    rewrite !forget_registered.
    split; [by rewrite decide_True|]. split; [|split; [|split]].
    + intros rid' k' Hne. rewrite forget_registered, decide_False by tauto.
      unfold notification_core.
      destruct (failing w _); [done|]. destruct (find_reminder rid w) as [r|]; [|done].
      fold (before_cleanup r rid w).
      destruct (before_cleanup_frame r rid w) as (Hsvc & _).
      rewrite cleanup_core_registered by (rewrite Hsvc; congruence).
      rewrite decide_False by tauto. by rewrite Hsvc.
    + intros en Hin Hty. by apply notification_core_keeps_notify.
    + rewrite decide_False by (intros [_ ?]; discriminate).
      intros Hgone. unfold notification_core.
      destruct (failing w _) eqn:Hf; [done|].
      destruct Hgone as [?|Hgone]; [done|]. by rewrite Hgone.
    + rewrite decide_False by (intros [_ ?]; discriminate).
      intros r Hf Hr. unfold notification_core. rewrite Hf, Hr.
      fold (before_cleanup r rid w).
      destruct (before_cleanup_frame r rid w) as (Hsvc & Hcr & _ & Hnow & _).
      assert (handleCleanupFunc (svc (before_cleanup r rid w)) ≠ None) as Hset
        by (rewrite Hsvc; congruence).
      simpl. rewrite cleanup_core_registered, decide_True by done.
      rewrite cleanup_core_entries by done. by rewrite Hsvc, Hcr, Hnow.
  - apply Fields_formatCronSpec.
  - apply Parse_formatCronSpec.
  - apply formatCronSpec_fields_only.
Qed.

Lemma C10_witness :
  let t0 := time.Date 2025 3 1 12 0 0 0 in
  let t1 := time.Date 2025 3 1 13 0 0 0 in
  let r1 := mkReminder 1 "u" "milk" t1 in
  let w0 := started (mkTable [r1] 1) {[ "u" := mkUser "u" None None 0 ]} t0 []
              no_failure in
  let w := do_calls [call_ScheduleReminderCleanup 1; call_ScheduleReminder r1] w0 in
  cron.ID <$> cron.entries (cronScheduler w) = [1; 2]
  ∧ (exists w',
       run_jobFunc (cleanup_jobFunc 1) w = Some w'
       ∧ cronScheduler w' = cronScheduler w
       ∧ registered (jobStore (svc w')) 1 jobTypeCleanup = None
       ∧ registered (jobStore (svc w')) 1 jobTypeNotify = Some 2)
  ∧ (exists w',
       run_jobFunc (notify_jobFunc 1) w = Some w'
       ∧ registered (jobStore (svc w')) 1 jobTypeNotify = None
       ∧ registered (jobStore (svc w')) 1 jobTypeCleanup = Some 3
       ∧ cron.ID <$> cron.entries (cronScheduler w') = [2; 3])
  ∧ cron.matches (schedule_at t1) (time.Date 2026 3 1 13 0 0 0) = true.
Proof.
  intros t0 t1 r1 w0 w.
  assert (exact w0) as He0
    by (apply (exact_ext (fresh (Some rs_HandleReminderNotification)
                            (Some rs_CleanupOldReminders) (mkTable [r1] 1)
                            {[ "u" := mkUser "u" None None 0 ]} t0 [] no_failure));
        [reflexivity..|apply fresh_exact]).
  pose proof (proj1 (do_calls_exact _ w0 He0) : sound w) as Hs.
  assert (handleNotificationFunc (svc w) = Some rs_HandleReminderNotification) as Hn
    by (vm_compute; reflexivity).
  assert (handleCleanupFunc (svc w) = Some rs_CleanupOldReminders) as Hc
    by (vm_compute; reflexivity).
  destruct (C10_closure_leaves_its_engine_entry 1 w t1 (time.Date 2026 3 1 13 0 0 0)
              Hn Hc Hs)
    as ((wc & Ec & Hcron & Hcl & Hother) & (wn & En & Hno & _ & _ & _ & Hfound)
        & _ & _ & Hyear).
  split; [vm_compute; reflexivity|]. split; [|split].
  - exists wc. split; [exact Ec|]. split; [exact Hcron|]. split; [exact Hcl|].
    rewrite Hother by (intros [_ ?]; discriminate). vm_compute; reflexivity.
  - exists wn. split; [exact En|]. split; [exact Hno|].
    destruct (Hfound r1) as [Hent Hreg]; [vm_compute; reflexivity..|].
    split; [rewrite Hreg; vm_compute; reflexivity|].
    rewrite Hent. vm_compute; reflexivity.
  - apply Hyear; vm_compute; reflexivity.
Defined.

(** ** The notify closure *)

Lemma cleanup_core_frame rid w :
  let w' := cleanup_core rid w in
  handleNotificationFunc (svc w') = handleNotificationFunc (svc w)
  /\ handleCleanupFunc (svc w') = handleCleanupFunc (svc w)
  /\ reminder_content w' = reminder_content w
  /\ user_session w' = user_session w
  /\ pushed w' = pushed w /\ logged w' = logged w
  /\ failing w' = failing w.
Proof.
  unfold cleanup_core. destruct (handleCleanupFunc (svc w)) eqn:E; [|done]. simpl.
  destruct (tick_frame (cancel_core rid jobTypeCleanup w))
    as (-> & _ & -> & -> & -> & -> & ->).
  destruct (cancel_core_frame rid jobTypeCleanup w)
    as (-> & -> & -> & -> & -> & -> & _ & _ & ->).
  by rewrite E.
Qed.

Lemma notification_core_logged rid w : logged (notification_core rid w) = logged w.
Proof.
  unfold notification_core. destruct (failing w _); [done|].
  destruct (find_reminder rid w) as [r|]; [|done].
  destruct (cleanup_core_frame rid
              (last_notify_core (Reminder_UserID r) rid
                 (push_core (Reminder_UserID r)
                    (reminderService.messageText (Reminder_Content r)) w)))
    as (_ & _ & _ & _ & _ & -> & _).
  destruct (last_notify_core_frame (Reminder_UserID r) rid
              (push_core (Reminder_UserID r)
                 (reminderService.messageText (Reminder_Content r)) w))
    as (_ & _ & _ & _ & -> & _).
  by destruct (push_core_frame (Reminder_UserID r)
                 (reminderService.messageText (Reminder_Content r)) w)
    as (_ & _ & _ & _ & -> & _).
Qed.

Lemma live_handles_app c1 l2 rid k n :
  live_handles (cron.mkCron (c1 ++ l2) n) rid k
  = live_handles (cron.mkCron c1 n) rid k ++ live_handles (cron.mkCron l2 n) rid k.
Proof. unfold live_handles; simpl. by rewrite filter_app, fmap_app. Qed.

Lemma filter_key_without (l : list cron.Entry) rid k e :
  cron.ID <$> filter (fun en => job_reminder (cron.Job en) = rid
                                ∧ job_type (cron.Job en) = k) l = [e] ->
  filter (fun en => job_reminder (cron.Job en) = rid ∧ job_type (cron.Job en) = k)
    (filter (fun en => cron.ID en ≠ e) l) = [].
Proof.
  intros H. rewrite list_filter_filter.
  rewrite (list_filter_iff _
             (fun en => cron.ID en ≠ e
                        ∧ (job_reminder (cron.Job en) = rid
                           ∧ job_type (cron.Job en) = k))) by (intros; tauto).
  rewrite <- list_filter_filter.
  destruct (filter _ l) as [|en [|en' l']]; try done.
  simpl in H. injection H as H. rewrite filter_cons, decide_False; [done|].
  by intros Hne.
Qed.

(** After the cleanup has been scheduled, the new entry is the only entry of
    the engine that runs the cleanup job of the reminder, when before it the
    engine had no such entry but the one the registry held. *)
Lemma cleanup_core_live_handles rid w :
  handleCleanupFunc (svc w) ≠ None ->
  live_handles (cronScheduler w) rid jobTypeCleanup
  = match registered (jobStore (svc w)) rid jobTypeCleanup with
    | Some e => [e]
    | None => []
    end ->
  live_handles (cronScheduler (cleanup_core rid w)) rid jobTypeCleanup
  = [cron.nextID (cronScheduler w) + 1].
Proof.
  intros Hh Hlive. unfold live_handles in *.
  rewrite cleanup_core_entries by done. rewrite filter_app, fmap_app.
  destruct (registered (jobStore (svc w)) rid jobTypeCleanup) as [e|] eqn:E.
  - rewrite (filter_key_without _ _ _ _ Hlive). simpl.
    rewrite filter_cons, decide_True by done. done.
  - apply fmap_nil_inv in Hlive. rewrite Hlive. simpl.
    rewrite filter_cons, decide_True by done. done.
Qed.

(** C4 as the specification words it asks for one cleanup job after every notify
    job has fired. A user who unfollows has the reminders deleted while their
    notify jobs stay armed; when such a job fires, the handler finds no
    reminder and schedules no cleanup. *)
Lemma C4_counterexample_reminder_deleted_before_fire :
  let t0 := time.Date 2025 3 1 12 0 0 0 in
  let t1 := time.Date 2025 3 1 13 0 0 0 in
  let r1 := mkReminder 1 "u" "milk" t1 in
  let w0 := started (mkTable [r1] 1) {[ "u" := mkUser "u" None None 0 ]} t0 []
              no_failure in
  let w1 := (InitializeSchedules w0).2 in
  let w2 := (userService.DeleteUser "u" w1).2 in
  registered (jobStore (svc w2)) 1 jobTypeNotify = Some 1
  ∧ exists w3, fire t1 w2 = Some w3
      ∧ loud (logged w3)
        = [LInfo (Msg_InitializationComplete 1 0); LInfo (Msg_HandlingNotification 1)]
      ∧ registered (jobStore (svc w3)) 1 jobTypeNotify = None
      ∧ registered (jobStore (svc w3)) 1 jobTypeCleanup = None
      ∧ live_handles (cronScheduler w3) 1 jobTypeCleanup = [].
Proof.
  split; [by vm_compute|]. eexists. split; [vm_compute; reflexivity|].
  by vm_compute.
Qed.

(** C4, amended. With the handlers of the reminder service set, when the
    lookup of the reminder does not fail and the engine has no entry that runs
    the cleanup job of the reminder but the one the registry holds, the
    closure of a notify job completes; the one loud line that it logs is the
    line that the notification handler logs when it is entered, for this
    reminder id: the handler has been invoked once, with this id; the
    registry no longer holds a handle for [(id, notify)]; if the reminder is
    in the table, the registry holds for [(id, cleanup)] the handle of a new
    entry of the engine armed for the present plus the grace period, and this
    entry is the only entry of the engine that runs the cleanup job of the
    reminder; if the reminder is not in the table, no cleanup job is
    scheduled: the engine and what the registry holds for [(id, cleanup)] are
    as they were. *)
Theorem C4_notify_closure_removes_itself_and_schedules_cleanup (rid : N) (w : World) :
  handleNotificationFunc (svc w) = Some rs_HandleReminderNotification ->
  handleCleanupFunc (svc w) = Some rs_CleanupOldReminders ->
  failing w (call_reminder_FindByID rid) = false ->
  live_handles (cronScheduler w) rid jobTypeCleanup
  = match registered (jobStore (svc w)) rid jobTypeCleanup with
    | Some e => [e]
    | None => []
    end ->
  exists w' l,
    run_jobFunc (notify_jobFunc rid) w = Some w'
    ∧ logged w' = logged w ++ l
    ∧ loud l = [LInfo (Msg_HandlingNotification rid)]
    ∧ registered (jobStore (svc w')) rid jobTypeNotify = None
    ∧ match find_reminder rid w with
      | Some r =>
          let e := cron.nextID (cronScheduler w) + 1 in
          registered (jobStore (svc w')) rid jobTypeCleanup = Some e
          ∧ live_handles (cronScheduler w') rid jobTypeCleanup = [e]
          ∧ cron.mkEntry e (schedule_at (time.Add (wall_now w) cleanupGracePeriod))
              (cleanup_jobFunc rid) ∈ cron.entries (cronScheduler w')
      | None =>
          registered (jobStore (svc w')) rid jobTypeCleanup
          = registered (jobStore (svc w)) rid jobTypeCleanup
          ∧ cronScheduler w' = cronScheduler w
      end.
Proof.
  intros Hn Hc Hf Hlive.
  destruct (run_notify_jobFunc rid w Hn) as (l & Hl & E).
  eexists _, l. split; [exact E|]. drop_log.
  destruct (forget_frame rid jobTypeNotify (notification_core rid w))
    as (_ & _ & Hcron & _ & _ & _ & Hlog & _).
  rewrite logged_add_log, Hlog, notification_core_logged, !forget_registered, Hcron.
  rewrite decide_True by done.
  rewrite decide_False by (intros [_ ?]; discriminate).
  split; [done|]. split; [done|]. split; [done|].
  unfold notification_core. rewrite Hf.
  destruct (find_reminder rid w) as [r|] eqn:Hr; [|done].
  fold (before_cleanup r rid w).
  destruct (before_cleanup_frame r rid w) as (Hsvc & Hcr & _ & Hnow & _).
  assert (handleCleanupFunc (svc (before_cleanup r rid w)) ≠ None) as Hset
    by (rewrite Hsvc; congruence).
  simpl.
  rewrite cleanup_core_registered, decide_True by done.
  rewrite cleanup_core_live_handles; [|done|by rewrite Hsvc, Hcr].
  rewrite cleanup_core_entries by done. rewrite Hcr, Hnow.
  split; [done|]. split; [done|].
  apply elem_of_app. right. by apply list_elem_of_singleton.
Qed.

Lemma C4_witness :
  let t0 := time.Date 2025 3 1 12 0 0 0 in
  let t1 := time.Date 2025 3 1 13 0 0 0 in
  let r1 := mkReminder 1 "u" "milk" t1 in
  let w0 := started (mkTable [r1] 1) {[ "u" := mkUser "u" None None 0 ]} t0 []
              no_failure in
  let w1 := (InitializeSchedules w0).2 in
  exists w' l,
    run_jobFunc (notify_jobFunc 1) w1 = Some w'
    ∧ logged w' = logged w1 ++ l
    ∧ loud l = [LInfo (Msg_HandlingNotification 1)]
    ∧ registered (jobStore (svc w')) 1 jobTypeNotify = None
    ∧ match find_reminder 1 w1 with
      | Some r =>
          let e := cron.nextID (cronScheduler w1) + 1 in
          registered (jobStore (svc w')) 1 jobTypeCleanup = Some e
          ∧ live_handles (cronScheduler w') 1 jobTypeCleanup = [e]
          ∧ cron.mkEntry e (schedule_at (time.Add (wall_now w1) cleanupGracePeriod))
              (cleanup_jobFunc 1) ∈ cron.entries (cronScheduler w')
      | None =>
          registered (jobStore (svc w')) 1 jobTypeCleanup
          = registered (jobStore (svc w1)) 1 jobTypeCleanup
          ∧ cronScheduler w' = cronScheduler w1
      end.
Proof.
  intros t0 t1 r1 w0 w1.
  apply (C4_notify_closure_removes_itself_and_schedules_cleanup 1 w1);
    vm_compute; reflexivity.
Defined.

(** ** Scheduling a cleanup *)

(** What [ScheduleReminderCleanup] does when the cleanup handler is set: the
    handle that the registry held for [(id, cleanup)] is taken out of the
    engine, and a new entry, due at the present plus the grace period of 24
    hours, runs the cleanup closure of the reminder. *)
Lemma ScheduleReminderCleanup_arms_after_grace_period rid w :
  handleCleanupFunc (svc w) ≠ None ->
  let w' := (ScheduleReminderCleanup rid w).2 in
  let e := cron.nextID (cronScheduler w) + 1 in
  let t := time.Add (wall_now w) cleanupGracePeriod in
  (ScheduleReminderCleanup rid w).1 = None
  ∧ cleanupGracePeriod = 24 * 60 * 60 * 1000000000
  ∧ registered (jobStore (svc w')) rid jobTypeCleanup = Some e
  ∧ cron.entries (cronScheduler w')
    = match registered (jobStore (svc w)) rid jobTypeCleanup with
      | Some e0 => filter (fun en => cron.ID en ≠ e0) (cron.entries (cronScheduler w))
      | None => cron.entries (cronScheduler w)
      end ++ [cron.mkEntry e (schedule_at t) (cleanup_jobFunc rid)]
  ∧ cron.Parse (formatCronSpec t) = Some (schedule_at t)
  ∧ cron.matches (schedule_at t) t = true.
Proof.
  intros Hset w' e t. subst w' e t.
  destruct (runs_now _ _ _ _ _ (runs_ScheduleReminderCleanup_set rid w Hset))
    as (l & _ & ->). drop_log.
  pose proof (cleanup_core_registered rid w rid jobTypeCleanup Hset) as Hreg.
  pose proof (cleanup_core_entries rid w Hset) as Hent.
  unfold cleanup_core in Hreg, Hent.
  destruct (handleCleanupFunc (svc w)); [|done].
  rewrite decide_True in Hreg by done.
  split; [done|]. split; [reflexivity|]. split; [done|]. split; [done|].
  split; [apply Parse_formatCronSpec|apply schedule_at_matches].
Qed.

(** C5, the defect. The cleanup job that [ScheduleReminderCleanup] registers
    is not one-shot: when it has fired, 24 hours after it was scheduled, and
    its closure has removed the handle from the registry, its entry is still
    in the engine, and the spec of the entry has no year; on the same day of
    the next year the job fires again and the cleanup handler is entered a
    second time. *)
Theorem C5_cleanup_job_fires_again_the_next_year :
  let t0 := time.Date 2025 3 1 12 0 0 0 in
  let r1 := mkReminder 1 "u" "milk" (time.Date 2025 3 1 11 0 0 0) in
  let w0 := started (mkTable [r1] 1) {[ "u" := mkUser "u" None None 0 ]} t0 []
              no_failure in
  let w1 := (ScheduleReminderCleanup 1 w0).2 in
  let t1 := time.Add t0 cleanupGracePeriod in
  let t2 := time.Date 2026 3 2 12 0 0 0 in
  t1 = time.Date 2025 3 2 12 0 0 0
  ∧ registered (jobStore (svc w1)) 1 jobTypeCleanup = Some 1
  ∧ exists w2 w3,
      fire t1 w1 = Some w2 ∧ fire t2 w2 = Some w3
      ∧ loud (logged w2) = [LInfo (Msg_CleaningUp 1)]
      ∧ registered (jobStore (svc w2)) 1 jobTypeCleanup = None
      ∧ cron.entries (cronScheduler w2) = cron.entries (cronScheduler w1)
      ∧ loud (logged w3) = [LInfo (Msg_CleaningUp 1); LInfo (Msg_CleaningUp 1)]
      ∧ cron.ID <$> cron.entries (cronScheduler w3) = [1].
Proof.
  split; [by vm_compute|]. split; [by vm_compute|].
  eexists _, _. split; [vm_compute; reflexivity|].
  split; [vm_compute; reflexivity|]. by vm_compute.
Qed.

(** ** The handlers and what is already deleted *)

Lemma find_none_filter id (l : list Reminder) :
  List.find (reminderRepo.matches_id id) l = None ->
  filter (fun r => Reminder_ID r ≠ id) l = l.
Proof.
  induction l as [|r l IH]; [done|]. simpl.
  destruct (reminderRepo.matches_id id r) eqn:E; [done|]. intros H.
  rewrite filter_cons, decide_True; [by rewrite IH|].
  unfold reminderRepo.matches_id in E. by apply N.eqb_neq in E.
Qed.

Lemma delete_reminder_absent rid w :
  find_reminder rid w = None -> delete_reminder rid w = w.
Proof.
  unfold find_reminder, delete_reminder, set_reminder_content. intros H.
  rewrite (find_none_filter _ _ H). by destruct w as [? ? [] ? ? ? ? ? ?].
Qed.

Lemma last_notify_core_saved userID rid u w :
  failing w (call_user_FindByUserID userID) = false ->
  user_session w !! userID = Some u ->
  failing w (call_user_Update (User_ID u)) = false ->
  user_session (last_notify_core userID rid w) !! User_ID u
  = Some (with_last_notify u rid).
Proof.
  intros H1 H2 H3. unfold last_notify_core. rewrite H1, H2, H3.
  unfold save_user; simpl. apply lookup_insert_eq.
Qed.

(** C9. When the reminder is not in the table and the lookup does not fail,
    [HandleReminderNotification] returns no error and leaves the world as it
    was, lines of log apart. When the reminder is in the table and the push
    to LINE fails, it returns no error all the same; nothing has been pushed;
    the user of the reminder, when the session is found and can be written,
    has the id of the reminder as last notified reference; and, the cleanup
    handler being set, the registry holds for [(id, cleanup)] the handle of a
    new entry of the engine due at the present plus the grace period. When
    the reminder is not in the table and the deletion does not fail,
    [CleanupOldReminders] returns no error and leaves the world as it was,
    lines of log apart. *)
Theorem C9_handlers_tolerate_deleted_reminder_and_failed_push (rid : N) (w : World) :
  (failing w (call_reminder_FindByID rid) = false -> find_reminder rid w = None ->
   exists l, reminderService.HandleReminderNotification rid w = (None, add_log l w))
  ∧ (forall r,
       failing w (call_reminder_FindByID rid) = false ->
       find_reminder rid w = Some r ->
       failing w (call_line_PushMessage (Reminder_UserID r)) = true ->
       let w' := (reminderService.HandleReminderNotification rid w).2 in
       (reminderService.HandleReminderNotification rid w).1 = None
       ∧ pushed w' = pushed w
       ∧ (forall u,
            failing w (call_user_FindByUserID (Reminder_UserID r)) = false ->
            user_session w !! Reminder_UserID r = Some u ->
            failing w (call_user_Update (User_ID u)) = false ->
            user_session w' !! User_ID u = Some (with_last_notify u rid))
       ∧ (handleCleanupFunc (svc w) ≠ None ->
          let e := cron.nextID (cronScheduler w) + 1 in
          registered (jobStore (svc w')) rid jobTypeCleanup = Some e
          ∧ cron.mkEntry e (schedule_at (time.Add (wall_now w) cleanupGracePeriod))
              (cleanup_jobFunc rid) ∈ cron.entries (cronScheduler w')))
  ∧ (failing w (call_reminder_Delete rid) = false -> find_reminder rid w = None ->
     exists l, reminderService.CleanupOldReminders rid w = (None, add_log l w)).
Proof.
  split; [|split].
  - intros Hf Hr.
    destruct (runs_now _ _ _ _ _ (runs_HandleReminderNotification_missing rid w Hf Hr))
      as (l & _ & E). by exists l.
  - intros r Hf Hr Hp w'. subst w'.
    destruct (runs_now _ _ _ _ _ (runs_HandleReminderNotification_found rid r w Hf Hr))
      as (l & _ & ->). drop_log.
    fold (before_cleanup r rid w).
    destruct (before_cleanup_frame r rid w) as (Hsvc & Hcr & _ & Hnow & _).
    destruct (cleanup_core_frame rid (before_cleanup r rid w))
      as (_ & _ & _ & Husr & Hpush & _).
    rewrite Husr, Hpush.
    split; [done|]. split; [|split].
    + unfold before_cleanup.
      destruct (last_notify_core_frame (Reminder_UserID r) rid
                  (push_core (Reminder_UserID r)
                     (reminderService.messageText (Reminder_Content r)) w))
        as (_ & _ & _ & -> & _).
      unfold push_core. by rewrite Hp.
    + intros u H1 H2 H3. unfold before_cleanup, push_core. rewrite Hp.
      by apply last_notify_core_saved.
    + intros Hset.
      assert (handleCleanupFunc (svc (before_cleanup r rid w)) ≠ None) as Hset'
        by (by rewrite Hsvc).
      simpl. rewrite cleanup_core_registered, decide_True by done.
      rewrite cleanup_core_entries by done. rewrite Hcr, Hnow.
      split; [done|]. apply elem_of_app. right. by apply list_elem_of_singleton.
  - intros Hf Hr.
    destruct (runs_now _ _ _ _ _ (runs_CleanupOldReminders_ok rid w Hf))
      as (l & _ & E). exists l. by rewrite E, delete_reminder_absent.
Qed.

(** ** Cancel by content *)

(** The world after the loop of [CancelReminder]. *)
Fixpoint cancel_all (rs : list Reminder) (w : World) : World :=
  match rs with
  | [] => w
  | r :: rest =>
      cancel_all rest
        (cancel_core (Reminder_ID r) jobTypeCleanup
           (cancel_core (Reminder_ID r) jobTypeNotify w))
  end.

Lemma runs_CancelReminder_loop rs n w :
  runs (reminderService.CancelReminder_loop rs n) w
    (n + Z.of_nat (length rs)) [] (cancel_all rs w).
Proof.
  revert n w. induction rs as [|r rest IH]; intros n w; simpl.
  - eapply runs_eq; [step|lia|done..].
  - eapply runs_eq.
    { step; [step|]. step; [step|]. step; [step|]. step; [step|]. apply IH. }
    all: try reflexivity. lia.
Qed.

#[global] Arguments reminderService.CancelReminder_loop : simpl never.

Lemma cancel_all_frame rs w :
  let w' := cancel_all rs w in
  handleNotificationFunc (svc w') = handleNotificationFunc (svc w)
  /\ handleCleanupFunc (svc w') = handleCleanupFunc (svc w)
  /\ reminder_content w' = reminder_content w
  /\ user_session w' = user_session w
  /\ pushed w' = pushed w /\ logged w' = logged w
  /\ wall_now w' = wall_now w /\ wall_later w' = wall_later w
  /\ failing w' = failing w.
Proof.
  revert w. induction rs as [|r rest IH]; intros w; simpl; [done|].
  destruct (IH (cancel_core (Reminder_ID r) jobTypeCleanup
                  (cancel_core (Reminder_ID r) jobTypeNotify w)))
    as (-> & -> & -> & -> & -> & -> & -> & -> & ->).
  destruct (cancel_core_frame (Reminder_ID r) jobTypeCleanup
              (cancel_core (Reminder_ID r) jobTypeNotify w))
    as (-> & -> & -> & -> & -> & -> & -> & -> & ->).
  apply cancel_core_frame.
Qed.

Definition is_job_type (k : string) : Prop := k = jobTypeNotify ∨ k = jobTypeCleanup.

Lemma cancel_all_registered rs w rid k :
  registered (jobStore (svc (cancel_all rs w))) rid k
  = if decide (rid ∈ Reminder_ID <$> rs ∧ is_job_type k) then None
    else registered (jobStore (svc w)) rid k.
Proof.
  revert w. induction rs as [|r rest IH]; intros w; simpl.
  - done.
  - rewrite IH, !cancel_core_registered. unfold is_job_type.
    repeat case_decide; try done; exfalso;
      repeat match goal with
             | H : ¬ (_ ∧ _) |- _ => apply not_and_l in H
             | H : _ ∧ _ |- _ => destruct H
             | H : _ ∨ _ |- _ => destruct H
             | H : _ ∈ _ :: _ |- _ => apply elem_of_cons in H
             | H : ¬ _ ∈ _ :: _ |- _ => rewrite not_elem_of_cons in H
             end; subst; tauto.
Qed.

Lemma cancel_core_absent_handle rid k w e :
  e ∉ cron.ID <$> cron.entries (cronScheduler w) ->
  e ∉ cron.ID <$> cron.entries (cronScheduler (cancel_core rid k w)).
Proof.
  intros H Hin. apply H. rewrite cancel_core_entries in Hin.
  destruct (registered _ _ _); [|done].
  apply list_elem_of_fmap in Hin as (en & -> & Hen).
  apply list_elem_of_filter in Hen as [_ Hen]. by apply list_elem_of_fmap_2.
Qed.

Lemma cancel_core_removes rid k w e :
  registered (jobStore (svc w)) rid k = Some e ->
  e ∉ cron.ID <$> cron.entries (cronScheduler (cancel_core rid k w)).
Proof.
  intros E Hin. rewrite cancel_core_entries, E in Hin.
  apply list_elem_of_fmap in Hin as (en & -> & Hen).
  by apply list_elem_of_filter in Hen as [Hne _].
Qed.

Lemma cancel_all_absent_handle rs w e :
  e ∉ cron.ID <$> cron.entries (cronScheduler w) ->
  e ∉ cron.ID <$> cron.entries (cronScheduler (cancel_all rs w)).
Proof.
  revert w. induction rs as [|r rest IH]; intros w H; simpl; [done|].
  by apply IH, cancel_core_absent_handle, cancel_core_absent_handle.
Qed.

(** A handle that the registry holds for a reminder of the list is not in
    the engine after the loop. *)
Lemma cancel_all_removes rs w rid k e :
  rid ∈ Reminder_ID <$> rs -> is_job_type k ->
  registered (jobStore (svc w)) rid k = Some e
  ∨ e ∉ cron.ID <$> cron.entries (cronScheduler w) ->
  e ∉ cron.ID <$> cron.entries (cronScheduler (cancel_all rs w)).
Proof.
  revert w. induction rs as [|r rest IH]; intros w Hin Hk Hw; simpl.
  { by apply elem_of_nil in Hin. }
  rewrite fmap_cons in Hin.
  destruct (decide (rid = Reminder_ID r)) as [->|Hne].
  - apply cancel_all_absent_handle.
    destruct Hw as [Hw|Hw];
      [|by apply cancel_core_absent_handle, cancel_core_absent_handle].
    destruct Hk as [-> | ->].
    + by apply cancel_core_absent_handle, cancel_core_removes.
    + apply cancel_core_removes. rewrite cancel_core_registered.
      by rewrite decide_False by (intros [_ ?]; discriminate).
  - apply elem_of_cons in Hin as [?|Hin]; [done|].
    apply IH; [done|done|].
    destruct Hw as [Hw|Hw].
    + left. rewrite !cancel_core_registered.
      by rewrite !decide_False by (intros [? _]; done).
    + right. by apply cancel_core_absent_handle, cancel_core_absent_handle.
Qed.

Lemma delete_by_content_frame userID content w :
  let w' := delete_by_content userID content w in
  svc w' = svc w /\ cronScheduler w' = cronScheduler w
  /\ user_session w' = user_session w /\ failing w' = failing w.
Proof. done. Qed.

(** C7. When the lookup and the deletion by user and content do not fail:
    if no reminder of the user has the content, [CancelReminder] returns
    [ErrReminderNotFound] and leaves the world as it was; otherwise it
    returns no error, whether jobs were armed or not; the table keeps the
    rows that do not match and no other row; for every matched reminder and
    for both job types the registry holds no handle, and a handle that it
    held is not in the engine any more; what the registry holds for the
    other reminders is as it was. *)
Theorem C7_cancel_by_content_deletes_and_cancels (userID content : string) (w : World) :
  failing w (call_reminder_FindByUserIDAndContent userID content) = false ->
  failing w (call_reminder_DeleteByUserIDAndContent userID content) = false ->
  let matched := filter (reminderRepo.same_user_content userID content)
                   (rows (reminder_content w)) in
  let res := (reminderService.CancelReminder userID content w).1 in
  let w' := (reminderService.CancelReminder userID content w).2 in
  (matched = [] -> res = Some ErrReminderNotFound ∧ w' = w)
  ∧ (matched ≠ [] ->
     res = None
     ∧ rows (reminder_content w')
       = filter (fun r => ¬ reminderRepo.same_user_content userID content r)
           (rows (reminder_content w))
     ∧ (forall r, r ∈ matched -> r ∉ rows (reminder_content w'))
     ∧ (forall r k, r ∈ matched -> is_job_type k ->
        registered (jobStore (svc w')) (Reminder_ID r) k = None
        ∧ forall e, registered (jobStore (svc w)) (Reminder_ID r) k = Some e ->
                    e ∉ cron.ID <$> cron.entries (cronScheduler w'))
     ∧ (forall rid k, rid ∉ Reminder_ID <$> matched ->
        registered (jobStore (svc w')) rid k = registered (jobStore (svc w)) rid k)).
Proof.
  intros Hf Hd matched res w'. subst res w'. split.
  - intros Hm. unfold reminderService.CancelReminder, reminderRepo.FindByUserIDAndContent.
    run. rewrite Hf. simpl. fold matched. by rewrite Hm.
  - intros Hm.
    assert (runs (reminderService.CancelReminder userID content) w None []
              (cancel_all matched (delete_by_content userID content w))) as Hrun.
    { unfold reminderService.CancelReminder.
      eapply runs_eq.
      { step; [step|]. fold matched. cbv beta iota.
        rewrite bool_decide_eq_false_2
          by (intros H0; apply Hm; by apply length_zero_iff_nil).
        step; [step|]. step; [apply runs_CancelReminder_loop|]. steps. }
      all: reflexivity. }
    destruct (runs_now _ _ _ _ _ Hrun) as (l & _ & ->). drop_log.
    destruct (cancel_all_frame matched (delete_by_content userID content w))
      as (_ & _ & -> & _).
    split; [done|]. split; [done|]. split; [|split].
    + intros r Hr Hin. simpl in Hin.
      apply list_elem_of_filter in Hin as [Hn _].
      by apply list_elem_of_filter in Hr as [Hy _].
    + intros r k Hr Hk. rewrite cancel_all_registered.
      rewrite decide_True by (split; [by apply list_elem_of_fmap_2|done]).
      split; [done|]. intros e He.
      apply (cancel_all_removes matched _ (Reminder_ID r) k);
        [by apply list_elem_of_fmap_2|done|by left].
    + intros rid k Hnot. rewrite cancel_all_registered.
      by rewrite decide_False by (intros [? _]; done).
Qed.

Lemma C7_witness :
  let t0 := time.Date 2025 3 1 12 0 0 0 in
  let r1 := mkReminder 1 "u" "Buy milk" (time.Date 2025 3 2 9 0 0 0) in
  let r2 := mkReminder 2 "u" "Buy milk" (time.Date 2025 3 3 9 0 0 0) in
  let r3 := mkReminder 3 "u" "Buy milk" 0 in
  let r4 := mkReminder 4 "u" "Call home" (time.Date 2025 3 4 9 0 0 0) in
  let w0 := started (mkTable [r1; r2; r3; r4] 4) {[ "u" := mkUser "u" None None 2 ]}
              t0 [] no_failure in
  let w1 := (InitializeSchedules w0).2 in
  let w' := (reminderService.CancelReminder "u" "Buy milk" w1).2 in
  (reminderService.CancelReminder "u" "Buy milk" w1).1 = None
  ∧ rows (reminder_content w') = [r4]
  ∧ registered (jobStore (svc w')) 1 jobTypeNotify = None
  ∧ (1 ∉ cron.ID <$> cron.entries (cronScheduler w'))
  ∧ registered (jobStore (svc w')) 4 jobTypeNotify
    = registered (jobStore (svc w1)) 4 jobTypeNotify.
Proof.
  intros t0 r1 r2 r3 r4 w0 w1 w'. subst w'.
  assert (failing w1 (call_reminder_FindByUserIDAndContent "u" "Buy milk") = false)
    as Hf by reflexivity.
  assert (failing w1 (call_reminder_DeleteByUserIDAndContent "u" "Buy milk") = false)
    as Hd by reflexivity.
  destruct (C7_cancel_by_content_deletes_and_cancels "u" "Buy milk" w1 Hf Hd)
    as [_ H].
  destruct H as (Hres & Hrows & _ & Hjobs & Hother).
  { vm_compute. discriminate. }
  split; [exact Hres|]. split; [rewrite Hrows; vm_compute; reflexivity|].
  destruct (Hjobs r1 jobTypeNotify) as [Hnone Hgone].
  { vm_compute. left. }
  { by left. }
  split; [exact Hnone|]. split.
  { apply Hgone. vm_compute. reflexivity. }
  apply Hother. vm_compute.
  intros H. repeat (apply elem_of_cons in H as [H|H]; [discriminate|]).
  by apply elem_of_nil in H.
Defined.

(** ** Snooze *)

Lemma runs_CreateReminder_ok userID content w :
  failing w (call_reminder_Create userID) = false ->
  existsb (reminderRepo.matches_id (next_id w)) (rows (reminder_content w)) = false ->
  runs (reminderService.CreateReminder userID content) w (Ok (next_id w)) []
    (insert_reminder userID content w).
Proof.
  intros H1 H2. unfold reminderService.CreateReminder.
  eapply runs_eq; [steps|reflexivity..].
Qed.

#[global] Arguments reminderService.CreateReminder : simpl never.

(** The keys of the table have been issued by its sequence. *)
Definition issued (t : ReminderTable) : Prop :=
  Forall (fun r => (Reminder_ID r <= sequence t)%N) (rows t).

#[global] Instance issued_dec t : Decision (issued t).
Proof. unfold issued. apply _. Defined.

Lemma issued_fresh w :
  issued (reminder_content w) ->
  existsb (reminderRepo.matches_id (next_id w)) (rows (reminder_content w)) = false.
Proof.
  unfold issued, next_id. intros H.
  apply not_true_is_false. intros Hex.
  apply existsb_exists in Hex as (r & Hin & Hm).
  rewrite Forall_forall in H. apply list_elem_of_In in Hin.
  specialize (H r Hin). unfold reminderRepo.matches_id in Hm.
  apply N.eqb_eq in Hm. lia.
Qed.

Lemma find_reminder_id rid r w : find_reminder rid w = Some r -> Reminder_ID r = rid.
Proof.
  unfold find_reminder. intros H. apply find_some in H as [_ H].
  unfold reminderRepo.matches_id in H. by apply N.eqb_eq in H.
Qed.

Definition snoozing (u : User) (newReminderID : N) : User :=
  mkUser (User_ID u) (Some (strconv_FormatUint newReminderID))
    (User_LastNotifyTextID u) constant.StatusAwaitingTime.

Lemma runs_Snooze_ok userID u s rid r w :
  failing w (call_user_FindByUserID userID) = false ->
  user_session w !! userID = Some u ->
  User_LastNotifyTextID u = Some s -> strconv_ParseUint s = Some rid ->
  failing w (call_reminder_FindByID rid) = false ->
  find_reminder rid w = Some r ->
  failing w (call_reminder_Create userID) = false ->
  issued (reminder_content w) ->
  failing w (call_user_Update (User_ID u)) = false ->
  runs (reminderService.Snooze userID) w (Ok (Reminder_Content r)) []
    (save_user (snoozing u (next_id w))
       (insert_reminder userID (Reminder_Content r)
          (cancel_core rid jobTypeCleanup w))).
Proof.
  intros Hfu Hu Hs Hp Hfr Hr Hfc Hiss Hup.
  pose proof (find_reminder_id _ _ _ Hr) as Hid.
  pose proof (issued_fresh w Hiss) as Hfresh.
  destruct (cancel_core_frame rid jobTypeCleanup w)
    as (_ & _ & Hrem & _ & _ & _ & _ & _ & Hfail).
  assert (failing (cancel_core (Reminder_ID r) jobTypeCleanup w)
            (call_reminder_Create userID) = false) as Hfc'
    by (by rewrite Hid, Hfail).
  assert (existsb (reminderRepo.matches_id
                     (next_id (cancel_core (Reminder_ID r) jobTypeCleanup w)))
            (rows (reminder_content (cancel_core (Reminder_ID r) jobTypeCleanup w)))
          = false) as Hfresh'
    by (unfold next_id in *; by rewrite Hid, Hrem).
  assert (failing (cancel_core (Reminder_ID r) jobTypeCleanup w)
            (call_user_Update (User_ID u)) = false) as Hup'
    by (by rewrite Hid, Hfail).
  assert (s ≠ "") as Hne by (intros ->; discriminate).
  unfold reminderService.Snooze.
  eapply runs_eq.
  { step; [step|]. cbv beta iota. rewrite Hs.
    rewrite (bool_decide_eq_false_2 _ Hne), Hp.
    step; [step|]. step; [step|]. step; [step|].
    step; [apply runs_CreateReminder_ok; assumption|].
    step; [apply runs_Update_ok; exact Hup'|]. steps. }
  all: try reflexivity.
  unfold snoozing, next_id. by rewrite Hid, Hrem.
Qed.

Lemma runs_Snooze_gone userID u s rid w :
  failing w (call_user_FindByUserID userID) = false ->
  user_session w !! userID = Some u ->
  User_LastNotifyTextID u = Some s -> strconv_ParseUint s = Some rid ->
  failing w (call_reminder_FindByID rid) = false ->
  find_reminder rid w = None ->
  runs (reminderService.Snooze userID) w (Err ErrSnoozeUnavailable) [] w.
Proof.
  intros Hfu Hu Hs Hp Hfr Hr.
  assert (s ≠ "") as Hne by (intros ->; discriminate).
  unfold reminderService.Snooze.
  eapply runs_eq.
  { step; [step|]. cbv beta iota. rewrite Hs.
    rewrite (bool_decide_eq_false_2 _ Hne), Hp. steps. }
  all: reflexivity.
Qed.

(** C6. For a user whose session is found: when the last notified reference
    is unset or empty, [Snooze] returns [ErrSnoozeUnavailable] and leaves the
    world as it was; when it is the numeral of a reminder that is not in the
    table, [Snooze] returns [ErrSnoozeUnavailable] and leaves the world as it
    was, lines of log apart; when it is the numeral of a reminder of the
    table, and the table and the session can be written, [Snooze] returns the
    content of that reminder; the registry holds no handle for the cleanup of
    that reminder, and the handle it held is not in the engine any more; the
    table has one more row, with a key that no row had, the id of the user,
    the same content and no time; and the session of the user has the status
    [StatusAwaitingTime], the numeral of the new key as pending reference,
    and the last notified reference it had. *)
Theorem C6_snooze (userID : string) (u : User) (w : World) :
  failing w (call_user_FindByUserID userID) = false ->
  user_session w !! userID = Some u ->
  (User_LastNotifyTextID u = None ∨ User_LastNotifyTextID u = Some "" ->
   reminderService.Snooze userID w = (Err ErrSnoozeUnavailable, w))
  ∧ (forall s rid,
       User_LastNotifyTextID u = Some s -> strconv_ParseUint s = Some rid ->
       failing w (call_reminder_FindByID rid) = false ->
       find_reminder rid w = None ->
       exists l, reminderService.Snooze userID w
                 = (Err ErrSnoozeUnavailable, add_log l w))
  ∧ (forall s rid r,
       User_LastNotifyTextID u = Some s -> strconv_ParseUint s = Some rid ->
       failing w (call_reminder_FindByID rid) = false ->
       find_reminder rid w = Some r ->
       failing w (call_reminder_Create userID) = false ->
       issued (reminder_content w) ->
       failing w (call_user_Update (User_ID u)) = false ->
       let w' := (reminderService.Snooze userID w).2 in
       let new := next_id w in
       (reminderService.Snooze userID w).1 = Ok (Reminder_Content r)
       ∧ Reminder_ID r = rid
       ∧ registered (jobStore (svc w')) rid jobTypeCleanup = None
       ∧ (forall e, registered (jobStore (svc w)) rid jobTypeCleanup = Some e ->
                    e ∉ cron.ID <$> cron.entries (cronScheduler w'))
       ∧ rows (reminder_content w')
         = rows (reminder_content w) ++ [mkReminder new userID (Reminder_Content r) 0]
       ∧ (forall r0, r0 ∈ rows (reminder_content w) -> Reminder_ID r0 ≠ new)
       ∧ time.IsZero 0 = true
       ∧ user_session w'
         = <[User_ID u := mkUser (User_ID u) (Some (strconv_FormatUint new))
                            (User_LastNotifyTextID u) constant.StatusAwaitingTime]>
             (user_session w)).
Proof.
  intros Hfu Hu. split; [|split].
  - intros Hl. unfold reminderService.Snooze, userRepo.FindByUserID. run.
    rewrite Hfu, Hu. simpl. by destruct Hl as [-> | ->].
  - intros s rid Hs Hp Hfr Hr.
    destruct (runs_now _ _ _ _ _ (runs_Snooze_gone userID u s rid w Hfu Hu Hs Hp Hfr Hr))
      as (l & _ & E). by exists l.
  - intros s rid r Hs Hp Hfr Hr Hfc Hiss Hup w' new. subst w' new.
    destruct (runs_now _ _ _ _ _
                (runs_Snooze_ok userID u s rid r w Hfu Hu Hs Hp Hfr Hr Hfc Hiss Hup))
      as (l & _ & ->). drop_log.
    destruct (cancel_core_frame rid jobTypeCleanup w)
      as (_ & _ & Hrem & Husr & _).
    split; [done|]. split; [by eapply find_reminder_id|]. split.
    { simpl. rewrite cancel_core_registered. by rewrite decide_True. }
    split.
    { intros e He. simpl. by apply cancel_core_removes. }
    split; [simpl; unfold next_id; by rewrite Hrem|]. split.
    { intros r0 Hin Heq. unfold issued in Hiss. rewrite Forall_forall in Hiss.
      specialize (Hiss r0 Hin). unfold next_id in Heq. lia. }
    split; [done|]. simpl. by rewrite Husr.
Qed.

Lemma C6_witness :
  let t0 := time.Date 2025 3 1 12 0 0 0 in
  let r1 := mkReminder 1 "u" "X" (time.Date 2025 3 1 11 0 0 0) in
  let u := mkUser "u" None (Some "1") 0 in
  let w0 := started (mkTable [r1] 1) {[ "u" := u ]} t0 [] no_failure in
  let w1 := (ScheduleReminderCleanup 1 w0).2 in
  let w' := (reminderService.Snooze "u" w1).2 in
  (reminderService.Snooze "u" w1).1 = Ok "X"
  ∧ registered (jobStore (svc w1)) 1 jobTypeCleanup = Some 1
  ∧ registered (jobStore (svc w')) 1 jobTypeCleanup = None
  ∧ cron.entries (cronScheduler w') = []
  ∧ rows (reminder_content w') = [r1; mkReminder 2 "u" "X" 0]
  ∧ user_session w' !! "u" = Some (mkUser "u" (Some "2") (Some "1") 1).
Proof.
  intros t0 r1 u w0 w1 w'. subst w'.
  assert (failing w1 (call_user_FindByUserID "u") = false) as Hfu by reflexivity.
  assert (user_session w1 !! "u" = Some u) as Hu by (vm_compute; reflexivity).
  destruct (C6_snooze "u" u w1 Hfu Hu) as (_ & _ & H).
  assert (strconv_ParseUint "1" = Some 1%N) as Hp by reflexivity.
  assert (find_reminder 1 w1 = Some r1) as Hr by (vm_compute; reflexivity).
  assert (issued (reminder_content w1)) as Hiss
    by (apply (bool_decide_unpack _); by vm_compute).
  destruct (H "1" 1%N r1 eq_refl Hp eq_refl Hr eq_refl Hiss eq_refl)
    as (Hres & _ & Hreg & _ & Hrows & _ & _ & Husr).
  split; [exact Hres|]. split; [by vm_compute|]. split; [exact Hreg|].
  split; [by vm_compute|]. split; [rewrite Hrows; by vm_compute|].
  rewrite Husr. by vm_compute.
Defined.

(** ** Initialization of the schedules *)

(** The world after [ScheduleReminder], and what it returns. *)
Definition schedule_core (r : Reminder) (w : World) : World :=
  match handleNotificationFunc (svc w) with
  | None => w
  | Some _ =>
      if valid_time (Reminder_RemindTime r) (wall_now w) then
        arm (Reminder_RemindTime r) (notify_jobFunc (Reminder_ID r)) (Reminder_ID r)
          jobTypeNotify (cancel_core (Reminder_ID r) jobTypeNotify (tick w))
      else refused r w
  end.

Definition schedule_result (r : Reminder) (w : World) : option error :=
  match handleNotificationFunc (svc w) with
  | None => Some ErrInternalServer
  | Some _ =>
      if valid_time (Reminder_RemindTime r) (wall_now w) then None
      else Some ErrScheduling
  end.

Lemma runs_ScheduleReminder r w :
  runs (ScheduleReminder r) w (schedule_result r w) [] (schedule_core r w).
Proof.
  unfold schedule_result, schedule_core.
  destruct (handleNotificationFunc (svc w)) as [h|] eqn:Hh.
  - assert (handleNotificationFunc (svc w) ≠ None) as Hset by congruence.
    destruct (valid_time (Reminder_RemindTime r) (wall_now w)) eqn:Hv.
    + by apply runs_ScheduleReminder_valid.
    + by apply runs_ScheduleReminder_invalid.
  - by apply runs_ScheduleReminder_unset.
Qed.

(** One turn of the loop of [InitializeSchedules]: the world after it, and
    what it adds to the two counters. *)
Definition init_step (now0 : Time) (r : Reminder) (w : World) : World :=
  if time.IsZero (Reminder_RemindTime r) then w
  else if time.Before (Reminder_RemindTime r) now0 then cleaned_core (Reminder_ID r) w
  else schedule_core r w.

Definition init_scheduled (now0 : Time) (r : Reminder) (w : World) : Z :=
  if time.IsZero (Reminder_RemindTime r) then 0
  else if time.Before (Reminder_RemindTime r) now0 then 0
  else match schedule_result r w with Some _ => 0 | None => 1 end.

Definition init_deleted (now0 : Time) (r : Reminder) (w : World) : Z :=
  if time.IsZero (Reminder_RemindTime r) then 0
  else if time.Before (Reminder_RemindTime r) now0 then
    if failing w (call_reminder_Delete (Reminder_ID r)) then 0 else 1
  else 0.

Fixpoint init_world (now0 : Time) (rs : list Reminder) (w : World) : World :=
  match rs with
  | [] => w
  | r :: rest => init_world now0 rest (init_step now0 r w)
  end.

Fixpoint init_counts (now0 : Time) (rs : list Reminder) (w : World) : Z * Z :=
  match rs with
  | [] => (0, 0)
  | r :: rest =>
      let c := init_counts now0 rest (init_step now0 r w) in
      (init_scheduled now0 r w + c.1, init_deleted now0 r w + c.2)
  end.

Lemma runs_InitializeSchedules_loop rs now0 sc dc w :
  runs (InitializeSchedules_loop rs now0 sc dc) w
    (sc + (init_counts now0 rs w).1, dc + (init_counts now0 rs w).2) []
    (init_world now0 rs w).
Proof.
  revert sc dc w. induction rs as [|r rest IH]; intros sc dc w.
  - simpl. eapply runs_eq; [step|f_equal; lia|done..].
  - cbn [InitializeSchedules_loop init_world init_counts].
    unfold init_step, init_scheduled, init_deleted, cleaned_core.
    pose proof (runs_ScheduleReminder r w) as Hrun.
    destruct (time.IsZero (Reminder_RemindTime r)) eqn:Hz;
      [|destruct (time.Before (Reminder_RemindTime r) now0) eqn:Hb;
        [destruct (failing w (call_reminder_Delete (Reminder_ID r))) eqn:Hf
        |destruct (schedule_result r w) as [err|] eqn:Hres]];
      (eapply runs_eq;
       [step; [first [exact Hrun | step]|];
        first [apply IH | step; [step|]; apply IH]
       |cbn [fst snd]; f_equal; lia|reflexivity..]).
Qed.

#[global] Arguments InitializeSchedules_loop : simpl never.

Lemma runs_InitializeSchedules w :
  failing w call_reminder_FindAll = false ->
  let rs := rows (reminder_content w) in
  let c := init_counts (wall_now w) rs (tick w) in
  runs InitializeSchedules w None [LInfo (Msg_InitializationComplete c.1 c.2)]
    (init_world (wall_now w) rs (tick w)).
Proof.
  intros Hf rs c. unfold InitializeSchedules.
  eapply runs_eq.
  { step; [step|]. step; [step|]. step; [step|].
    step; [apply runs_InitializeSchedules_loop|].
    step; [step|]. unfold scheduler.GetEntries. steps. }
  all: reflexivity.
Qed.

(** The readings of the clock that are still to come. *)
Definition readings (w : World) : list Time := wall_now w :: wall_later w.

(** The instant [T] is before none of them. *)
Definition not_before_clock (T : Time) (w : World) : Prop :=
  Forall (fun t' => time.Before T t' = false) (readings w).

Lemma tick_clock T w : not_before_clock T w -> not_before_clock T (tick w).
Proof.
  unfold not_before_clock, readings, tick.
  destruct (wall_later w) as [|t l] eqn:E; [by rewrite E|]. simpl.
  intros H. by apply Forall_cons in H as [_ H].
Qed.

Lemma schedule_core_frame r w :
  let w' := schedule_core r w in
  handleNotificationFunc (svc w') = handleNotificationFunc (svc w)
  /\ handleCleanupFunc (svc w') = handleCleanupFunc (svc w)
  /\ reminder_content w' = reminder_content w
  /\ user_session w' = user_session w
  /\ pushed w' = pushed w /\ logged w' = logged w
  /\ failing w' = failing w.
Proof.
  unfold schedule_core. destruct (handleNotificationFunc (svc w)) eqn:E; [|done].
  destruct (tick_frame w) as (Hs & _ & Hr & Hu & Hp & Hl & Hf).
  destruct (valid_time _ _);
    [|destruct (refused_frame r w) as (-> & _ & -> & -> & -> & -> & ->);
      by rewrite E].
  simpl.
  destruct (cancel_core_frame (Reminder_ID r) jobTypeNotify (tick w))
    as (-> & -> & -> & -> & -> & -> & _ & _ & ->).
  by rewrite Hs, Hr, Hu, Hp, Hl, Hf, E.
Qed.

Lemma schedule_core_clock T r w :
  not_before_clock T w -> not_before_clock T (schedule_core r w).
Proof.
  intros H. unfold schedule_core. destruct (handleNotificationFunc (svc w)); [|done].
  destruct (valid_time _ _);
    [|unfold refused; destruct (time.IsZero _); [done|by apply tick_clock]].
  apply tick_clock in H. unfold not_before_clock, readings in *. simpl.
  by destruct (cancel_core_frame (Reminder_ID r) jobTypeNotify (tick w))
    as (_ & _ & _ & _ & _ & _ & -> & -> & _).
Qed.

Lemma schedule_core_sound r w : sound w -> sound (schedule_core r w).
Proof.
  intros Hs. unfold schedule_core. destruct (handleNotificationFunc (svc w)); [|done].
  destruct (valid_time _ _); [|by apply refused_sound].
  apply (arm_sound _ (notify_jobFunc (Reminder_ID r))).
  by apply cancel_core_sound, tick_sound.
Qed.

Lemma schedule_core_exact r w : exact w -> exact (schedule_core r w).
Proof.
  intros Hs. unfold schedule_core. destruct (handleNotificationFunc (svc w)); [|done].
  destruct (valid_time _ _); [|by apply refused_exact].
  apply (arm_exact _ (notify_jobFunc (Reminder_ID r))).
  - by apply cancel_core_exact, tick_exact.
  - simpl. rewrite cancel_core_registered. by rewrite decide_True.
Qed.

Lemma schedule_core_registered_other r w rid k :
  ¬ (rid = Reminder_ID r ∧ k = jobTypeNotify) ->
  registered (jobStore (svc (schedule_core r w))) rid k
  = registered (jobStore (svc w)) rid k.
Proof.
  intros Hne. unfold schedule_core.
  destruct (tick_frame w) as (Hs & _).
  destruct (handleNotificationFunc (svc w)); [|done].
  destruct (valid_time _ _);
    [|by destruct (refused_frame r w) as (-> & _)].
  rewrite arm_registered, cancel_core_registered, Hs.
  by rewrite !decide_False.
Qed.

Lemma cancel_core_keeps rid k w rid' k' en :
  sound w -> en ∈ cron.entries (cronScheduler w) ->
  registered (jobStore (svc w)) rid' k' = Some (cron.ID en) ->
  ¬ (rid' = rid ∧ k' = k) ->
  en ∈ cron.entries (cronScheduler (cancel_core rid k w)).
Proof.
  intros Hs Hin Hr Hne. rewrite cancel_core_entries.
  destruct (registered (jobStore (svc w)) rid k) as [e|] eqn:E; [|done].
  apply list_elem_of_filter. split; [|done]. intros Heq.
  apply Hne. destruct (sound_handles_differ w rid k e rid' k' (cron.ID en) Hs E Hr);
    [done|by subst].
Qed.

Lemma schedule_core_keeps r w rid k en :
  sound w -> en ∈ cron.entries (cronScheduler w) ->
  registered (jobStore (svc w)) rid k = Some (cron.ID en) ->
  ¬ (rid = Reminder_ID r ∧ k = jobTypeNotify) ->
  en ∈ cron.entries (cronScheduler (schedule_core r w)).
Proof.
  intros Hs Hin Hr Hne. unfold schedule_core.
  destruct (tick_frame w) as (Hsvc & Hcron & _).
  destruct (handleNotificationFunc (svc w)); [|done].
  destruct (valid_time _ _);
    [|by destruct (refused_frame r w) as (_ & -> & _)].
  rewrite arm_entries. apply elem_of_app. left.
  apply (cancel_core_keeps _ _ _ rid k); [by apply tick_sound|by rewrite Hcron| |done].
  by rewrite Hsvc.
Qed.

Lemma schedule_core_success r w :
  handleNotificationFunc (svc w) ≠ None ->
  time.IsZero (Reminder_RemindTime r) = false ->
  not_before_clock (Reminder_RemindTime r) w ->
  schedule_result r w = None
  ∧ registered (jobStore (svc (schedule_core r w))) (Reminder_ID r) jobTypeNotify
    = Some (cron.nextID (cronScheduler w) + 1)
  ∧ cron.mkEntry (cron.nextID (cronScheduler w) + 1)
      (schedule_at (Reminder_RemindTime r)) (notify_jobFunc (Reminder_ID r))
    ∈ cron.entries (cronScheduler (schedule_core r w)).
Proof.
  intros Hset Hz Hclock. unfold schedule_result, schedule_core.
  destruct (handleNotificationFunc (svc w)); [|done].
  apply Forall_cons in Hclock as [Hnow _].
  unfold valid_time. rewrite Hz, Hnow. cbn [negb orb].
  destruct (tick_frame w) as (_ & Hcron & _).
  split; [done|]. split.
  - rewrite arm_registered, decide_True by done.
    by rewrite cancel_core_nextID, Hcron.
  - rewrite arm_entries, cancel_core_nextID, Hcron.
    apply elem_of_app. right. by apply list_elem_of_singleton.
Qed.

(** When the registry holds nothing for the notify job of the reminder, the
    engine gets one more entry if [ScheduleReminder] succeeds and is not
    touched if it fails. *)
Lemma schedule_core_length r w :
  registered (jobStore (svc w)) (Reminder_ID r) jobTypeNotify = None ->
  Z.of_nat (length (cron.entries (cronScheduler (schedule_core r w))))
  = Z.of_nat (length (cron.entries (cronScheduler w)))
    + match schedule_result r w with Some _ => 0 | None => 1 end.
Proof.
  intros Hnone. unfold schedule_result, schedule_core.
  destruct (tick_frame w) as (Hsvc & Hcron & _).
  destruct (handleNotificationFunc (svc w)); [|lia].
  destruct (valid_time _ _);
    [|destruct (refused_frame r w) as (_ & -> & _); lia].
  rewrite arm_entries, cancel_core_absent by (by rewrite Hsvc).
  rewrite Hcron, length_app. simpl. lia.
Qed.

(** *** One turn of the loop *)

Lemma init_step_frame now0 r w :
  let w' := init_step now0 r w in
  handleNotificationFunc (svc w') = handleNotificationFunc (svc w)
  /\ handleCleanupFunc (svc w') = handleCleanupFunc (svc w)
  /\ user_session w' = user_session w
  /\ pushed w' = pushed w /\ logged w' = logged w
  /\ failing w' = failing w.
Proof.
  unfold init_step. destruct (time.IsZero _); [done|].
  destruct (time.Before _ _).
  - by destruct (cleaned_core_frame (Reminder_ID r) w)
      as (-> & _ & -> & -> & -> & _ & _ & ->).
  - by destruct (schedule_core_frame r w) as (-> & -> & _ & -> & -> & -> & ->).
Qed.

Lemma cleaned_core_clock T rid w :
  not_before_clock T w -> not_before_clock T (cleaned_core rid w).
Proof.
  unfold not_before_clock, readings.
  by destruct (cleaned_core_frame rid w) as (_ & _ & _ & _ & _ & -> & -> & _).
Qed.

Lemma init_step_clock T now0 r w :
  not_before_clock T w -> not_before_clock T (init_step now0 r w).
Proof.
  intros H. unfold init_step. destruct (time.IsZero _); [done|].
  destruct (time.Before _ _); [by apply cleaned_core_clock|by apply schedule_core_clock].
Qed.

Lemma cleaned_core_exact rid w : exact w -> exact (cleaned_core rid w).
Proof.
  destruct (cleaned_core_frame rid w) as (Hs & Hc & _).
  apply exact_ext; by rewrite ?Hs, ?Hc.
Qed.

Lemma init_step_exact now0 r w : exact w -> exact (init_step now0 r w).
Proof.
  intros H. unfold init_step. destruct (time.IsZero _); [done|].
  destruct (time.Before _ _); [by apply cleaned_core_exact|by apply schedule_core_exact].
Qed.

(** A reminder that a turn passes to [ScheduleReminder]. *)
Definition to_schedule (now0 : Time) (r : Reminder) : Prop :=
  time.IsZero (Reminder_RemindTime r) = false
  ∧ time.Before (Reminder_RemindTime r) now0 = false.

(** A reminder that a turn deletes. *)
Definition to_delete (now0 : Time) (failing : external_call -> bool) (r : Reminder)
  : Prop :=
  time.IsZero (Reminder_RemindTime r) = false
  ∧ time.Before (Reminder_RemindTime r) now0 = true
  ∧ failing (call_reminder_Delete (Reminder_ID r)) = false.

Lemma init_step_registered_other now0 r w rid k :
  ¬ (to_schedule now0 r ∧ rid = Reminder_ID r ∧ k = jobTypeNotify) ->
  registered (jobStore (svc (init_step now0 r w))) rid k
  = registered (jobStore (svc w)) rid k.
Proof.
  intros Hne. unfold init_step, to_schedule in *.
  destruct (time.IsZero _); [done|].
  destruct (time.Before _ _).
  - by destruct (cleaned_core_frame (Reminder_ID r) w) as (-> & _).
  - apply schedule_core_registered_other. tauto.
Qed.

Lemma init_step_keeps now0 r w rid k en :
  exact w -> en ∈ cron.entries (cronScheduler w) ->
  registered (jobStore (svc w)) rid k = Some (cron.ID en) ->
  ¬ (rid = Reminder_ID r ∧ k = jobTypeNotify) ->
  en ∈ cron.entries (cronScheduler (init_step now0 r w)).
Proof.
  intros [Hs _] Hin Hr Hne. unfold init_step.
  destruct (time.IsZero _); [done|].
  destruct (time.Before _ _).
  - by destruct (cleaned_core_frame (Reminder_ID r) w) as (_ & -> & _).
  - by apply (schedule_core_keeps _ _ rid k).
Qed.

Lemma filter_all_in {A} (P : A -> Prop) `{!forall x, Decision (P x)} (l : list A) :
  (forall x, x ∈ l -> P x) -> filter P l = l.
Proof.
  induction l as [|x l IH]; intros HP; [done|].
  rewrite filter_cons, decide_True by (apply HP; left).
  rewrite IH; [done|]. intros y Hy. apply HP. by right.
Qed.

Lemma filter_everything {A} (P : A -> Prop) `{!forall x, Decision (P x)} (l : list A) :
  (forall x, P x) -> filter P l = l.
Proof. intros HP. apply filter_all_in. auto. Qed.

Lemma init_step_rows now0 r w :
  rows (reminder_content (init_step now0 r w))
  = filter (fun r0 => ¬ (to_delete now0 (failing w) r
                          ∧ Reminder_ID r0 = Reminder_ID r))
      (rows (reminder_content w)).
Proof.
  unfold init_step, to_delete, cleaned_core.
  destruct (time.IsZero _);
    [rewrite filter_everything; [done|intros x [[? _] _]; done]|].
  destruct (time.Before _ _).
  - destruct (failing w _).
    + rewrite filter_everything; [done|intros x [(_ & _ & ?) _]; done].
    + simpl. apply list_filter_iff. intros x. tauto.
  - destruct (schedule_core_frame r w) as (_ & _ & -> & _).
    rewrite filter_everything; [done|intros x [(_ & ? & _) _]; done].
Qed.

(** *** The loop *)

Lemma init_world_frame now0 rs w :
  let w' := init_world now0 rs w in
  handleNotificationFunc (svc w') = handleNotificationFunc (svc w)
  /\ handleCleanupFunc (svc w') = handleCleanupFunc (svc w)
  /\ user_session w' = user_session w
  /\ pushed w' = pushed w /\ logged w' = logged w
  /\ failing w' = failing w.
Proof.
  revert w. induction rs as [|r rest IH]; intros w; simpl; [done|].
  destruct (IH (init_step now0 r w)) as (-> & -> & -> & -> & -> & ->).
  apply init_step_frame.
Qed.

Lemma init_world_exact now0 rs w : exact w -> exact (init_world now0 rs w).
Proof.
  revert w. induction rs as [|r rest IH]; intros w H; simpl; [done|].
  by apply IH, init_step_exact.
Qed.

Lemma init_world_registered_other now0 rs w rid k :
  (forall r, r ∈ rs -> ¬ (to_schedule now0 r ∧ rid = Reminder_ID r ∧ k = jobTypeNotify)) ->
  registered (jobStore (svc (init_world now0 rs w))) rid k
  = registered (jobStore (svc w)) rid k.
Proof.
  revert w. induction rs as [|r rest IH]; intros w H; simpl; [done|].
  rewrite IH by (intros r' Hr'; apply H; by right).
  apply init_step_registered_other, H. by left.
Qed.

Lemma init_world_keeps now0 rs w rid en :
  exact w -> en ∈ cron.entries (cronScheduler w) ->
  registered (jobStore (svc w)) rid jobTypeNotify = Some (cron.ID en) ->
  rid ∉ Reminder_ID <$> rs ->
  en ∈ cron.entries (cronScheduler (init_world now0 rs w))
  ∧ registered (jobStore (svc (init_world now0 rs w))) rid jobTypeNotify
    = Some (cron.ID en).
Proof.
  revert w. induction rs as [|r rest IH]; intros w He Hin Hr Hnot; simpl; [done|].
  rewrite fmap_cons, not_elem_of_cons in Hnot. destruct Hnot as [Hne Hnot].
  apply IH; [by apply init_step_exact| | |done].
  - apply (init_step_keeps _ _ _ rid jobTypeNotify); try done. by intros [? _].
  - rewrite init_step_registered_other; [done|]. by intros (_ & ? & _).
Qed.

Lemma init_step_schedules now0 r w :
  handleNotificationFunc (svc w) ≠ None -> to_schedule now0 r ->
  not_before_clock (Reminder_RemindTime r) w ->
  let en := cron.mkEntry (cron.nextID (cronScheduler w) + 1)
              (schedule_at (Reminder_RemindTime r)) (notify_jobFunc (Reminder_ID r)) in
  registered (jobStore (svc (init_step now0 r w))) (Reminder_ID r) jobTypeNotify
  = Some (cron.ID en)
  ∧ en ∈ cron.entries (cronScheduler (init_step now0 r w)).
Proof.
  intros Hset [Hz Hb] Hclock. unfold init_step. rewrite Hz, Hb.
  by destruct (schedule_core_success r w Hset Hz Hclock) as (_ & ? & ?).
Qed.

Lemma init_world_schedules now0 rs w r :
  NoDup (Reminder_ID <$> rs) -> exact w ->
  handleNotificationFunc (svc w) ≠ None ->
  r ∈ rs -> to_schedule now0 r ->
  not_before_clock (Reminder_RemindTime r) w ->
  exists e,
    registered (jobStore (svc (init_world now0 rs w))) (Reminder_ID r) jobTypeNotify
    = Some e
    ∧ cron.mkEntry e (schedule_at (Reminder_RemindTime r))
        (notify_jobFunc (Reminder_ID r))
      ∈ cron.entries (cronScheduler (init_world now0 rs w)).
Proof.
  revert w. induction rs as [|r0 rest IH]; intros w Hnd He Hset Hin Hs Hclock.
  { by apply elem_of_nil in Hin. }
  rewrite fmap_cons in Hnd. apply NoDup_cons in Hnd as [Hfresh Hnd]. simpl.
  apply elem_of_cons in Hin as [<- | Hin].
  - destruct (init_step_schedules now0 r w Hset Hs Hclock) as [Hreg Hen].
    destruct (init_world_keeps now0 rest (init_step now0 r w) (Reminder_ID r) _
                (init_step_exact now0 r w He) Hen Hreg Hfresh) as [Hen' Hreg'].
    eexists. split; [exact Hreg'|exact Hen'].
  - apply IH; try done.
    + by apply init_step_exact.
    + by destruct (init_step_frame now0 r0 w) as (-> & _).
    + by apply init_step_clock.
Qed.

Definition deleted_by (now0 : Time) (failing : external_call -> bool)
    (rs : list Reminder) (r0 : Reminder) : Prop :=
  Exists (fun r => to_delete now0 failing r ∧ Reminder_ID r0 = Reminder_ID r) rs.

Lemma init_world_rows now0 rs w :
  rows (reminder_content (init_world now0 rs w))
  = filter (fun r0 => ¬ deleted_by now0 (failing w) rs r0) (rows (reminder_content w)).
Proof.
  revert w. induction rs as [|r rest IH]; intros w; simpl.
  - rewrite filter_everything; [done|]. intros x H. by apply Exists_nil in H.
  - rewrite IH, init_step_rows, list_filter_filter.
    destruct (init_step_frame now0 r w) as (_ & _ & _ & _ & _ & ->).
    apply list_filter_iff. intros x. unfold deleted_by.
    rewrite Exists_cons. tauto.
Qed.

Lemma length_filter_one (l : list Reminder) id :
  NoDup (Reminder_ID <$> l) -> id ∈ Reminder_ID <$> l ->
  Z.of_nat (length (filter (fun r0 => Reminder_ID r0 ≠ id) l))
  = Z.of_nat (length l) - 1.
Proof.
  induction l as [|x l IH]; intros Hnd Hin; [by apply elem_of_nil in Hin|].
  rewrite fmap_cons in Hnd, Hin. apply NoDup_cons in Hnd as [Hx Hnd].
  rewrite filter_cons. destruct (decide (Reminder_ID x = id)) as [<-|Hne].
  - rewrite decide_False by (intros H; by apply H).
    rewrite filter_all_in; [simpl; lia|].
    intros y Hy Heq. apply Hx. rewrite <- Heq. by apply list_elem_of_fmap_2.
  - rewrite decide_True by done. simpl.
    apply elem_of_cons in Hin as [?|Hin]; [done|].
    specialize (IH Hnd Hin). lia.
Qed.

Lemma NoDup_ids_rows_filter (P : Reminder -> Prop) `{!forall x, Decision (P x)} l :
  NoDup (Reminder_ID <$> l) -> NoDup (Reminder_ID <$> filter P l).
Proof.
  induction l as [|x l IH]; [done|].
  rewrite fmap_cons, NoDup_cons. intros [Hx Hnd].
  rewrite filter_cons. case_decide; [|by apply IH].
  rewrite fmap_cons, NoDup_cons. split; [|by apply IH].
  intros Hin. apply Hx.
  apply list_elem_of_fmap in Hin as (y & -> & Hy).
  apply list_elem_of_filter in Hy as [_ Hy]. by apply list_elem_of_fmap_2.
Qed.

(** What a turn adds to the counters is what it adds to the engine and what
    it takes from the table. *)
Lemma init_step_counts now0 r w :
  registered (jobStore (svc w)) (Reminder_ID r) jobTypeNotify = None ->
  NoDup (Reminder_ID <$> rows (reminder_content w)) ->
  Reminder_ID r ∈ Reminder_ID <$> rows (reminder_content w) ->
  init_scheduled now0 r w
  = Z.of_nat (length (cron.entries (cronScheduler (init_step now0 r w))))
    - Z.of_nat (length (cron.entries (cronScheduler w)))
  ∧ init_deleted now0 r w
    = Z.of_nat (length (rows (reminder_content w)))
      - Z.of_nat (length (rows (reminder_content (init_step now0 r w)))).
Proof.
  intros Hnone Hnd Hin. unfold init_scheduled, init_deleted, init_step, cleaned_core.
  destruct (time.IsZero _); [lia|].
  destruct (time.Before _ _).
  - destruct (failing w _); [lia|]. simpl.
    rewrite length_filter_one by done. lia.
  - rewrite (schedule_core_length r w Hnone).
    destruct (schedule_core_frame r w) as (_ & _ & -> & _). lia.
Qed.

Lemma init_world_counts now0 rs w :
  NoDup (Reminder_ID <$> rs) ->
  (forall r, r ∈ rs ->
     registered (jobStore (svc w)) (Reminder_ID r) jobTypeNotify = None) ->
  NoDup (Reminder_ID <$> rows (reminder_content w)) ->
  (forall r, r ∈ rs -> Reminder_ID r ∈ Reminder_ID <$> rows (reminder_content w)) ->
  (init_counts now0 rs w).1
  = Z.of_nat (length (cron.entries (cronScheduler (init_world now0 rs w))))
    - Z.of_nat (length (cron.entries (cronScheduler w)))
  ∧ (init_counts now0 rs w).2
    = Z.of_nat (length (rows (reminder_content w)))
      - Z.of_nat (length (rows (reminder_content (init_world now0 rs w)))).
Proof.
  revert w. induction rs as [|r rest IH]; intros w Hnd Hnone Hrows Hin.
  { simpl. lia. }
  rewrite fmap_cons in Hnd. apply NoDup_cons in Hnd as [Hfresh Hnd].
  cbn [init_counts init_world fst snd].
  destruct (init_step_counts now0 r w) as [-> ->];
    [apply Hnone; left|done|apply Hin; left|].
  destruct (IH (init_step now0 r w)) as [-> ->]; [done| | | |lia].
  - intros r' Hr'. rewrite init_step_registered_other; [apply Hnone; by right|].
    intros (_ & Heq & _). apply Hfresh. rewrite <- Heq. by apply list_elem_of_fmap_2.
  - rewrite init_step_rows. by apply NoDup_ids_rows_filter.
  - intros r' Hr'. rewrite init_step_rows.
    specialize (Hin r' (list_elem_of_further _ _ _ Hr')).
    apply list_elem_of_fmap in Hin as (y & Hy & Hyin).
    apply list_elem_of_fmap. exists y. split; [done|].
    apply list_elem_of_filter. split; [|done].
    intros [_ Heq]. apply Hfresh. rewrite <- Heq, <- Hy.
    by apply list_elem_of_fmap_2.
Qed.

Lemma NoDup_fmap_eq {A B} (f : A -> B) (l : list A) x y :
  NoDup (f <$> l) -> x ∈ l -> y ∈ l -> f x = f y -> x = y.
Proof.
  induction l as [|z l IH]; intros Hnd H1 H2 Heq; [by apply elem_of_nil in H1|].
  rewrite fmap_cons in Hnd. apply NoDup_cons in Hnd as [Hz Hnd].
  apply elem_of_cons in H1 as [->|H1]; apply elem_of_cons in H2 as [->|H2];
    try done.
  - exfalso. apply Hz. rewrite Heq. by apply list_elem_of_fmap_2.
  - exfalso. apply Hz. rewrite <- Heq. by apply list_elem_of_fmap_2.
  - by apply IH.
Qed.

Lemma started_exact t users now later failing :
  exact (started t users now later failing).
Proof.
  apply (exact_ext (fresh (Some rs_HandleReminderNotification)
                      (Some rs_CleanupOldReminders) t users now later failing));
    [done..|apply fresh_exact].
Qed.

(** *** The readings of the clock *)

(** The [n]-th reading of a clock that shows [now] and then the instants of
    [later], and stays at the last of them. *)
Fixpoint reading (now : Time) (later : list Time) (n : nat) {struct n} : Time :=
  match n, later with
  | S n, t :: l => reading t l n
  | _, _ => now
  end.

#[global] Instance to_schedule_dec now0 r : Decision (to_schedule now0 r).
Proof. unfold to_schedule. apply _. Defined.

(** The reading of the clock that [ScheduleReminder] makes for the reminder
    at position [i] of the table: [InitializeSchedules] has read the clock
    once, at its start, and [ScheduleReminder] has read it once for each
    reminder before this one that was passed to it. *)
Definition ScheduleReminder_reading (now : Time) (later : list Time)
    (rs : list Reminder) (i : nat) : Time :=
  reading now later (S (length (filter (to_schedule now) (take i rs)))).

Lemma reading_nil now n : reading now [] n = now.
Proof. by destruct n. Qed.

Lemma tick_reading w n :
  reading (wall_now (tick w)) (wall_later (tick w)) n
  = reading (wall_now w) (wall_later w) (S n).
Proof.
  unfold tick. destruct (wall_later w) as [|t l] eqn:E; [|done].
  by rewrite E, !reading_nil.
Qed.

Lemma schedule_core_reading r w n :
  handleNotificationFunc (svc w) ≠ None ->
  time.IsZero (Reminder_RemindTime r) = false ->
  reading (wall_now (schedule_core r w)) (wall_later (schedule_core r w)) n
  = reading (wall_now w) (wall_later w) (S n).
Proof.
  intros Hset Hz. unfold schedule_core.
  destruct (handleNotificationFunc (svc w)); [|done].
  destruct (valid_time _ _).
  - simpl.
    destruct (cancel_core_frame (Reminder_ID r) jobTypeNotify (tick w))
      as (_ & _ & _ & _ & _ & _ & -> & -> & _).
    apply tick_reading.
  - unfold refused. rewrite Hz. apply tick_reading.
Qed.

Lemma init_step_reading now0 r w n :
  handleNotificationFunc (svc w) ≠ None ->
  reading (wall_now (init_step now0 r w)) (wall_later (init_step now0 r w)) n
  = reading (wall_now w) (wall_later w)
      (if decide (to_schedule now0 r) then S n else n).
Proof.
  intros Hset. unfold init_step.
  destruct (decide (to_schedule now0 r)) as [[Hz Hb]|Hno].
  - rewrite Hz, Hb. by apply schedule_core_reading.
  - unfold to_schedule in Hno.
    destruct (time.IsZero _); [done|].
    destruct (time.Before _ _); [|by destruct Hno].
    by destruct (cleaned_core_frame (Reminder_ID r) w)
      as (_ & _ & _ & _ & _ & -> & -> & _).
Qed.

(** What [ScheduleReminder] does with a reminder whose time is not zero, by
    the reading of the clock that it makes. *)
Lemma schedule_core_at r w :
  handleNotificationFunc (svc w) ≠ None ->
  time.IsZero (Reminder_RemindTime r) = false ->
  (time.Before (Reminder_RemindTime r) (wall_now w) = false ->
   registered (jobStore (svc (schedule_core r w))) (Reminder_ID r) jobTypeNotify
   = Some (cron.nextID (cronScheduler w) + 1)
   ∧ cron.mkEntry (cron.nextID (cronScheduler w) + 1)
       (schedule_at (Reminder_RemindTime r)) (notify_jobFunc (Reminder_ID r))
     ∈ cron.entries (cronScheduler (schedule_core r w)))
  ∧ (time.Before (Reminder_RemindTime r) (wall_now w) = true ->
     svc (schedule_core r w) = svc w
     ∧ cronScheduler (schedule_core r w) = cronScheduler w).
Proof.
  intros Hset Hz. unfold schedule_core.
  destruct (handleNotificationFunc (svc w)); [|done].
  unfold valid_time. rewrite Hz. split; intros Hb; rewrite Hb; cbn [negb orb].
  - destruct (tick_frame w) as (_ & Hcron & _). split.
    + rewrite arm_registered, decide_True by done.
      by rewrite cancel_core_nextID, Hcron.
    + rewrite arm_entries, cancel_core_nextID, Hcron.
      apply elem_of_app. right. by apply list_elem_of_singleton.
  - by destruct (refused_frame r w) as (-> & -> & _).
Qed.

Lemma init_world_at now0 rs :
  forall w i r,
    NoDup (Reminder_ID <$> rs) -> exact w ->
    handleNotificationFunc (svc w) ≠ None ->
    rs !! i = Some r -> to_schedule now0 r ->
    let T := reading (wall_now w) (wall_later w)
               (length (filter (to_schedule now0) (take i rs))) in
    (time.Before (Reminder_RemindTime r) T = false ->
     exists e,
       registered (jobStore (svc (init_world now0 rs w))) (Reminder_ID r) jobTypeNotify
       = Some e
       ∧ cron.mkEntry e (schedule_at (Reminder_RemindTime r))
           (notify_jobFunc (Reminder_ID r))
         ∈ cron.entries (cronScheduler (init_world now0 rs w)))
    ∧ (time.Before (Reminder_RemindTime r) T = true ->
       registered (jobStore (svc (init_world now0 rs w))) (Reminder_ID r) jobTypeNotify
       = registered (jobStore (svc w)) (Reminder_ID r) jobTypeNotify).
Proof.
  induction rs as [|r0 rest IH]; intros w i r Hnd He Hset Hi Hs; [done|].
  rewrite fmap_cons in Hnd. apply NoDup_cons in Hnd as [Hfresh Hnd].
  destruct i as [|i]; simpl in Hi.
  - injection Hi as ->. cbn [take filter list_filter length reading init_world].
    destruct Hs as [Hz Hb0].
    destruct (schedule_core_at r w Hset Hz) as [Hok Hno].
    assert (init_step now0 r w = schedule_core r w) as Hstep
      by (unfold init_step; by rewrite Hz, Hb0).
    split; intros Hb.
    + destruct (Hok Hb) as [Hreg Hen]. rewrite <- Hstep in Hreg, Hen.
      destruct (init_world_keeps now0 rest (init_step now0 r w) (Reminder_ID r) _
                  (init_step_exact now0 r w He) Hen Hreg Hfresh) as [Hen' Hreg'].
      eexists. split; [exact Hreg'|exact Hen'].
    + rewrite init_world_registered_other.
      * rewrite Hstep. by destruct (Hno Hb) as [-> _].
      * intros r' Hr' (_ & Heq & _). apply Hfresh. rewrite Heq.
        by apply list_elem_of_fmap_2.
  - cbn [init_world take].
    assert (Reminder_ID r ≠ Reminder_ID r0) as Hne.
    { intros Heq. apply Hfresh. rewrite <- Heq.
      apply list_elem_of_fmap_2. by eapply list_elem_of_lookup_2. }
    assert (handleNotificationFunc (svc (init_step now0 r0 w)) ≠ None) as Hset'
      by (by destruct (init_step_frame now0 r0 w) as (-> & _)).
    specialize (IH (init_step now0 r0 w) i r Hnd (init_step_exact now0 r0 w He)
                  Hset' Hi Hs).
    cbv zeta in IH. rewrite init_step_reading in IH by done.
    assert (registered (jobStore (svc (init_step now0 r0 w))) (Reminder_ID r)
              jobTypeNotify
            = registered (jobStore (svc w)) (Reminder_ID r) jobTypeNotify) as Hreg0
      by (apply init_step_registered_other; by intros (_ & ? & _)).
    rewrite Hreg0 in IH. rewrite filter_cons.
    destruct (decide (to_schedule now0 r0)); exact IH.
Qed.

(** C3 as the specification words it asks that every reminder whose time is
    neither zero nor before the present end with one live notify job. The
    present is read once, at the start; [ScheduleReminder] reads the clock
    again, and when the time of the reminder lies between the two readings
    it refuses the reminder, which stays in the table without a job. *)
Lemma C3_counterexample_time_passes_before_ScheduleReminder :
  let now := time.Date 2025 3 1 12 0 0 0 in
  let r1 := mkReminder 1 "u" "milk" (time.Date 2025 3 1 12 0 1 0) in
  let w := started (mkTable [r1] 1) ∅ now [time.Date 2025 3 1 12 0 2 0] no_failure in
  let w' := (InitializeSchedules w).2 in
  time.IsZero (Reminder_RemindTime r1) = false
  ∧ time.Before (Reminder_RemindTime r1) now = false
  ∧ (InitializeSchedules w).1 = None
  ∧ rows (reminder_content w') = [r1]
  ∧ registered (jobStore (svc w')) 1 jobTypeNotify = None
  ∧ cron.entries (cronScheduler w') = []
  ∧ loud (logged w') = [LInfo (Msg_InitializationComplete 0 0)].
Proof. vm_compute. by repeat split. Qed.

(** C3, amended. At the start of the process, when the keys of the table are
    distinct and the table can be read, [InitializeSchedules] returns no
    error, whatever fails for single reminders, and for every reminder [r] of
    the table:
    - if its time is zero, [r] is still in the table and the registry holds
      no job for it;
    - if its time is not zero and is strictly before the present (the first
      reading of the clock), the registry holds no job for it; it has no row
      in the table any more when its deletion does not fail, and it is still
      in the table when its deletion fails;
    - otherwise [r] is passed to [ScheduleReminder]: it is still in the
      table and the registry holds no job for it but a notify job; when its
      time is not before the reading of the clock that [ScheduleReminder]
      makes for it, the registry holds a notify job for it, whose entry,
      armed for the time of [r], is the only entry of the engine that runs
      its notify job; when its time is before that reading,
      [ScheduleReminder] refuses it, the registry holds no notify job for it
      and no entry of the engine runs one.
    The one loud line of the log is the summary; it gives as scheduled count
    the number of entries of the engine and as deleted count the number of
    rows that the table has lost. *)
Theorem C3_InitializeSchedules_partitions_the_reminders
    (t : ReminderTable) (users : gmap string User) (now : Time)
    (later : list Time) (fl : external_call -> bool) :
  NoDup (Reminder_ID <$> rows t) ->
  fl call_reminder_FindAll = false ->
  let w := started t users now later fl in
  let w' := (InitializeSchedules w).2 in
  let reg := registered (jobStore (svc w')) in
  (InitializeSchedules w).1 = None
  ∧ (forall i r, rows t !! i = Some r ->
       (time.IsZero (Reminder_RemindTime r) = true ->
        r ∈ rows (reminder_content w') ∧ forall k, reg (Reminder_ID r) k = None)
       ∧ (time.IsZero (Reminder_RemindTime r) = false ->
          time.Before (Reminder_RemindTime r) now = true ->
          (forall k, reg (Reminder_ID r) k = None)
          ∧ (fl (call_reminder_Delete (Reminder_ID r)) = false ->
             Reminder_ID r ∉ Reminder_ID <$> rows (reminder_content w'))
          ∧ (fl (call_reminder_Delete (Reminder_ID r)) = true ->
             r ∈ rows (reminder_content w')))
       ∧ (time.IsZero (Reminder_RemindTime r) = false ->
          time.Before (Reminder_RemindTime r) now = false ->
          let T := ScheduleReminder_reading now later (rows t) i in
          r ∈ rows (reminder_content w')
          ∧ (forall k, k ≠ jobTypeNotify -> reg (Reminder_ID r) k = None)
          ∧ (time.Before (Reminder_RemindTime r) T = false ->
             exists e,
               reg (Reminder_ID r) jobTypeNotify = Some e
               ∧ live_handles (cronScheduler w') (Reminder_ID r) jobTypeNotify = [e]
               ∧ cron.mkEntry e (schedule_at (Reminder_RemindTime r))
                   (notify_jobFunc (Reminder_ID r))
                 ∈ cron.entries (cronScheduler w'))
          ∧ (time.Before (Reminder_RemindTime r) T = true ->
             reg (Reminder_ID r) jobTypeNotify = None
             ∧ live_handles (cronScheduler w') (Reminder_ID r) jobTypeNotify = [])))
  ∧ exists scheduledCount deletedCount,
      loud (logged w') = [LInfo (Msg_InitializationComplete scheduledCount deletedCount)]
      ∧ scheduledCount = Z.of_nat (length (cron.entries (cronScheduler w')))
      ∧ deletedCount
        = Z.of_nat (length (rows t)) - Z.of_nat (length (rows (reminder_content w'))).
Proof.
  intros Hnd Hfa w w' reg. subst w' reg.
  assert (failing w call_reminder_FindAll = false) as Hfa' by exact Hfa.
  destruct (runs_now _ _ _ _ _ (runs_InitializeSchedules w Hfa')) as (l & Hl & E).
  rewrite E. drop_log. rewrite logged_add_log.
  change (wall_now w) with now in *.
  change (rows (reminder_content w)) with (rows t) in *.
  pose proof (tick_reading w) as Hclock0.
  change (wall_now w) with now in Hclock0.
  change (wall_later w) with later in Hclock0.
  set (w0 := tick w) in *.
  assert (exact w0) as He0 by apply tick_exact, started_exact.
  assert (forall rid k, registered (jobStore (svc w0)) rid k = None) as Hempty.
  { intros rid k. unfold w0. destruct (tick_frame w) as (-> & _).
    unfold registered. simpl. by rewrite lookup_empty. }
  assert (rows (reminder_content w0) = rows t) as Hrows0
    by (unfold w0; by destruct (tick_frame w) as (_ & _ & -> & _)).
  assert (failing w0 = fl) as failing0
    by (unfold w0; by destruct (tick_frame w) as (_ & _ & _ & _ & _ & _ & ->)).
  assert (cron.entries (cronScheduler w0) = []) as Hent0
    by (unfold w0; by destruct (tick_frame w) as (_ & -> & _)).
  assert (handleNotificationFunc (svc w0) ≠ None) as Hset
    by (unfold w0; by destruct (tick_frame w) as (-> & _)).
  pose proof (init_world_exact now (rows t) w0 He0) as He'.
  pose proof (init_world_rows now (rows t) w0) as Hrows.
  rewrite Hrows0, failing0 in Hrows.
  assert (forall r r', r ∈ rows t -> r' ∈ rows t ->
                       Reminder_ID r = Reminder_ID r' -> r = r') as Hinj
    by (intros r r'; by apply NoDup_fmap_eq).
  assert (forall r, r ∈ rows t -> ¬ to_delete now fl r ->
                    r ∈ rows (reminder_content (init_world now (rows t) w0)))
    as Hstay.
  { intros r Hr Hno. rewrite Hrows. apply list_elem_of_filter. split; [|done].
    intros Hdel. apply Exists_exists in Hdel as (r' & Hr' & Hd & Heq).
    by rewrite (Hinj r r' Hr Hr' Heq) in Hno. }
  assert (forall r k, r ∈ rows t -> ¬ (to_schedule now r ∧ k = jobTypeNotify) ->
            registered (jobStore (svc (init_world now (rows t) w0))) (Reminder_ID r) k
            = None) as Hnojob.
  { intros r k Hr Hno. rewrite init_world_registered_other; [apply Hempty|].
    intros r' Hr' (Hs & Heq & Hk). apply Hno.
    by rewrite (Hinj r r' Hr Hr' Heq). }
  split; [done|]. split.
  - intros i r Hi.
    assert (r ∈ rows t) as Hr by (by eapply list_elem_of_lookup_2).
    split; [|split].
    + intros Hz. split.
      * apply Hstay; [done|]. intros [? _]. congruence.
      * intros k. apply Hnojob; [done|]. intros [[? _] _]. congruence.
    + intros Hz Hb. split; [|split].
      * intros k. apply Hnojob; [done|]. intros [[_ ?] _]. congruence.
      * intros Hf Hin. apply list_elem_of_fmap in Hin as (r0 & Heq & Hin).
        rewrite Hrows in Hin. apply list_elem_of_filter in Hin as [Hno _].
        apply Hno. apply Exists_exists. exists r. by repeat split.
      * intros Hf. apply Hstay; [done|]. intros (_ & _ & ?). congruence.
    + intros Hz Hb. cbv zeta. unfold ScheduleReminder_reading.
      split; [|split; [|split]].
      * apply Hstay; [done|]. intros (_ & ? & _). congruence.
      * intros k Hk. apply Hnojob; [done|]. by intros [_ ?].
      * intros HT.
        destruct (init_world_at now (rows t) w0 i r Hnd He0 Hset Hi (conj Hz Hb))
          as [Hok _]. rewrite Hclock0 in Hok.
        destruct (Hok HT) as (e & Hreg & Hen).
        exists e. split; [done|]. split; [|done].
        by rewrite (exact_live_handles _ _ _ He'), Hreg.
      * intros HT.
        destruct (init_world_at now (rows t) w0 i r Hnd He0 Hset Hi (conj Hz Hb))
          as [_ Hno]. rewrite Hclock0 in Hno.
        specialize (Hno HT). rewrite Hempty in Hno.
        split; [done|]. by rewrite (exact_live_handles _ _ _ He'), Hno.
  - destruct (init_world_counts now (rows t) w0) as [Hsc Hdc]; try done.
    { by rewrite Hrows0. }
    { intros r Hr. rewrite Hrows0. by apply list_elem_of_fmap_2. }
    rewrite Hent0 in Hsc. rewrite Hrows0 in Hdc.
    destruct (init_world_frame now (rows t) w0) as (_ & _ & _ & _ & -> & _).
    assert (logged w0 = [LInfo Msg_HandlersSet]) as ->
      by (unfold w0; by destruct (tick_frame w) as (_ & _ & _ & _ & _ & -> & _)).
    eexists _, _. split; [by rewrite loud_app, Hl|].
    split; [rewrite Hsc; simpl; lia|exact Hdc].
Qed.

Lemma C3_witness :
  let now := time.Date 2025 3 1 12 0 0 0 in
  let r1 := mkReminder 1 "u" "past" (time.Date 2025 2 1 9 0 0 0) in
  let r2 := mkReminder 2 "u" "future" (time.Date 2025 3 2 9 0 0 0) in
  let r3 := mkReminder 3 "v" "unset" 0 in
  let r4 := mkReminder 4 "v" "soon" (time.Date 2025 3 1 12 0 1 0) in
  let w := started (mkTable [r1; r2; r3; r4] 4) ∅ now
             [time.Date 2025 3 1 12 0 0 500000000; time.Date 2025 3 1 12 0 2 0]
             no_failure in
  let w' := (InitializeSchedules w).2 in
  (InitializeSchedules w).1 = None
  ∧ rows (reminder_content w') = [r2; r3; r4]
  ∧ (exists e,
       registered (jobStore (svc w')) 2 jobTypeNotify = Some e
       ∧ live_handles (cronScheduler w') 2 jobTypeNotify = [e]
       ∧ cron.mkEntry e (schedule_at (time.Date 2025 3 2 9 0 0 0)) (notify_jobFunc 2)
         ∈ cron.entries (cronScheduler w'))
  ∧ (forall k, registered (jobStore (svc w')) 3 k = None)
  ∧ (registered (jobStore (svc w')) 4 jobTypeNotify = None
     ∧ live_handles (cronScheduler w') 4 jobTypeNotify = [])
  ∧ loud (logged w') = [LInfo (Msg_InitializationComplete 1 1)].
Proof.
  intros now r1 r2 r3 r4 w w'. subst w'.
  assert (NoDup (Reminder_ID <$> rows (mkTable [r1; r2; r3; r4] 4))) as Hnd
    by (apply (bool_decide_unpack _); by vm_compute).
  destruct (C3_InitializeSchedules_partitions_the_reminders
              (mkTable [r1; r2; r3; r4] 4) ∅ now
              [time.Date 2025 3 1 12 0 0 500000000; time.Date 2025 3 1 12 0 2 0]
              no_failure Hnd eq_refl)
    as (Hres & Hall & _).
  fold w in Hres, Hall.
  split; [exact Hres|]. split; [vm_compute; reflexivity|].
  split; [|split; [|split]].
  - destruct (Hall 1%nat r2 eq_refl) as (_ & _ & H).
    destruct H as (_ & _ & H & _); [reflexivity..|]. apply H.
    vm_compute; reflexivity.
  - destruct (Hall 2%nat r3 eq_refl) as (H & _).
    destruct H as [_ H]; [reflexivity|exact H].
  - destruct (Hall 3%nat r4 eq_refl) as (_ & _ & H).
    destruct H as (_ & _ & _ & H); [reflexivity..|]. apply H.
    vm_compute; reflexivity.
  - vm_compute; reflexivity.
Defined.

(** * Further properties of the scheduling core *)


(** ** Decimal numerals *)

(** The value of a decimal numeral read from its most significant digit,
    [acc] being the value of the digits already read. *)
Fixpoint uint_value (acc : Z) (d : Decimal.uint) : Z :=
  match d with
  | Decimal.Nil => acc
  | Decimal.D0 d => uint_value (acc * 10 + 0) d
  | Decimal.D1 d => uint_value (acc * 10 + 1) d
  | Decimal.D2 d => uint_value (acc * 10 + 2) d
  | Decimal.D3 d => uint_value (acc * 10 + 3) d
  | Decimal.D4 d => uint_value (acc * 10 + 4) d
  | Decimal.D5 d => uint_value (acc * 10 + 5) d
  | Decimal.D6 d => uint_value (acc * 10 + 6) d
  | Decimal.D7 d => uint_value (acc * 10 + 7) d
  | Decimal.D8 d => uint_value (acc * 10 + 8) d
  | Decimal.D9 d => uint_value (acc * 10 + 9) d
  end.

Lemma digits_value_aux_uint d acc :
  digits_value_aux acc (NilEmpty.string_of_uint d) = Some (uint_value acc d).
Proof. revert acc. induction d; intros acc; simpl; [done|by rewrite IHd..]. Qed.

Lemma uint_value_of_uint_acc d (acc : positive) :
  uint_value (Z.pos acc) d = Z.pos (Pos.of_uint_acc d acc).
Proof.
  revert acc. induction d; intros acc; simpl; [done|rewrite <- IHd; f_equal; lia..].
Qed.

Lemma uint_value_of_uint d : uint_value 0 d = Z.of_N (Pos.of_uint d).
Proof.
  induction d; simpl; [done|done|exact (uint_value_of_uint_acc d _)..].
Qed.

Lemma digits_value_fmt_d (n : N) : digits_value (fmt_d (Z.of_N n)) = Some (Z.of_N n).
Proof.
  unfold fmt_d. destruct n as [|p]; [reflexivity|]. simpl.
  pose proof (DecimalPos.Unsigned.of_to p) as Hp.
  assert (NilZero.string_of_uint (Pos.to_uint p)
          = NilEmpty.string_of_uint (Pos.to_uint p)) as ->.
  { destruct (Pos.to_uint p); [|reflexivity..]. discriminate Hp. }
  assert (digits_value (NilEmpty.string_of_uint (Pos.to_uint p))
          = digits_value_aux 0 (NilEmpty.string_of_uint (Pos.to_uint p))) as ->.
  { destruct (Pos.to_uint p); [discriminate Hp|reflexivity..]. }
  by rewrite digits_value_aux_uint, uint_value_of_uint, Hp.
Qed.

(** A key printed by [strconv.FormatUint] is read back by
    [strconv.ParseUint], and is never the empty string. *)
Lemma ParseUint_FormatUint (n : N) :
  (n < 2 ^ 64)%N -> strconv_ParseUint (strconv_FormatUint n) = Some n.
Proof.
  intros Hn. unfold strconv_ParseUint, strconv_FormatUint.
  rewrite digits_value_fmt_d.
  assert ((Z.of_N n <? 2 ^ 64) = true) as -> by (apply Z.ltb_lt; lia).
  by rewrite N2Z.id.
Qed.

Lemma FormatUint_nonempty (n : N) : strconv_FormatUint n ≠ "".
Proof.
  intros E. pose proof (digits_value_fmt_d n) as H.
  unfold strconv_FormatUint in E. by rewrite E in H.
Qed.

(** ** The registry: a handle stored and removed *)

Lemma unregister_register rid k e js :
  pruned js -> registered js rid k = None ->
  unregister rid k (register rid k e js) = js.
Proof.
  unfold pruned, registered, unregister, register. intros Hp Hr.
  rewrite lookup_insert_eq. simpl. rewrite delete_insert_eq.
  destruct (js !! rid) as [jobs|] eqn:E; simpl in *.
  - rewrite (delete_id _ _ Hr).
    rewrite bool_decide_eq_false_2.
    + rewrite insert_insert_eq. by apply insert_id.
    + intros Hsz. apply map_size_empty_iff in Hsz. by apply (Hp rid jobs E).
  - rewrite delete_empty, bool_decide_eq_true_2 by apply map_size_empty.
    rewrite delete_insert_eq. by apply delete_id.
Qed.

(** [removeJobID] after [storeJobID] returns the handle that was stored,
    whatever the registry held for the key before, and leaves no handle for
    the key, so that a second [removeJobID] finds nothing; neither function
    touches the engine. When no bucket of the registry was empty, none is
    afterwards; and when, moreover, the registry held nothing for the key,
    it is after the two calls the registry it was before them. *)
Theorem storeJobID_then_removeJobID (rid : N) (k : string) (e : Z) (w : World) :
  let w1 := (storeJobID rid k e w).2 in
  let w2 := (removeJobID rid k w1).2 in
  (removeJobID rid k w1).1 = (e, true)
  ∧ registered (jobStore (svc w2)) rid k = None
  ∧ (removeJobID rid k w2).1 = (0, false)
  ∧ cronScheduler w2 = cronScheduler w
  ∧ (forall rid' k', ¬ (rid' = rid ∧ k' = k) ->
       registered (jobStore (svc w2)) rid' k' = registered (jobStore (svc w)) rid' k')
  ∧ (pruned (jobStore (svc w)) -> pruned (jobStore (svc w2)))
  ∧ (pruned (jobStore (svc w)) -> registered (jobStore (svc w)) rid k = None ->
     jobStore (svc w2) = jobStore (svc w)).
Proof.
  intros w1 w2. subst w1 w2. rewrite storeJobID_run. cbn [snd].
  set (w1 := add_log _ _).
  assert (registered (jobStore (svc w1)) rid k = Some e) as Hreg.
  { unfold w1. simpl. rewrite registered_register. by rewrite decide_True. }
  rewrite (removeJobID_present rid k e w1 Hreg). cbn [fst snd].
  set (w2 := add_log _ _).
  assert (jobStore (svc w2)
          = unregister rid k (register rid k e (jobStore (svc w)))) as Hjs
    by reflexivity.
  assert (registered (jobStore (svc w2)) rid k = None) as Hnone.
  { rewrite Hjs, registered_unregister. by rewrite decide_True. }
  split; [done|]. split; [done|].
  split; [by rewrite (removeJobID_absent rid k w2 Hnone)|].
  split; [done|]. split; [|split].
  - intros rid' k' Hne.
    rewrite Hjs, registered_unregister, decide_False by done.
    by rewrite registered_register, decide_False.
  - intros Hp. rewrite Hjs. by apply pruned_unregister, pruned_register.
  - intros Hp Hr. rewrite Hjs. by apply unregister_register.
Qed.

(** ** The registry while calls are made and jobs run *)

(** What happens to the scheduler service: one of its four methods is
    called, or the engine runs a job. *)
Inductive event : Set :=
  | event_call (c : call)
  | event_job (j : jobFunc).

Definition do_event (ev : event) (w : World) : option World :=
  match ev with
  | event_call c => Some (do_call c w).2
  | event_job j => run_jobFunc j w
  end.

Fixpoint do_events (evs : list event) (w : World) : option World :=
  match evs with
  | [] => Some w
  | ev :: evs => w' ← do_event ev w; do_events evs w'
  end.

(** Both handlers are those of the reminder service. *)
Definition wired (w : World) : Prop :=
  handleNotificationFunc (svc w) = Some rs_HandleReminderNotification
  ∧ handleCleanupFunc (svc w) = Some rs_CleanupOldReminders.

Lemma wired_ext w w' :
  handleNotificationFunc (svc w') = handleNotificationFunc (svc w) ->
  handleCleanupFunc (svc w') = handleCleanupFunc (svc w) ->
  wired w -> wired w'.
Proof. unfold wired. by intros -> ->. Qed.

Lemma notification_core_frame rid w :
  let w' := notification_core rid w in
  handleNotificationFunc (svc w') = handleNotificationFunc (svc w)
  /\ handleCleanupFunc (svc w') = handleCleanupFunc (svc w)
  /\ reminder_content w' = reminder_content w
  /\ failing w' = failing w.
Proof.
  unfold notification_core. destruct (failing w _); [done|].
  destruct (find_reminder rid w) as [r|]; [|done].
  fold (before_cleanup r rid w).
  destruct (cleanup_core_frame rid (before_cleanup r rid w))
    as (-> & -> & -> & _ & _ & _ & ->).
  by destruct (before_cleanup_frame r rid w) as (-> & _ & -> & _ & _ & ->).
Qed.

Lemma notification_core_sound rid w : sound w -> sound (notification_core rid w).
Proof.
  intros Hs. unfold notification_core. destruct (failing w _); [done|].
  destruct (find_reminder rid w) as [r|]; [|done].
  fold (before_cleanup r rid w).
  destruct (before_cleanup_frame r rid w) as (Hsvc & Hcron & _).
  apply cleanup_core_sound. eapply sound_ext; [| |exact Hs]; by rewrite ?Hsvc.
Qed.

Lemma cleaned_core_sound rid w : sound w -> sound (cleaned_core rid w).
Proof.
  destruct (cleaned_core_frame rid w) as (Hsvc & Hcron & _).
  apply sound_ext; by rewrite ?Hsvc.
Qed.

Lemma do_call_sound c w : sound w -> sound (do_call c w).2.
Proof.
  intros Hs. destruct c as [r|rid|rid|rid]; simpl.
  - destruct (runs_now _ _ _ _ _ (runs_ScheduleReminder r w)) as (l & _ & ->).
    by apply add_log_sound, schedule_core_sound.
  - destruct (handleCleanupFunc (svc w)) as [h|] eqn:Hh.
    + assert (handleCleanupFunc (svc w) ≠ None) as Hset by congruence.
      destruct (runs_now _ _ _ _ _ (runs_ScheduleReminderCleanup_set rid w Hset))
        as (l & _ & ->).
      apply add_log_sound. apply (arm_sound _ (cleanup_jobFunc rid)).
      by apply tick_sound, cancel_core_sound.
    + destruct (runs_now _ _ _ _ _ (runs_ScheduleReminderCleanup_unset rid w Hh))
        as (l & _ & ->).
      by apply add_log_sound.
  - destruct (runs_now _ _ _ _ _ (runs_CancelReminderSchedule rid w)) as (l & _ & ->).
    by apply add_log_sound, cancel_core_sound.
  - destruct (runs_now _ _ _ _ _ (runs_CancelCleanupSchedule rid w)) as (l & _ & ->).
    by apply add_log_sound, cancel_core_sound.
Qed.

Lemma do_call_wired c w : wired w -> wired (do_call c w).2.
Proof.
  intros Hw. destruct c as [r|rid|rid|rid]; simpl.
  - destruct (runs_now _ _ _ _ _ (runs_ScheduleReminder r w)) as (l & _ & ->).
    destruct (schedule_core_frame r w) as (H1 & H2 & _).
    apply (wired_ext w); [exact H1|exact H2|done].
  - destruct (handleCleanupFunc (svc w)) as [h|] eqn:Hh.
    + assert (handleCleanupFunc (svc w) ≠ None) as Hset by congruence.
      destruct (runs_now _ _ _ _ _ (runs_ScheduleReminderCleanup_set rid w Hset))
        as (l & _ & ->).
      pose proof (cleanup_core_frame rid w) as H. unfold cleanup_core in H.
      rewrite Hh in H. destruct H as (H1 & H2 & _).
      apply (wired_ext w); [exact H1|by rewrite Hh|done].
    + destruct (runs_now _ _ _ _ _ (runs_ScheduleReminderCleanup_unset rid w Hh))
        as (l & _ & ->).
      by apply (wired_ext w).
  - destruct (runs_now _ _ _ _ _ (runs_CancelReminderSchedule rid w)) as (l & _ & ->).
    destruct (cancel_core_frame rid jobTypeNotify w) as (H1 & H2 & _).
    apply (wired_ext w); [exact H1|exact H2|done].
  - destruct (runs_now _ _ _ _ _ (runs_CancelCleanupSchedule rid w)) as (l & _ & ->).
    destruct (cancel_core_frame rid jobTypeCleanup w) as (H1 & H2 & _).
    apply (wired_ext w); [exact H1|exact H2|done].
Qed.

Lemma run_jobFunc_sound j w :
  wired w -> sound w -> exists w', run_jobFunc j w = Some w' ∧ wired w' ∧ sound w'.
Proof.
  intros [Hn Hc] Hs. destruct j as [rid|rid].
  - destruct (run_notify_jobFunc rid w Hn) as (l & _ & ->).
    eexists. split; [done|].
    destruct (forget_frame rid jobTypeNotify (notification_core rid w))
      as (H1 & H2 & _).
    destruct (notification_core_frame rid w) as (H3 & H4 & _).
    split.
    + apply (wired_ext w); [|  |done]; simpl; congruence.
    + by apply add_log_sound, forget_sound, notification_core_sound.
  - destruct (run_cleanup_jobFunc rid w Hc) as (l & _ & ->).
    eexists. split; [done|].
    destruct (forget_frame rid jobTypeCleanup (cleaned_core rid w))
      as (H1 & H2 & _).
    destruct (cleaned_core_frame rid w) as (H3 & _).
    split.
    + apply (wired_ext w); [| |done]; simpl; congruence.
    + by apply add_log_sound, forget_sound, cleaned_core_sound.
Qed.

Lemma do_events_sound evs w :
  wired w -> sound w -> exists w', do_events evs w = Some w' ∧ wired w' ∧ sound w'.
Proof.
  revert w. induction evs as [|ev evs IH]; intros w Hw Hs; [by exists w|].
  destruct ev as [c|j]; simpl.
  - apply IH; [by apply do_call_wired|by apply do_call_sound].
  - destruct (run_jobFunc_sound j w Hw Hs) as (w' & -> & Hw' & Hs'). simpl.
    by apply IH.
Qed.

(** From the start of the process, whatever methods of the scheduler service
    are called and whatever jobs the engine runs, in any order, no job
    panics, and afterwards: every handle that the registry holds is the
    handle of an entry of the engine that runs the job of that reminder and
    of that type; two keys never hold the same handle; and the registry has
    a bucket for a reminder only when it holds a handle for it. *)
Theorem registry_is_sound_after_calls_and_jobs
    (t : ReminderTable) (users : gmap string User) (now : Time)
    (later : list Time) (fl : external_call -> bool) (evs : list event) :
  exists w,
    do_events evs (started t users now later fl) = Some w
    ∧ (forall rid k e,
         registered (jobStore (svc w)) rid k = Some e ->
         exists en, en ∈ cron.entries (cronScheduler w) ∧ cron.ID en = e
                    ∧ job_reminder (cron.Job en) = rid
                    ∧ job_type (cron.Job en) = k)
    ∧ (forall rid k rid' k' e,
         registered (jobStore (svc w)) rid k = Some e ->
         registered (jobStore (svc w)) rid' k' = Some e -> rid = rid' ∧ k = k')
    ∧ (forall rid,
         jobStore (svc w) !! rid = None
         ↔ forall k, registered (jobStore (svc w)) rid k = None).
Proof.
  destruct (do_events_sound evs (started t users now later fl)) as (w & E & _ & Hs).
  { done. }
  { destruct (started_exact t users now later fl) as [Hs _]. exact Hs. }
  exists w. split; [done|]. split; [|split].
  - intros rid k e Hr. pose proof (sound_registered _ _ _ _ Hs Hr) as L.
    apply Exists_exists in L as (en & Hin & H). by exists en.
  - intros rid k rid' k' e H1 H2. by eapply sound_handles_differ.
  - intros rid. destruct Hs as (_ & _ & _ & Hp). unfold registered. split.
    + by intros ->.
    + intros H. destruct (jobStore (svc w) !! rid) as [jobs|] eqn:E'; [|done].
      exfalso. apply (Hp rid jobs E'). apply map_eq. intros k.
      rewrite lookup_empty. exact (H k).
Qed.

(** ** Creating a reminder *)

Lemma find_app_fresh (f : Reminder -> bool) l x :
  existsb f l = false -> f x = true -> List.find f (l ++ [x]) = Some x.
Proof.
  induction l as [|y l IH]; simpl; intros H Hx; [by rewrite Hx|].
  apply orb_false_iff in H as [-> H]. by apply IH.
Qed.

Lemma find_app_other (f : Reminder -> bool) l x :
  f x = false -> List.find f (l ++ [x]) = List.find f l.
Proof.
  intros Hx. induction l as [|y l IH]; simpl; [by rewrite Hx|].
  destruct (f y); [done|exact IH].
Qed.

Lemma runs_CreateReminder_fail userID content w :
  failing w (call_reminder_Create userID) = true ->
  runs (reminderService.CreateReminder userID content) w (Err ErrDatabaseOperation)
    [] w.
Proof.
  intros H. unfold reminderService.CreateReminder.
  eapply runs_eq; [steps|reflexivity..].
Qed.

Lemma CreateReminder_adds_a_reminder_without_time_aux userID content w :
  issued (reminder_content w) ->
  failing w (call_reminder_Create userID) = false ->
  List.find (reminderRepo.matches_id (next_id w))
    (rows (reminder_content (insert_reminder userID content w)))
  = Some (mkReminder (next_id w) userID content 0).
Proof.
  intros Hiss Hf. simpl. apply find_app_fresh; [by apply issued_fresh|].
  unfold reminderRepo.matches_id. simpl. apply N.eqb_refl.
Qed.

(** In a table whose keys have been issued by its sequence, [CreateReminder]
    returns a key that no row has, and adds at the end of the table one row
    with this key, the user, the content and the zero time; [FindByID] then
    finds this row under the new key and what it found before under the other
    keys; the keys of the new table have been issued by its sequence. When
    the insertion fails, [CreateReminder] returns [ErrDatabaseOperation] and
    the table is as it was. In both cases no job is scheduled and no session
    is written. *)
Theorem CreateReminder_adds_a_reminder_without_time
    (userID content : string) (w : World) :
  issued (reminder_content w) ->
  let res := (reminderService.CreateReminder userID content w).1 in
  let w' := (reminderService.CreateReminder userID content w).2 in
  let new := next_id w in
  svc w' = svc w ∧ cronScheduler w' = cronScheduler w
  ∧ user_session w' = user_session w
  ∧ (failing w (call_reminder_Create userID) = true ->
     res = Err ErrDatabaseOperation ∧ reminder_content w' = reminder_content w)
  ∧ (failing w (call_reminder_Create userID) = false ->
     res = Ok new
     ∧ (forall r, r ∈ rows (reminder_content w) -> Reminder_ID r ≠ new)
     ∧ rows (reminder_content w')
       = rows (reminder_content w) ++ [mkReminder new userID content 0]
     ∧ find_reminder new w' = Some (mkReminder new userID content 0)
     ∧ (forall id, id ≠ new -> find_reminder id w' = find_reminder id w)
     ∧ issued (reminder_content w')).
Proof.
  intros Hiss res w' new. subst res w' new.
  pose proof (issued_fresh w Hiss) as Hfresh.
  destruct (failing w (call_reminder_Create userID)) eqn:Hf.
  - destruct (runs_now _ _ _ _ _ (runs_CreateReminder_fail userID content w Hf))
      as (l & _ & ->). drop_log.
    repeat split; try done.
  - destruct (runs_now _ _ _ _ _ (runs_CreateReminder_ok userID content w Hf Hfresh))
      as (l & _ & ->). drop_log.
    split; [done|]. split; [done|]. split; [done|]. split; [done|]. intros _.
    split; [done|]. split.
    { intros r Hin Heq. unfold issued in Hiss. rewrite Forall_forall in Hiss.
      specialize (Hiss r Hin). unfold next_id in Heq. lia. }
    split; [done|]. split; [|split].
    + unfold find_reminder. simpl. apply find_app_fresh; [done|].
      unfold reminderRepo.matches_id. simpl. apply N.eqb_refl.
    + intros id Hne. unfold find_reminder at 1. simpl.
      rewrite find_app_other; [done|].
      unfold reminderRepo.matches_id. simpl. apply N.eqb_neq. congruence.
    + unfold issued in *. simpl. apply Forall_app. split.
      * eapply Forall_impl; [exact Hiss|]. simpl. intros r Hr. lia.
      * apply Forall_singleton. simpl. lia.
Qed.

Lemma CreateReminder_witness :
  let w := started (mkTable [mkReminder 1 "u" "milk" 0] 1) ∅
             (time.Date 2025 3 1 12 0 0 0) [] no_failure in
  (reminderService.CreateReminder "u" "eggs" w).1 = Ok 2%N
  ∧ rows (reminder_content (reminderService.CreateReminder "u" "eggs" w).2)
    = [mkReminder 1 "u" "milk" 0; mkReminder 2 "u" "eggs" 0].
Proof.
  intros w.
  assert (issued (reminder_content w)) as Hiss
    by (apply (bool_decide_unpack _); by vm_compute).
  destruct (CreateReminder_adds_a_reminder_without_time "u" "eggs" w Hiss)
    as (_ & _ & _ & _ & H).
  destruct (H eq_refl) as (Hres & _ & Hrows & _). by split.
Defined.

(** ** A user who unfollows *)

(** [DeleteUser] never touches the scheduler service nor the engine: the
    jobs of the reminders it deletes stay armed, with their handles in the
    registry. It deletes the rows of the user, and no other row, unless that
    deletion fails; it deletes the session of the user unless that deletion
    fails, also when the reminders could not be deleted; and it returns an
    error, [ErrDatabaseOperation], exactly when the session could not be
    deleted. *)
Theorem DeleteUser_deletes_rows_and_session_and_keeps_jobs
    (userID : string) (w : World) :
  let res := (userService.DeleteUser userID w).1 in
  let w' := (userService.DeleteUser userID w).2 in
  svc w' = svc w ∧ cronScheduler w' = cronScheduler w ∧ pushed w' = pushed w
  ∧ rows (reminder_content w')
    = (if failing w (call_reminder_DeleteByUserID userID)
       then rows (reminder_content w)
       else filter (fun r => Reminder_UserID r ≠ userID) (rows (reminder_content w)))
  ∧ user_session w'
    = (if failing w (call_user_Delete userID) then user_session w
       else delete userID (user_session w))
  ∧ res = (if failing w (call_user_Delete userID) then Some ErrDatabaseOperation
           else None).
Proof.
  unfold userService.DeleteUser, reminderRepo.DeleteByUserID, userRepo.Delete.
  run.
  destruct (failing w (call_reminder_DeleteByUserID userID)); simpl;
    destruct (failing w (call_user_Delete userID)); simpl; done.
Qed.

(** ** Initializing the schedules of a service that has schedules *)

#[global] Instance external_call_eq_dec : EqDecision external_call.
Proof. solve_decision. Defined.

(** When the table cannot be read, [InitializeSchedules] returns
    [ErrDatabaseOperation]; it has not read the clock, and the registry, the
    engine and the tables are as they were. *)
Theorem InitializeSchedules_fails_when_the_table_cannot_be_read (w : World) :
  failing w call_reminder_FindAll = true ->
  exists l, InitializeSchedules w = (Some ErrDatabaseOperation, add_log l w).
Proof.
  intros Hf.
  assert (runs InitializeSchedules w (Some ErrDatabaseOperation) [] w) as Hrun.
  { unfold InitializeSchedules. eapply runs_eq; [steps|reflexivity..]. }
  destruct (runs_now _ _ _ _ _ Hrun) as (l & _ & E). by exists l.
Qed.

Lemma InitializeSchedules_fails_witness :
  let w := started (mkTable [mkReminder 1 "u" "milk" (time.Date 2025 3 2 9 0 0 0)] 1)
             ∅ (time.Date 2025 3 1 12 0 0 0) []
             (fun c => bool_decide (c = call_reminder_FindAll)) in
  exists l, InitializeSchedules w = (Some ErrDatabaseOperation, add_log l w).
Proof.
  intros w. by apply (InitializeSchedules_fails_when_the_table_cannot_be_read w).
Defined.

(** [InitializeSchedules] can run in a service that has schedules already:
    when the entries of the engine are those of the registry (no job has
    fired since it was armed), the keys of the table are distinct and the
    table can be read, they still are afterwards, so that no key has two
    entries; and a reminder whose time is not zero and is before no reading
    of the clock has exactly one entry in the engine for its notification,
    armed for its time, the one the registry holds. *)
Theorem InitializeSchedules_again_leaves_one_job_per_reminder (w : World) :
  exact w ->
  handleNotificationFunc (svc w) ≠ None ->
  NoDup (Reminder_ID <$> rows (reminder_content w)) ->
  failing w call_reminder_FindAll = false ->
  let w' := (InitializeSchedules w).2 in
  (InitializeSchedules w).1 = None
  ∧ exact w'
  ∧ (forall rid k, (length (live_handles (cronScheduler w') rid k) <= 1)%nat)
  ∧ (forall r, r ∈ rows (reminder_content w) ->
       time.IsZero (Reminder_RemindTime r) = false ->
       Forall (fun t' => time.Before (Reminder_RemindTime r) t' = false)
         (wall_now w :: wall_later w) ->
       exists e,
         registered (jobStore (svc w')) (Reminder_ID r) jobTypeNotify = Some e
         ∧ live_handles (cronScheduler w') (Reminder_ID r) jobTypeNotify = [e]
         ∧ cron.mkEntry e (schedule_at (Reminder_RemindTime r))
             (notify_jobFunc (Reminder_ID r))
           ∈ cron.entries (cronScheduler w')).
Proof.
  intros He Hset Hnd Hf w'. subst w'.
  destruct (runs_now _ _ _ _ _ (runs_InitializeSchedules w Hf)) as (l & _ & ->).
  drop_log.
  set (w0 := tick w).
  assert (exact w0) as He0 by by apply tick_exact.
  assert (handleNotificationFunc (svc w0) ≠ None) as Hset0
    by (unfold w0; by destruct (tick_frame w) as (-> & _)).
  pose proof (init_world_exact (wall_now w) (rows (reminder_content w)) w0 He0)
    as He'.
  split; [done|]. split; [by apply add_log_exact|]. split.
  - intros rid k. rewrite (exact_live_handles _ _ _ He').
    destruct (registered _ rid k); simpl; lia.
  - intros r Hr Hz Hclock.
    assert (time.Before (Reminder_RemindTime r) (wall_now w) = false) as Hb
      by (by apply Forall_cons in Hclock as [? _]).
    assert (not_before_clock (Reminder_RemindTime r) w0) as Hclock0
      by (by apply tick_clock).
    destruct (init_world_schedules (wall_now w) (rows (reminder_content w)) w0 r
                Hnd He0 Hset0 Hr (conj Hz Hb) Hclock0) as (e & Hreg & Hen).
    exists e. split; [done|]. split; [|done].
    by rewrite (exact_live_handles _ _ _ He'), Hreg.
Qed.

Lemma InitializeSchedules_again_witness :
  let t1 := time.Date 2025 3 2 9 0 0 0 in
  let r1 := mkReminder 1 "u" "milk" t1 in
  let w0 := started (mkTable [r1] 1) ∅ (time.Date 2025 3 1 12 0 0 0) []
              no_failure in
  let w1 := (InitializeSchedules w0).2 in
  let w2 := (InitializeSchedules w1).2 in
  live_handles (cronScheduler w1) 1 jobTypeNotify = [1]
  ∧ exists e,
      registered (jobStore (svc w2)) 1 jobTypeNotify = Some e
      ∧ live_handles (cronScheduler w2) 1 jobTypeNotify = [e]
      ∧ cron.mkEntry e (schedule_at t1) (notify_jobFunc 1)
        ∈ cron.entries (cronScheduler w2).
Proof.
  intros t1 r1 w0 w1 w2. split; [by vm_compute|].
  assert (exact w1) as He by (apply (bool_decide_unpack _); by vm_compute).
  assert (handleNotificationFunc (svc w1) ≠ None) as Hset by (by vm_compute).
  assert (NoDup (Reminder_ID <$> rows (reminder_content w1))) as Hnd
    by (apply (bool_decide_unpack _); by vm_compute).
  assert (failing w1 call_reminder_FindAll = false) as Hf by reflexivity.
  destruct (InitializeSchedules_again_leaves_one_job_per_reminder w1 He Hset Hnd Hf)
    as (_ & _ & _ & H).
  apply (H r1).
  - assert (rows (reminder_content w1) = [r1]) as -> by (by vm_compute). by left.
  - reflexivity.
  - apply (bool_decide_unpack _). by vm_compute.
Defined.

(** ** Cancelling by content when the store fails *)

(** When the lookup by user and content fails, or when it finds reminders
    and their deletion fails, [CancelReminder] returns
    [ErrDatabaseOperation], and nothing has changed but the log: the rows
    are in the table and every job is armed as before, since the rows are
    deleted before any job is cancelled. *)
Theorem CancelReminder_changes_nothing_when_the_store_fails
    (userID content : string) (w : World) :
  failing w (call_reminder_FindByUserIDAndContent userID content) = true
  ∨ (failing w (call_reminder_FindByUserIDAndContent userID content) = false
     ∧ filter (reminderRepo.same_user_content userID content)
         (rows (reminder_content w)) ≠ []
     ∧ failing w (call_reminder_DeleteByUserIDAndContent userID content) = true) ->
  exists l, reminderService.CancelReminder userID content w
            = (Some ErrDatabaseOperation, add_log l w).
Proof.
  intros H.
  assert (runs (reminderService.CancelReminder userID content) w
            (Some ErrDatabaseOperation) [] w) as Hrun.
  { unfold reminderService.CancelReminder.
    destruct H as [Hf|(Hf & Hm & Hd)].
    - eapply runs_eq; [steps|reflexivity..].
    - eapply runs_eq.
      { step; [step|]. cbv beta iota.
        rewrite bool_decide_eq_false_2
          by (intros H0; apply Hm; by apply length_zero_iff_nil).
        steps. }
      all: reflexivity. }
  destruct (runs_now _ _ _ _ _ Hrun) as (l & _ & E). by exists l.
Qed.

Lemma CancelReminder_store_fails_witness :
  let r1 := mkReminder 1 "u" "Buy milk" (time.Date 2025 3 2 9 0 0 0) in
  let w0 := started (mkTable [r1] 1) ∅ (time.Date 2025 3 1 12 0 0 0) []
              (fun c => bool_decide
                 (c = call_reminder_DeleteByUserIDAndContent "u" "Buy milk")) in
  let w := (InitializeSchedules w0).2 in
  registered (jobStore (svc w)) 1 jobTypeNotify = Some 1
  ∧ exists l, reminderService.CancelReminder "u" "Buy milk" w
              = (Some ErrDatabaseOperation, add_log l w).
Proof.
  intros r1 w0 w. split; [by vm_compute|].
  apply (CancelReminder_changes_nothing_when_the_store_fails "u" "Buy milk" w).
  right. split; [reflexivity|]. split; [by vm_compute|reflexivity].
Defined.

(** ** Snoozing when something fails *)

Lemma runs_Snooze_create_fails userID u s rid r w :
  failing w (call_user_FindByUserID userID) = false ->
  user_session w !! userID = Some u ->
  User_LastNotifyTextID u = Some s -> strconv_ParseUint s = Some rid ->
  failing w (call_reminder_FindByID rid) = false ->
  find_reminder rid w = Some r ->
  failing w (call_reminder_Create userID) = true ->
  runs (reminderService.Snooze userID) w (Err ErrDatabaseOperation) []
    (cancel_core rid jobTypeCleanup w).
Proof.
  intros Hfu Hu Hs Hp Hfr Hr Hfc.
  pose proof (find_reminder_id _ _ _ Hr) as Hid.
  destruct (cancel_core_frame rid jobTypeCleanup w)
    as (_ & _ & _ & _ & _ & _ & _ & _ & Hfail).
  assert (failing (cancel_core (Reminder_ID r) jobTypeCleanup w)
            (call_reminder_Create userID) = true) as Hfc'
    by (by rewrite Hid, Hfail).
  assert (s ≠ "") as Hne by (intros ->; discriminate).
  unfold reminderService.Snooze.
  eapply runs_eq.
  { step; [step|]. cbv beta iota. rewrite Hs.
    rewrite (bool_decide_eq_false_2 _ Hne), Hp.
    step; [step|]. step; [step|]. step; [step|].
    step; [apply runs_CreateReminder_fail; assumption|]. steps. }
  all: try reflexivity. by rewrite Hid.
Qed.

Lemma runs_Snooze_update_fails userID u s rid r w :
  failing w (call_user_FindByUserID userID) = false ->
  user_session w !! userID = Some u ->
  User_LastNotifyTextID u = Some s -> strconv_ParseUint s = Some rid ->
  failing w (call_reminder_FindByID rid) = false ->
  find_reminder rid w = Some r ->
  failing w (call_reminder_Create userID) = false ->
  issued (reminder_content w) ->
  failing w (call_user_Update (User_ID u)) = true ->
  runs (reminderService.Snooze userID) w (Err ErrDatabaseOperation) []
    (insert_reminder userID (Reminder_Content r)
       (cancel_core rid jobTypeCleanup w)).
Proof.
  intros Hfu Hu Hs Hp Hfr Hr Hfc Hiss Hup.
  pose proof (find_reminder_id _ _ _ Hr) as Hid.
  pose proof (issued_fresh w Hiss) as Hfresh.
  destruct (cancel_core_frame rid jobTypeCleanup w)
    as (_ & _ & Hrem & _ & _ & _ & _ & _ & Hfail).
  assert (failing (cancel_core (Reminder_ID r) jobTypeCleanup w)
            (call_reminder_Create userID) = false) as Hfc'
    by (by rewrite Hid, Hfail).
  assert (existsb (reminderRepo.matches_id
                     (next_id (cancel_core (Reminder_ID r) jobTypeCleanup w)))
            (rows (reminder_content (cancel_core (Reminder_ID r) jobTypeCleanup w)))
          = false) as Hfresh'
    by (unfold next_id in *; by rewrite Hid, Hrem).
  assert (failing (cancel_core (Reminder_ID r) jobTypeCleanup w)
            (call_user_Update (User_ID u)) = true) as Hup'
    by (by rewrite Hid, Hfail).
  assert (s ≠ "") as Hne by (intros ->; discriminate).
  unfold reminderService.Snooze.
  eapply runs_eq.
  { step; [step|]. cbv beta iota. rewrite Hs.
    rewrite (bool_decide_eq_false_2 _ Hne), Hp.
    step; [step|]. step; [step|]. step; [step|].
    step; [apply runs_CreateReminder_ok; assumption|].
    step; [apply runs_Update_fail; exact Hup'|]. steps. }
  all: try reflexivity. by rewrite Hid.
Qed.

(** [Snooze] does not undo what it has done when a later write fails. For a
    user whose last notified reference names a reminder of the table: when
    the new reminder cannot be inserted, or when it is inserted and the
    session cannot be written, [Snooze] returns [ErrDatabaseOperation] and
    the session is as it was, but the cleanup job of the notified reminder
    has been cancelled, in the registry and in the engine; and in the second
    case the new reminder, which no session refers to, is in the table. *)
Theorem Snooze_keeps_its_first_steps_when_a_write_fails
    (userID : string) (u : User) (s : string) (rid : N) (r : Reminder)
    (w : World) :
  failing w (call_user_FindByUserID userID) = false ->
  user_session w !! userID = Some u ->
  User_LastNotifyTextID u = Some s -> strconv_ParseUint s = Some rid ->
  failing w (call_reminder_FindByID rid) = false ->
  find_reminder rid w = Some r ->
  issued (reminder_content w) ->
  failing w (call_reminder_Create userID) = true
  ∨ failing w (call_user_Update (User_ID u)) = true ->
  let w' := (reminderService.Snooze userID w).2 in
  (reminderService.Snooze userID w).1 = Err ErrDatabaseOperation
  ∧ user_session w' = user_session w
  ∧ registered (jobStore (svc w')) rid jobTypeCleanup = None
  ∧ (forall e, registered (jobStore (svc w)) rid jobTypeCleanup = Some e ->
               e ∉ cron.ID <$> cron.entries (cronScheduler w'))
  ∧ rows (reminder_content w')
    = (if failing w (call_reminder_Create userID) then rows (reminder_content w)
       else rows (reminder_content w)
            ++ [mkReminder (next_id w) userID (Reminder_Content r) 0]).
Proof.
  intros Hfu Hu Hs Hp Hfr Hr Hiss Hfail w'. subst w'.
  destruct (cancel_core_frame rid jobTypeCleanup w)
    as (_ & _ & Hrem & Husr & _).
  destruct (failing w (call_reminder_Create userID)) eqn:Hfc.
  - destruct (runs_now _ _ _ _ _
                (runs_Snooze_create_fails userID u s rid r w Hfu Hu Hs Hp Hfr Hr Hfc))
      as (l & _ & ->). drop_log.
    split; [done|]. split; [done|]. split.
    { rewrite cancel_core_registered. by rewrite decide_True. }
    split; [|by rewrite Hrem].
    intros e He. by apply cancel_core_removes.
  - destruct Hfail as [?|Hup]; [done|].
    destruct (runs_now _ _ _ _ _
                (runs_Snooze_update_fails userID u s rid r w Hfu Hu Hs Hp Hfr Hr
                   Hfc Hiss Hup))
      as (l & _ & ->). drop_log.
    split; [done|]. split; [done|]. split.
    { simpl. rewrite cancel_core_registered. by rewrite decide_True. }
    split; [|simpl; unfold next_id; by rewrite Hrem].
    intros e He. simpl. by apply cancel_core_removes.
Qed.

Lemma Snooze_write_fails_witness :
  let t0 := time.Date 2025 3 1 12 0 0 0 in
  let r1 := mkReminder 1 "u" "X" (time.Date 2025 3 1 11 0 0 0) in
  let u := mkUser "u" None (Some "1") 0 in
  let w0 := started (mkTable [r1] 1) {[ "u" := u ]} t0 []
              (fun c => bool_decide (c = call_user_Update "u")) in
  let w1 := (ScheduleReminderCleanup 1 w0).2 in
  let w' := (reminderService.Snooze "u" w1).2 in
  registered (jobStore (svc w1)) 1 jobTypeCleanup = Some 1
  ∧ (reminderService.Snooze "u" w1).1 = Err ErrDatabaseOperation
  ∧ user_session w' !! "u" = Some u
  ∧ registered (jobStore (svc w')) 1 jobTypeCleanup = None
  ∧ rows (reminder_content w') = [r1; mkReminder 2 "u" "X" 0].
Proof.
  intros t0 r1 u w0 w1 w'. subst w'.
  assert (failing w1 (call_user_FindByUserID "u") = false) as Hfu by reflexivity.
  assert (user_session w1 !! "u" = Some u) as Hu by (vm_compute; reflexivity).
  assert (strconv_ParseUint "1" = Some 1%N) as Hp by reflexivity.
  assert (find_reminder 1 w1 = Some r1) as Hr by (vm_compute; reflexivity).
  assert (issued (reminder_content w1)) as Hiss
    by (apply (bool_decide_unpack _); by vm_compute).
  destruct (Snooze_keeps_its_first_steps_when_a_write_fails "u" u "1" 1%N r1 w1
              Hfu Hu eq_refl Hp eq_refl Hr Hiss (or_intror eq_refl))
    as (Hres & Husr & Hreg & _ & Hrows).
  split; [by vm_compute|]. split; [exact Hres|]. split; [by rewrite Husr|].
  split; [exact Hreg|]. rewrite Hrows. by vm_compute.
Defined.

(** [Snooze] refuses, and leaves everything but the log as it was: with
    [ErrUserNotFound] when the user has no session; with
    [ErrInternalServer] when the last notified reference is not empty and is
    not the numeral of a key; with [ErrDatabaseOperation] when the session
    or the notified reminder cannot be read. *)
Theorem Snooze_refusals_change_nothing (userID : string) (w : World) :
  (failing w (call_user_FindByUserID userID) = true ->
   exists l, reminderService.Snooze userID w
             = (Err ErrDatabaseOperation, add_log l w))
  ∧ (failing w (call_user_FindByUserID userID) = false ->
     user_session w !! userID = None ->
     reminderService.Snooze userID w = (Err ErrUserNotFound, w))
  ∧ (forall u s,
       failing w (call_user_FindByUserID userID) = false ->
       user_session w !! userID = Some u ->
       User_LastNotifyTextID u = Some s -> s ≠ "" ->
       (strconv_ParseUint s = None ->
        exists l, reminderService.Snooze userID w
                  = (Err ErrInternalServer, add_log l w))
       ∧ (forall rid,
            strconv_ParseUint s = Some rid ->
            failing w (call_reminder_FindByID rid) = true ->
            exists l, reminderService.Snooze userID w
                      = (Err ErrDatabaseOperation, add_log l w))).
Proof.
  split; [|split].
  - intros Hf.
    assert (runs (reminderService.Snooze userID) w (Err ErrDatabaseOperation) [] w)
      as Hrun.
    { unfold reminderService.Snooze. eapply runs_eq; [steps|reflexivity..]. }
    destruct (runs_now _ _ _ _ _ Hrun) as (l & _ & E). by exists l.
  - intros Hf Hu. unfold reminderService.Snooze, userRepo.FindByUserID. run.
    by rewrite Hf, Hu.
  - intros u s Hf Hu Hs Hne. split.
    + intros Hp.
      assert (runs (reminderService.Snooze userID) w (Err ErrInternalServer) [] w)
        as Hrun.
      { unfold reminderService.Snooze.
        eapply runs_eq.
        { step; [step|]. cbv beta iota. rewrite Hs.
          rewrite (bool_decide_eq_false_2 _ Hne), Hp. steps. }
        all: reflexivity. }
      destruct (runs_now _ _ _ _ _ Hrun) as (l & _ & E). by exists l.
    + intros rid Hp Hfr.
      assert (runs (reminderService.Snooze userID) w (Err ErrDatabaseOperation) [] w)
        as Hrun.
      { unfold reminderService.Snooze.
        eapply runs_eq.
        { step; [step|]. cbv beta iota. rewrite Hs.
          rewrite (bool_decide_eq_false_2 _ Hne), Hp. steps. }
        all: reflexivity. }
      destruct (runs_now _ _ _ _ _ Hrun) as (l & _ & E). by exists l.
Qed.

(** ** What the jobs do *)

(** When the lookup of the reminder fails, the notification is lost: the
    closure of the notify job completes, the handler has returned
    [ErrDatabaseOperation], nothing has been pushed, no cleanup has been
    scheduled, the tables and the engine are as they were, and the registry
    has forgotten the notify job all the same. *)
Theorem notify_job_is_forgotten_when_the_lookup_fails (rid : N) (w : World) :
  handleNotificationFunc (svc w) = Some rs_HandleReminderNotification ->
  failing w (call_reminder_FindByID rid) = true ->
  (reminderService.HandleReminderNotification rid w).1 = Some ErrDatabaseOperation
  ∧ exists w',
      run_jobFunc (notify_jobFunc rid) w = Some w'
      ∧ registered (jobStore (svc w')) rid jobTypeNotify = None
      ∧ (forall rid' k', ¬ (rid' = rid ∧ k' = jobTypeNotify) ->
           registered (jobStore (svc w')) rid' k'
           = registered (jobStore (svc w)) rid' k')
      ∧ cronScheduler w' = cronScheduler w
      ∧ pushed w' = pushed w
      ∧ reminder_content w' = reminder_content w
      ∧ user_session w' = user_session w.
Proof.
  intros Hn Hf. split.
  - destruct (runs_now _ _ _ _ _ (runs_HandleReminderNotification rid w))
      as (l & _ & ->).
    unfold notification_result. by rewrite Hf.
  - destruct (run_notify_jobFunc rid w Hn) as (l & _ & ->).
    eexists. split; [done|].
    assert (notification_core rid w = w) as ->
      by (unfold notification_core; by rewrite Hf).
    destruct (forget_frame rid jobTypeNotify w)
      as (_ & _ & Hc & Hr & Hu & Hp & _).
    drop_log. rewrite Hc, Hr, Hu, Hp.
    split; [by rewrite forget_registered, decide_True|].
    split; [|done].
    intros rid' k' Hne. by rewrite forget_registered, decide_False.
Qed.

Lemma notify_job_lookup_fails_witness :
  let t1 := time.Date 2025 3 2 9 0 0 0 in
  let r1 := mkReminder 1 "u" "milk" t1 in
  let w0 := started (mkTable [r1] 1) {[ "u" := mkUser "u" None None 0 ]}
              (time.Date 2025 3 1 12 0 0 0) []
              (fun c => bool_decide (c = call_reminder_FindByID 1)) in
  let w := (ScheduleReminder r1 w0).2 in
  registered (jobStore (svc w)) 1 jobTypeNotify = Some 1
  ∧ exists w',
      fire t1 w = Some w'
      ∧ registered (jobStore (svc w')) 1 jobTypeNotify = None
      ∧ pushed w' = []
      ∧ rows (reminder_content w') = [r1].
Proof.
  intros t1 r1 w0 w. split; [by vm_compute|].
  assert (handleNotificationFunc (svc w) = Some rs_HandleReminderNotification)
    as Hn by (by vm_compute).
  assert (failing w (call_reminder_FindByID 1) = true) as Hf by (by vm_compute).
  destruct (notify_job_is_forgotten_when_the_lookup_fails 1 w Hn Hf)
    as (_ & w' & E & Hreg & _ & _ & Hp & Hr & _).
  exists w'. split.
  - unfold fire.
    assert (cron.Job <$> due t1 (cronScheduler w) = [notify_jobFunc 1]) as ->
      by (by vm_compute).
    unfold run_jobs. by rewrite E.
  - split; [exact Hreg|]. rewrite Hp, Hr. vm_compute. split; reflexivity.
Defined.

(** When the cleanup job of a reminder runs and the deletion does not fail,
    the reminder has no row in the table any more, the other rows are there
    as before, and the registry has forgotten the cleanup job; the sessions
    are as they were, so that a last notified reference to the reminder now
    names no row. When the deletion fails, the row stays and the registry
    forgets the job as well: nothing is left to clean the reminder up. *)
Theorem cleanup_job_deletes_the_reminder (rid : N) (w : World) :
  handleCleanupFunc (svc w) = Some rs_CleanupOldReminders ->
  exists w',
    run_jobFunc (cleanup_jobFunc rid) w = Some w'
    ∧ registered (jobStore (svc w')) rid jobTypeCleanup = None
    ∧ cronScheduler w' = cronScheduler w
    ∧ user_session w' = user_session w
    ∧ pushed w' = pushed w
    ∧ rows (reminder_content w')
      = (if failing w (call_reminder_Delete rid) then rows (reminder_content w)
         else filter (fun r => Reminder_ID r ≠ rid) (rows (reminder_content w)))
    ∧ (failing w (call_reminder_Delete rid) = false -> find_reminder rid w' = None).
Proof.
  intros Hc. destruct (run_cleanup_jobFunc rid w Hc) as (l & _ & ->).
  eexists. split; [done|].
  destruct (forget_frame rid jobTypeCleanup (cleaned_core rid w))
    as (_ & _ & Hcr & Hr & Hu & Hp & _).
  destruct (cleaned_core_frame rid w) as (_ & Hcr' & Hu' & Hp' & _).
  unfold find_reminder. drop_log. rewrite Hcr, Hr, Hu, Hp, Hcr', Hu', Hp'.
  split; [by rewrite forget_registered, decide_True|].
  split; [done|]. split; [done|]. split; [done|].
  unfold cleaned_core.
  destruct (failing w (call_reminder_Delete rid)); [done|].
  split; [done|]. intros _. simpl.
  destruct (List.find _ _) as [r|] eqn:E; [|done].
  apply find_some in E as [Hin Hm]. apply list_elem_of_In in Hin.
  apply list_elem_of_filter in Hin as [Hne _].
  unfold reminderRepo.matches_id in Hm. by apply N.eqb_eq in Hm.
Qed.

Lemma cleanup_job_witness :
  let r1 := mkReminder 1 "u" "milk" (time.Date 2025 3 1 11 0 0 0) in
  let r2 := mkReminder 2 "u" "eggs" (time.Date 2025 3 5 11 0 0 0) in
  let w0 := started (mkTable [r1; r2] 2) {[ "u" := mkUser "u" None (Some "1") 0 ]}
              (time.Date 2025 3 1 12 0 0 0) [] no_failure in
  let w := (ScheduleReminderCleanup 1 w0).2 in
  exists w',
    run_jobFunc (cleanup_jobFunc 1) w = Some w'
    ∧ registered (jobStore (svc w')) 1 jobTypeCleanup = None
    ∧ rows (reminder_content w') = [r2]
    ∧ (reminderService.Snooze "u" w').1 = Err ErrSnoozeUnavailable.
Proof.
  intros r1 r2 w0 w.
  assert (handleCleanupFunc (svc w) = Some rs_CleanupOldReminders) as Hc
    by (by vm_compute).
  destruct (cleanup_job_deletes_the_reminder 1 w Hc)
    as (w' & E & Hreg & _ & _ & _ & Hrows & _).
  exists w'. split; [exact E|]. split; [exact Hreg|].
  split; [rewrite Hrows; by vm_compute|].
  assert (run_jobFunc (cleanup_jobFunc 1) w = Some w') as E' by exact E.
  vm_compute in E'. injection E' as <-. by vm_compute.
Defined.

(** ** The notification and the snooze that follows it *)

(** When the reminder is in the table and the push does not fail,
    [HandleReminderNotification] returns no error and has pushed one message,
    to the user of the reminder, whose text is the content between corner
    brackets followed by the words for "it is time"; the reminder stays in
    the table, from which the cleanup job will delete it. *)
Theorem HandleReminderNotification_pushes_one_message
    (rid : N) (r : Reminder) (w : World) :
  failing w (call_reminder_FindByID rid) = false ->
  find_reminder rid w = Some r ->
  failing w (call_line_PushMessage (Reminder_UserID r)) = false ->
  let w' := (reminderService.HandleReminderNotification rid w).2 in
  (reminderService.HandleReminderNotification rid w).1 = None
  ∧ pushed w'
    = pushed w ++ [mkPushed (Reminder_UserID r)
                     ("「" +:+ Reminder_Content r +:+ "」の時間です")]
  ∧ reminder_content w' = reminder_content w.
Proof.
  intros Hf Hr Hp w'. subst w'.
  destruct (runs_now _ _ _ _ _ (runs_HandleReminderNotification_found rid r w Hf Hr))
    as (l & _ & ->). drop_log.
  destruct (cleanup_core_frame rid
              (last_notify_core (Reminder_UserID r) rid
                 (push_core (Reminder_UserID r)
                    (reminderService.messageText (Reminder_Content r)) w)))
    as (_ & _ & -> & _ & -> & _).
  destruct (last_notify_core_frame (Reminder_UserID r) rid
              (push_core (Reminder_UserID r)
                 (reminderService.messageText (Reminder_Content r)) w))
    as (_ & _ & -> & -> & _).
  unfold push_core. rewrite Hp. done.
Qed.

Lemma HandleReminderNotification_witness :
  let r1 := mkReminder 1 "u" "milk" (time.Date 2025 3 1 12 0 0 0) in
  let w := started (mkTable [r1] 1) {[ "u" := mkUser "u" None None 0 ]}
             (time.Date 2025 3 1 12 0 0 0) [] no_failure in
  let w' := (reminderService.HandleReminderNotification 1 w).2 in
  pushed w' = [mkPushed "u" "「milk」の時間です"]
  ∧ rows (reminder_content w') = [r1].
Proof.
  intros r1 w w'. subst w'.
  assert (find_reminder 1 w = Some r1) as Hr by (by vm_compute).
  destruct (HandleReminderNotification_pushes_one_message 1 r1 w eq_refl Hr eq_refl)
    as (_ & Hp & Hrows).
  rewrite Hp, Hrows. vm_compute. split; reflexivity.
Defined.

(** The last notified reference that [HandleReminderNotification] writes is
    the one [Snooze] reads: after the notification of a reminder, when the
    session of its user is found and can be written and the table can be
    read and written, [Snooze] for this user returns the content of the
    reminder; it has taken the cleanup job that the notification scheduled
    out of the registry and of the engine, has added a reminder with the
    same content and no time, and has left the user awaiting the time of
    this new reminder. *)
Theorem Snooze_after_notification_renews_the_reminder
    (rid : N) (r : Reminder) (u : User) (w : World) :
  (rid < 2 ^ 64)%N ->
  failing w (call_reminder_FindByID rid) = false ->
  find_reminder rid w = Some r ->
  failing w (call_user_FindByUserID (Reminder_UserID r)) = false ->
  user_session w !! Reminder_UserID r = Some u ->
  User_ID u = Reminder_UserID r ->
  failing w (call_user_Update (User_ID u)) = false ->
  failing w (call_reminder_Create (Reminder_UserID r)) = false ->
  issued (reminder_content w) ->
  let w1 := (reminderService.HandleReminderNotification rid w).2 in
  let w2 := (reminderService.Snooze (Reminder_UserID r) w1).2 in
  (reminderService.Snooze (Reminder_UserID r) w1).1 = Ok (Reminder_Content r)
  ∧ registered (jobStore (svc w2)) rid jobTypeCleanup = None
  ∧ (forall e, registered (jobStore (svc w1)) rid jobTypeCleanup = Some e ->
               e ∉ cron.ID <$> cron.entries (cronScheduler w2))
  ∧ rows (reminder_content w2)
    = rows (reminder_content w)
      ++ [mkReminder (next_id w) (Reminder_UserID r) (Reminder_Content r) 0]
  ∧ user_session w2 !! Reminder_UserID r
    = Some (mkUser (User_ID u) (Some (strconv_FormatUint (next_id w)))
              (Some (strconv_FormatUint rid)) constant.StatusAwaitingTime).
Proof.
  intros Hrid Hf Hr Hfu Hu Hid Hup Hfc Hiss w1 w2. subst w2 w1.
  destruct (runs_now _ _ _ _ _ (runs_HandleReminderNotification_found rid r w Hf Hr))
    as (l & _ & ->). cbn [snd].
  set (w0 := before_cleanup r rid w).
  change (last_notify_core (Reminder_UserID r) rid
            (push_core (Reminder_UserID r)
               (reminderService.messageText (Reminder_Content r)) w)) with w0.
  set (w1 := add_log l (cleanup_core rid w0)).
  destruct (before_cleanup_frame r rid w) as (_ & _ & Hrem0 & _ & _ & Hfail0).
  fold w0 in Hrem0, Hfail0.
  destruct (cleanup_core_frame rid w0) as (_ & _ & Hrem1 & Husr1 & _ & _ & Hfail1).
  assert (failing w1 = failing w) as Hfail by (unfold w1; drop_log; congruence).
  assert (reminder_content w1 = reminder_content w) as Hrem
    by (unfold w1; drop_log; congruence).
  assert (user_session w1 !! Reminder_UserID r = Some (with_last_notify u rid))
    as Hu1.
  { unfold w1. drop_log. rewrite Husr1. unfold w0, before_cleanup.
    pose proof Hfu as Hfu'. pose proof Hu as Hu'.
    rewrite <- Hid in Hfu', Hu' |- *.
    destruct (push_core_frame (User_ID u)
                (reminderService.messageText (Reminder_Content r)) w)
      as (_ & _ & _ & Hus & _ & _ & _ & Hfl).
    apply last_notify_core_saved; by rewrite ?Hfl, ?Hus. }
  assert (find_reminder rid w1 = Some r) as Hr1
    by (unfold find_reminder in *; by rewrite Hrem).
  assert (runs (reminderService.Snooze (Reminder_UserID r)) w1
            (Ok (Reminder_Content r)) []
            (save_user (snoozing (with_last_notify u rid) (next_id w1))
               (insert_reminder (Reminder_UserID r) (Reminder_Content r)
                  (cancel_core rid jobTypeCleanup w1)))) as Hrun.
  { apply (runs_Snooze_ok _ _ (strconv_FormatUint rid) rid); try done.
    - by rewrite Hfail.
    - by apply ParseUint_FormatUint.
    - by rewrite Hfail.
    - by rewrite Hfail.
    - by rewrite Hrem.
    - by rewrite Hfail. }
  destruct (runs_now _ _ _ _ _ Hrun) as (l' & _ & ->). drop_log.
  destruct (cancel_core_frame rid jobTypeCleanup w1) as (_ & _ & Hrem2 & _).
  split; [done|]. split.
  { simpl. rewrite cancel_core_registered. by rewrite decide_True. }
  split.
  { intros e He. simpl. by apply cancel_core_removes. }
  assert (next_id w1 = next_id w) as Hnext by (unfold next_id; by rewrite Hrem).
  split.
  - simpl. rewrite Hrem2, Hrem. unfold next_id. by rewrite Hrem2, Hrem.
  - simpl. rewrite Hnext, <- Hid. apply lookup_insert_eq.
Qed.

Lemma Snooze_after_notification_witness :
  let t0 := time.Date 2025 3 1 12 0 0 0 in
  let r1 := mkReminder 1 "u" "milk" t0 in
  let u := mkUser "u" None None 0 in
  let w := started (mkTable [r1] 1) {[ "u" := u ]} t0 [] no_failure in
  let w1 := (reminderService.HandleReminderNotification 1 w).2 in
  let w2 := (reminderService.Snooze "u" w1).2 in
  registered (jobStore (svc w1)) 1 jobTypeCleanup = Some 1
  ∧ (reminderService.Snooze "u" w1).1 = Ok "milk"
  ∧ cron.entries (cronScheduler w2) = []
  ∧ rows (reminder_content w2) = [r1; mkReminder 2 "u" "milk" 0]
  ∧ user_session w2 !! "u" = Some (mkUser "u" (Some "2") (Some "1") 1).
Proof.
  intros t0 r1 u w w1 w2. subst w2 w1.
  assert ((1 < 2 ^ 64)%N) as Hlt by (by vm_compute).
  assert (find_reminder 1 w = Some r1) as Hr by (by vm_compute).
  assert (user_session w !! "u" = Some u) as Hu by (by vm_compute).
  assert (issued (reminder_content w)) as Hiss
    by (apply (bool_decide_unpack _); by vm_compute).
  destruct (Snooze_after_notification_renews_the_reminder 1 r1 u w Hlt eq_refl Hr
              eq_refl Hu eq_refl eq_refl eq_refl Hiss)
    as (Hres & _ & _ & Hrows & Husr).
  split; [vm_compute; reflexivity|]. split; [exact Hres|].
  split; [vm_compute; reflexivity|].
  split; [etrans; [exact Hrows|vm_compute; reflexivity]|].
  etrans; [exact Husr|vm_compute; reflexivity].
Defined.

(** ** A notification scheduled and cancelled *)

Lemma Remove_last_added (c : cron.Cron) s j :
  Forall (fun en => cron.ID en <= cron.nextID c) (cron.entries c) ->
  filter (fun en => cron.ID en ≠ cron.nextID c + 1)
    (cron.entries c ++ [cron.mkEntry (cron.nextID c + 1) s j])
  = cron.entries c.
Proof.
  intros H. rewrite filter_app, filter_cons, decide_False by (simpl; tauto).
  rewrite filter_nil, app_nil_r.
  apply filter_all_in. intros en Hin Heq. rewrite Forall_forall in H.
  specialize (H en Hin). lia.
Qed.

(** For a reminder that has no notify job, [CancelReminderSchedule] undoes
    [ScheduleReminder]: when the handler is set and the time of the reminder
    is accepted, the registry holds the handle of the new entry after the
    first call, and after the second the registry and the entries of the
    engine are what they were before the first; only the counter of the
    engine has moved, so that the handle is not issued again. *)
Theorem CancelReminderSchedule_undoes_ScheduleReminder (r : Reminder) (w : World) :
  sound w ->
  handleNotificationFunc (svc w) ≠ None ->
  time.IsZero (Reminder_RemindTime r) = false ->
  time.Before (Reminder_RemindTime r) (wall_now w) = false ->
  registered (jobStore (svc w)) (Reminder_ID r) jobTypeNotify = None ->
  let w1 := (ScheduleReminder r w).2 in
  let w2 := (CancelReminderSchedule (Reminder_ID r) w1).2 in
  (ScheduleReminder r w).1 = None
  ∧ registered (jobStore (svc w1)) (Reminder_ID r) jobTypeNotify
    = Some (cron.nextID (cronScheduler w) + 1)
  ∧ (CancelReminderSchedule (Reminder_ID r) w1).1 = None
  ∧ jobStore (svc w2) = jobStore (svc w)
  ∧ cron.entries (cronScheduler w2) = cron.entries (cronScheduler w)
  ∧ cron.nextID (cronScheduler w2) = cron.nextID (cronScheduler w) + 1.
Proof.
  intros Hs Hset Hz Hb Habs w1 w2. subst w2 w1.
  assert (valid_time (Reminder_RemindTime r) (wall_now w) = true) as Hv
    by (unfold valid_time; by rewrite Hz, Hb).
  destruct (runs_now _ _ _ _ _ (runs_ScheduleReminder_valid r w Hset Hv))
    as (l & _ & ->). cbn [fst snd].
  destruct (tick_frame w) as (Hsvc & Hcron & _).
  assert (cancel_core (Reminder_ID r) jobTypeNotify (tick w) = tick w) as ->
    by (apply cancel_core_absent; by rewrite Hsvc).
  set (w1 := add_log l _).
  assert (registered (jobStore (svc w1)) (Reminder_ID r) jobTypeNotify
          = Some (cron.nextID (cronScheduler w) + 1)) as Hreg.
  { unfold w1. drop_log. rewrite arm_registered, decide_True by done.
    by rewrite Hcron. }
  destruct (runs_now _ _ _ _ _ (runs_CancelReminderSchedule (Reminder_ID r) w1))
    as (l' & _ & ->). cbn [fst snd]. drop_log.
  unfold cancel_core. rewrite Hreg. simpl. rewrite Hsvc, Hcron.
  split; [done|]. split; [done|]. split; [done|]. split; [|split; [|done]].
  - apply unregister_register; [by destruct Hs as (_ & _ & _ & ?)|done].
  - destruct Hs as (_ & Hb' & _). by apply Remove_last_added.
Qed.

Lemma CancelReminderSchedule_undoes_witness :
  let r1 := mkReminder 1 "u" "milk" (time.Date 2025 3 2 9 0 0 0) in
  let r2 := mkReminder 2 "u" "eggs" (time.Date 2025 3 3 9 0 0 0) in
  let w0 := started (mkTable [r1; r2] 2) ∅ (time.Date 2025 3 1 12 0 0 0) []
              no_failure in
  let w := (ScheduleReminder r1 w0).2 in
  let w1 := (ScheduleReminder r2 w).2 in
  let w2 := (CancelReminderSchedule 2 w1).2 in
  registered (jobStore (svc w1)) 2 jobTypeNotify = Some 2
  ∧ jobStore (svc w2) = jobStore (svc w)
  ∧ cron.entries (cronScheduler w2) = cron.entries (cronScheduler w)
  ∧ cron.ID <$> cron.entries (cronScheduler w2) = [1].
Proof.
  intros r1 r2 w0 w w1 w2. subst w2 w1.
  assert (sound w) as Hs by (apply (bool_decide_unpack _); vm_compute; reflexivity).
  assert (handleNotificationFunc (svc w) ≠ None) as Hset
    by (vm_compute; discriminate).
  assert (registered (jobStore (svc w)) 2 jobTypeNotify = None) as Habs
    by (vm_compute; reflexivity).
  assert (time.Before (Reminder_RemindTime r2) (wall_now w) = false) as Hb
    by (vm_compute; reflexivity).
  destruct (CancelReminderSchedule_undoes_ScheduleReminder r2 w Hs Hset eq_refl
              Hb Habs) as (_ & Hreg & _ & Hjs & Hen & _).
  split; [exact Hreg|]. split; [exact Hjs|]. split; [exact Hen|].
  etrans; [exact (f_equal (fmap cron.ID) Hen)|vm_compute; reflexivity].
Defined.

(** ** The cleanup that follows a notification *)

Lemma ScheduleReminderCleanup_arms_witness :
  let t0 := time.Date 2025 3 1 12 0 0 0 in
  let w0 := started (mkTable [mkReminder 1 "u" "milk" t0] 1) ∅ t0 [] no_failure in
  let w := (ScheduleReminderCleanup 1 w0).2 in
  let w' := (ScheduleReminderCleanup 1 w).2 in
  registered (jobStore (svc w)) 1 jobTypeCleanup = Some 1
  ∧ registered (jobStore (svc w')) 1 jobTypeCleanup = Some 2
  ∧ cron.entries (cronScheduler w')
    = [cron.mkEntry 2 (schedule_at (time.Date 2025 3 2 12 0 0 0)) (cleanup_jobFunc 1)]
  ∧ cron.matches (schedule_at (time.Date 2025 3 2 12 0 0 0))
      (time.Date 2025 3 2 12 0 0 0) = true.
Proof.
  intros t0 w0 w w'. subst w'.
  assert (handleCleanupFunc (svc w) ≠ None) as Hset by (vm_compute; discriminate).
  destruct (ScheduleReminderCleanup_arms_after_grace_period 1 w Hset)
    as (_ & _ & Hreg & Hen & _ & Hm).
  split; [vm_compute; reflexivity|].
  split; [etrans; [exact Hreg|vm_compute; reflexivity]|].
  split; [etrans; [exact Hen|vm_compute; reflexivity]|].
  etrans; [|exact Hm]. vm_compute. reflexivity.
Defined.

(** * The rest of the services *)

(** The methods of the reminder service and of the user service that the
    scheduling core does not call, with the repository methods they need.
    Their calls to the outside and the lines they log are kept beside the
    world of the core, in an [App]. *)

(** ** The application state *)

(** The calls of this part that leave the process and can fail there. *)
Inductive app_call : Set :=
  | call_reminder_Update (id : N)
  | call_reminder_FindActiveByUserID (userID : string)
  | call_user_Create (userID : string).

(** The messages that this part logs, with the values they print. *)
Inductive AppMsg : Set :=
  (* application/service/reminder_impl.go *)
  | Msg_FailedToFindUserWhileSettingTime (userID : string)
  | Msg_NoPendingReminder (userID : string)
  | Msg_FailedToParseTextID (textID userID : string)
  | Msg_PendingReminderNotFound (reminderID : N) (userID : string)
  | Msg_FailedToFindReminderForUser (reminderID : N) (userID : string)
  | Msg_FailedToUpdateReminderTime (reminderID : N)
  | Msg_FailedToScheduleAfterSettingTime (reminderID : N)
  | Msg_SetTimeAndScheduled (reminderID : N) (userID : string) (t : Time)
  | Msg_FailedToListActiveReminders (userID : string)
  | Msg_FailedToGetReminder (reminderID : N)
  (* application/service/user_impl.go *)
  | Msg_UserNotFoundCreating (userID : string)
  | Msg_FailedToCreateUser
  | Msg_FailedToFindUser (userID : string)
  | Msg_FoundExistingUser (userID : string)
  | Msg_FailedToGetUser (userID : string)
  | Msg_UpdatedStatus (userID : string) (status : Z)
  | Msg_FailedToUpdateLastNotifyID (userID : string)
  | Msg_UpdatedLastNotifyID (userID : string).

Inductive AppLine : Set :=
  | AError (msg : AppMsg) (err : option error)
  | AWarn (msg : AppMsg)
  | AInfo (msg : AppMsg)
  | ADebug (msg : AppMsg).

(** The world of the core, the lines that this part has logged, in the order
    they were written, and the calls of this part that fail. The two logs
    are the output of one logger. *)
Record App : Type := mkApp {
  world : World;
  app_logged : list AppLine;
  app_failing : app_call -> bool }.

Definition set_world (f : World -> World) (s : App) : App :=
  mkApp (f (world s)) (app_logged s) (app_failing s).
Definition set_app_logged (f : list AppLine -> list AppLine) (s : App) : App :=
  mkApp (world s) (f (app_logged s)) (app_failing s).

Definition Act (A : Type) : Type := App -> A * App.

#[global] Instance Act_ret : MRet Act := fun A (a : A) (s : App) => (a, s).
#[global] Instance Act_bind : MBind Act :=
  fun A B (k : A -> Act B) (m : Act A) (s : App) =>
    let (a, s') := m s in k a s'.

(** A computation of the core, run on the world of the application. *)
Definition core {A} (m : M A) : Act A := fun s =>
  let (a, w) := m (world s) in (a, set_world (fun _ => w) s).

Definition app_log (l : AppLine) : Act unit :=
  fun s => (tt, set_app_logged (fun ls => ls ++ [l]) s).
Definition app_Error (m : AppMsg) (err : option error) := app_log (AError m err).
Definition app_Warn (m : AppMsg) := app_log (AWarn m).
Definition app_Info (m : AppMsg) := app_log (AInfo m).
Definition app_Debug (m : AppMsg) := app_log (ADebug m).

Definition app_fails (c : app_call) : Act bool := fun s => (app_failing s c, s).

(** ** More of the repositories, [internal/infrastructure/database/sqlite] *)

Module sqlite.

(** [Save] of a reminder that has a key writes every column of the row
    with this key, and inserts the reminder when no row has it. *)
Definition save (reminder : Reminder) (t : ReminderTable) : ReminderTable :=
  if existsb (reminderRepo.matches_id (Reminder_ID reminder)) (rows t) then
    {| rows := (fun r => if reminderRepo.matches_id (Reminder_ID reminder) r
                         then reminder else r) <$> rows t;
       sequence := sequence t |}
  else
    {| rows := rows t ++ [reminder];
       sequence := N.max (sequence t) (Reminder_ID reminder) |}.

(** [Save] of a reminder with a zero key is [Create]. *)
Definition reminderRepository_Update (reminder : Reminder) : Act (option error) :=
  bad ← app_fails (call_reminder_Update (Reminder_ID reminder));
  if bad : bool then mret (Some ErrExternal)
  else if (Reminder_ID reminder =? 0)%N then
    res ← core (reminderRepo.Create reminder);
    match res with
    | Err err => mret (Some err)
    | Ok _ => mret None
    end
  else
    core (modify (set_reminder_content (save reminder)));;
    mret None.

(** The rows that [FindActiveByUserID] selects: those of the user whose time
    is after [now]. *)
Definition active (userID : string) (now : Time) (r : Reminder) : bool :=
  bool_decide (Reminder_UserID r = userID) && (now <? Reminder_RemindTime r).

(** [ORDER BY remind_time asc]. The database does not say in which order
    it returns rows with the same time; here they are left in storage order,
    and nothing that is proved below depends on it. *)
Fixpoint insert_by_time (r : Reminder) (l : list Reminder) : list Reminder :=
  match l with
  | [] => [r]
  | x :: l' =>
      if Reminder_RemindTime x <=? Reminder_RemindTime r then x :: insert_by_time r l'
      else r :: l
  end.
Definition order_by_time (l : list Reminder) : list Reminder :=
  foldl (fun acc r => insert_by_time r acc) [] l.

Definition reminderRepository_FindActiveByUserID (userID : string)
  : Act (result (list Reminder)) :=
  now ← core time_Now;
  bad ← app_fails (call_reminder_FindActiveByUserID userID);
  if bad : bool then mret (Err ErrExternal)
  else
    w ← core get;
    mret (Ok (order_by_time
                (List.filter (active userID now) (rows (reminder_content w))))).

(** [Create] on the table of the sessions: a second row for a user is
    refused. *)
Definition userRepository_Create (user : User) : Act (option error) :=
  bad ← app_fails (call_user_Create (User_ID user));
  if bad : bool then mret (Some ErrExternal)
  else
    w ← core get;
    match user_session w !! User_ID user with
    | Some _ => mret (Some ErrExternal)
    | None =>
        core (modify (set_user_session (fun m => <[User_ID user := user]> m)));;
        mret None
    end.

End sqlite.

(** ** [internal/application/dto] *)

Module dto.

Record ReminderResponse : Set := mkReminderResponse {
  ID : N;
  Content : string;
  RemindTime : Time }.

Definition ToReminderResponse (r : Reminder) : ReminderResponse :=
  {| ID := Reminder_ID r;
     Content := Reminder_Content r;
     RemindTime := Reminder_RemindTime r |}.

Definition ToReminderResponseList (reminders : list Reminder)
  : list ReminderResponse :=
  ToReminderResponse <$> reminders.

End dto.

(** ** More of the reminder service and of the user service *)

Module service.

(** [SetReminderTime]: the request carries the user, the time and a
    reminder id that the method does not read; the reminder is the one that
    the session of the user names. *)
Definition SetReminderTime (userID : string) (remindTime : Time)
  : Act (option error) :=
  res ← core (userRepo.FindByUserID userID);
  match res with
  | Err err =>
      if reminderService.is_record_not_found err then mret (Some ErrUserNotFound)
      else
        app_Error (Msg_FailedToFindUserWhileSettingTime userID) (Some err);;
        mret (Some ErrDatabaseOperation)
  | Ok user =>
      match User_TextID user with
      | None =>
          app_Warn (Msg_NoPendingReminder userID);;
          mret (Some ErrInvalidStatus)
      | Some textID =>
          if bool_decide (textID = "") then
            app_Warn (Msg_NoPendingReminder userID);;
            mret (Some ErrInvalidStatus)
          else
            match strconv_ParseUint textID with
            | None =>
                app_Error (Msg_FailedToParseTextID textID userID) (Some ErrExternal);;
                mret (Some ErrInternalServer)
            | Some reminderID =>
                res ← core (reminderRepo.FindByID reminderID);
                match res with
                | Err err =>
                    if reminderService.is_record_not_found err then
                      app_Error (Msg_PendingReminderNotFound reminderID userID) None;;
                      mret (Some ErrReminderNotFound)
                    else
                      app_Error (Msg_FailedToFindReminderForUser reminderID userID)
                        (Some err);;
                      mret (Some ErrDatabaseOperation)
                | Ok reminder =>
                    (* Validate time *)
                    late ← (if time.IsZero remindTime then mret true
                            else now ← core time_Now;
                                 mret (time.Before remindTime now));
                    if late : bool then mret (Some ErrInvalidDateTime)
                    else
                      let reminder :=
                        mkReminder (Reminder_ID reminder) (Reminder_UserID reminder)
                          (Reminder_Content reminder) remindTime in
                      (* Update reminder in DB *)
                      err ← sqlite.reminderRepository_Update reminder;
                      match err with
                      | Some err =>
                          app_Error (Msg_FailedToUpdateReminderTime
                                       (Reminder_ID reminder)) (Some err);;
                          mret (Some ErrDatabaseOperation)
                      | None =>
                          (* Schedule the reminder *)
                          err ← core (ScheduleReminder reminder);
                          match err with
                          | Some err =>
                              app_Error (Msg_FailedToScheduleAfterSettingTime
                                           (Reminder_ID reminder)) (Some err);;
                              mret (Some err)
                          | None =>
                              app_Info (Msg_SetTimeAndScheduled
                                          (Reminder_ID reminder) userID remindTime);;
                              mret None
                          end
                      end
                end
            end
      end
  end.

Definition ListActiveReminders (userID : string)
  : Act (result (list dto.ReminderResponse)) :=
  res ← sqlite.reminderRepository_FindActiveByUserID userID;
  match res with
  | Err err =>
      app_Error (Msg_FailedToListActiveReminders userID) (Some err);;
      mret (Err ErrDatabaseOperation)
  | Ok reminders => mret (Ok (dto.ToReminderResponseList reminders))
  end.

Definition GetReminder (reminderID : N) : Act (result Reminder) :=
  res ← core (reminderRepo.FindByID reminderID);
  match res with
  | Err err =>
      if reminderService.is_record_not_found err then mret (Err ErrReminderNotFound)
      else
        app_Error (Msg_FailedToGetReminder reminderID) (Some err);;
        mret (Err ErrDatabaseOperation)
  | Ok reminder => mret (Ok reminder)
  end.

(** The user service, [user_impl.go]. *)

Definition GetOrCreateUser (userID : string) : Act (result User) :=
  res ← core (userRepo.FindByUserID userID);
  match res with
  | Err err =>
      if reminderService.is_record_not_found err then
        app_Info (Msg_UserNotFoundCreating userID);;
        let newUser := mkUser userID None None constant.StatusInitial in
        createErr ← sqlite.userRepository_Create newUser;
        match createErr with
        | Some createErr =>
            app_Error Msg_FailedToCreateUser (Some createErr);;
            mret (Err ErrDatabaseOperation)
        | None => mret (Ok newUser)
        end
      else
        app_Error (Msg_FailedToFindUser userID) (Some err);;
        mret (Err ErrDatabaseOperation)
  | Ok user =>
      app_Debug (Msg_FoundExistingUser userID);;
      mret (Ok user)
  end.

Definition GetUser (userID : string) : Act (result User) :=
  res ← core (userRepo.FindByUserID userID);
  match res with
  | Err err =>
      if reminderService.is_record_not_found err then mret (Err ErrUserNotFound)
      else
        app_Error (Msg_FailedToGetUser userID) (Some err);;
        mret (Err ErrDatabaseOperation)
  | Ok user => mret (Ok user)
  end.

Definition UpdateStatus (userID : string) (status : Z) (textID : option string)
  : Act (option error) :=
  res ← GetUser userID;
  match res with
  | Err err => mret (Some err)
  | Ok user =>
      let user := SetStatus user status in
      let user :=
        mkUser (User_ID user) textID (User_LastNotifyTextID user) (User_Status user) in
      err ← core (userRepo.Update user);
      match err with
      | Some err => mret (Some ErrDatabaseOperation)
      | None =>
          app_Debug (Msg_UpdatedStatus userID status);;
          mret None
      end
  end.

Definition UpdateLastNotify (userID : string) (lastNotifyTextID : string)
  : Act (option error) :=
  res ← GetUser userID;
  match res with
  | Err err => mret (Some err)
  | Ok user =>
      let user :=
        mkUser (User_ID user) (User_TextID user) (Some lastNotifyTextID)
          (User_Status user) in
      err ← core (userRepo.Update user);
      match err with
      | Some err =>
          app_Error (Msg_FailedToUpdateLastNotifyID userID) (Some err);;
          mret (Some ErrDatabaseOperation)
      | None =>
          app_Debug (Msg_UpdatedLastNotifyID userID);;
          mret None
      end
  end.

Definition GetUserStatus (userID : string) : Act (result Z) :=
  res ← GetUser userID;
  match res with
  | Err err => mret (Err err)
  | Ok user => mret (Ok (User_Status user))
  end.

End service.

(** ** Runs of the application *)

Definition add_logs (l : list LogLine) (la : list AppLine) (s : App) : App :=
  mkApp (add_log l (world s)) (app_logged s ++ la) (app_failing s).

Lemma add_logs_add_logs l1 la1 l2 la2 s :
  add_logs l2 la2 (add_logs l1 la1 s) = add_logs (l1 ++ l2) (la1 ++ la2) s.
Proof.
  unfold add_logs; simpl. by rewrite add_log_add_log, app_assoc.
Qed.

Lemma add_logs_nil s : add_logs [] [] s = s.
Proof. unfold add_logs. destruct s; simpl. by rewrite add_log_nil, app_nil_r. Qed.

Lemma world_add_logs l la s : world (add_logs l la s) = add_log l (world s).
Proof. reflexivity. Qed.
Lemma app_failing_add_logs l la s : app_failing (add_logs l la s) = app_failing s.
Proof. reflexivity. Qed.

(** [acts m s r s']: from the state [s], whatever has been logged so far,
    the computation [m] returns [r] and leaves the state [s'] with the lines
    it has logged added to the two logs. *)
Definition acts {A} (m : Act A) (s : App) (r : A) (s' : App) : Prop :=
  forall l0 la0, exists l la,
    m (add_logs l0 la0 s) = (r, add_logs (l0 ++ l) (la0 ++ la) s').

Lemma acts_now {A} (m : Act A) s r s' :
  acts m s r s' -> exists l la, m s = (r, add_logs l la s').
Proof.
  intros H. destruct (H [] []) as (l & la & E).
  rewrite add_logs_nil in E. by exists l, la.
Qed.

Lemma acts_ret {A} (a : A) s : acts (mret a) s a s.
Proof. intros l0 la0. exists [], []. by rewrite !app_nil_r. Qed.

Lemma acts_bind {A B} (m : Act A) (k : A -> Act B) s a s1 r s2 :
  acts m s a s1 -> acts (k a) s1 r s2 -> acts (m ≫= k) s r s2.
Proof.
  intros H1 H2 l0 la0. destruct (H1 l0 la0) as (l1 & la1 & E1).
  destruct (H2 (l0 ++ l1) (la0 ++ la1)) as (l2 & la2 & E2).
  exists (l1 ++ l2), (la1 ++ la2).
  unfold mbind, Act_bind. rewrite E1, E2. by rewrite !app_assoc.
Qed.

Lemma acts_log x s : acts (app_log x) s tt s.
Proof.
  intros l0 la0. exists [], [x]. rewrite app_nil_r.
  unfold app_log, add_logs, set_app_logged; simpl. by rewrite app_assoc.
Qed.

Lemma acts_fails c s : acts (app_fails c) s (app_failing s c) s.
Proof. intros l0 la0. exists [], []. by rewrite !app_nil_r. Qed.

(** A computation of the core that changes the world. *)
Lemma acts_core {A} (m : M A) s r ll c :
  runs m (world s) r ll c -> acts (core m) s r (set_world (fun _ => c) s).
Proof.
  intros H l0 la0. destruct (H l0) as (l & _ & E).
  exists l, []. unfold core. rewrite world_add_logs, E.
  unfold add_logs, set_world; simpl. by rewrite app_nil_r.
Qed.

(** A computation of the core that leaves the world as it is. *)
Lemma acts_core_same {A} (m : M A) s r ll :
  runs m (world s) r ll (world s) -> acts (core m) s r s.
Proof.
  intros H l0 la0. destruct (H l0) as (l & _ & E).
  exists l, []. unfold core. rewrite world_add_logs, E.
  unfold add_logs, set_world; simpl. by rewrite app_nil_r.
Qed.

Lemma acts_core_get {A} (k : World -> Act A) s r s' :
  (forall l0, acts (k (add_log l0 (world s))) s r s') ->
  acts (core get ≫= k) s r s'.
Proof.
  intros H l0 la0. destruct (H l0 l0 la0) as (l & la & E).
  exists l, la. exact E.
Qed.

Lemma acts_eq {A} (m : Act A) s r r' s1 s1' :
  acts m s r s1 -> r = r' -> s1 = s1' -> acts m s r' s1'.
Proof. by intros H <- <-. Qed.

(** Steps through a computation of the application. *)
Ltac astep_op := fail.

Ltac astep :=
  cbv beta iota;
  rewrite ?is_record_not_found_external, ?is_record_not_found_gorm;
  cbv beta iota;
  lazymatch goal with
  | |- acts (core get ≫= _) _ _ _ => apply acts_core_get; intros ?; simpl
  | |- acts (_ ≫= _) _ _ _ => eapply acts_bind
  | |- acts (mret _) _ _ _ => apply acts_ret
  | |- acts (app_Error _ _) _ _ _ => apply acts_log
  | |- acts (app_Warn _) _ _ _ => apply acts_log
  | |- acts (app_Info _) _ _ _ => apply acts_log
  | |- acts (app_Debug _) _ _ _ => apply acts_log
  | |- acts (app_fails _) _ _ _ => apply acts_fails
  | |- acts (core (userRepo.FindByUserID _)) _ _ _ =>
      eapply acts_core_same; step
  | |- acts (core (reminderRepo.FindByID _)) _ _ _ =>
      eapply acts_core_same; step
  | |- _ => astep_op
  end.

Ltac asteps := repeat astep.

(** ** Setting the time of a reminder *)

#[global] Arguments core : simpl never.
#[global] Arguments app_fails : simpl never.

Definition with_time (r : Reminder) (t : Time) : Reminder :=
  mkReminder (Reminder_ID r) (Reminder_UserID r) (Reminder_Content r) t.

Definition saved (r : Reminder) (w : World) : World :=
  set_reminder_content (sqlite.save r) w.

Lemma acts_Update_fail r st :
  app_failing st (call_reminder_Update (Reminder_ID r)) = true ->
  acts (sqlite.reminderRepository_Update r) st (Some ErrExternal) st.
Proof.
  intros H. unfold sqlite.reminderRepository_Update.
  eapply acts_eq; [astep; [astep|]; rewrite H; astep|reflexivity..].
Qed.

Lemma acts_Update_ok r st :
  app_failing st (call_reminder_Update (Reminder_ID r)) = false ->
  Reminder_ID r ≠ 0%N ->
  acts (sqlite.reminderRepository_Update r) st None
    (set_world (fun _ => saved r (world st)) st).
Proof.
  intros H Hne. unfold sqlite.reminderRepository_Update.
  apply N.eqb_neq in Hne.
  eapply acts_eq.
  { astep; [astep|]. rewrite H, Hne. astep; [|astep].
    eapply acts_core. apply runs_modify. reflexivity. }
  all: reflexivity.
Qed.

Lemma acts_time_Now st :
  acts (core time_Now) st (wall_now (world st))
    (set_world (fun _ => tick (world st)) st).
Proof. eapply acts_core. apply runs_time_Now. Qed.

Lemma acts_ScheduleReminder r st :
  acts (core (ScheduleReminder r)) st (schedule_result r (world st))
    (set_world (fun _ => schedule_core r (world st)) st).
Proof. eapply acts_core. apply runs_ScheduleReminder. Qed.

Lemma acts_return_error (err : option error) (m1 m2 : AppMsg) st :
  acts (match err with
        | Some err => app_Error m1 (Some err);; mret (Some err)
        | None => app_Info m2;; mret None
        end) st err st.
Proof. destruct err; (eapply acts_eq; [asteps|reflexivity..]). Qed.

(** The world after [SetReminderTime] has found the reminder [r], and what
    it returns. *)
Definition set_time_world (r : Reminder) (t : Time) (st : App) : World :=
  let w := world st in
  if time.IsZero t then w
  else if time.Before t (wall_now w) then tick w
  else if app_failing st (call_reminder_Update (Reminder_ID r)) then tick w
  else schedule_core (with_time r t) (saved (with_time r t) (tick w)).

Definition set_time_result (r : Reminder) (t : Time) (st : App) : option error :=
  let w := world st in
  if time.IsZero t then Some ErrInvalidDateTime
  else if time.Before t (wall_now w) then Some ErrInvalidDateTime
  else if app_failing st (call_reminder_Update (Reminder_ID r))
  then Some ErrDatabaseOperation
  else schedule_result (with_time r t) (saved (with_time r t) (tick w)).

Lemma acts_SetReminderTime_found userID u s rid r t st :
  failing (world st) (call_user_FindByUserID userID) = false ->
  user_session (world st) !! userID = Some u ->
  User_TextID u = Some s -> strconv_ParseUint s = Some rid ->
  failing (world st) (call_reminder_FindByID rid) = false ->
  find_reminder rid (world st) = Some r ->
  rid ≠ 0%N ->
  acts (service.SetReminderTime userID t) st (set_time_result r t st)
    (set_world (fun _ => set_time_world r t st) st).
Proof.
  intros Hfu Hu Hs Hp Hfr Hr Hne.
  pose proof (find_reminder_id _ _ _ Hr) as Hid.
  assert (s ≠ "") as Hse by (intros ->; discriminate).
  assert (Reminder_ID (with_time r t) ≠ 0%N) as Hne' by (simpl; congruence).
  unfold service.SetReminderTime, set_time_result, set_time_world.
  fold (with_time r t).
  destruct (time.IsZero t) eqn:Hz.
  { eapply acts_eq.
    { astep; [astep|]. cbv beta iota. rewrite Hs.
      rewrite (bool_decide_eq_false_2 _ Hse), Hp.
      astep; [astep|]. astep; [astep|]. astep. }
    - reflexivity.
    - by destruct st. }
  destruct (time.Before t (wall_now (world st))) eqn:Hb.
  { eapply acts_eq.
    { astep; [astep|]. cbv beta iota. rewrite Hs.
      rewrite (bool_decide_eq_false_2 _ Hse), Hp.
      astep; [astep|].
      astep; [astep; [apply acts_time_Now|astep]|]. rewrite Hb. astep. }
    all: reflexivity. }
  destruct (app_failing st (call_reminder_Update (Reminder_ID r))) eqn:Hup.
  { eapply acts_eq.
    { astep; [astep|]. cbv beta iota. rewrite Hs.
      rewrite (bool_decide_eq_false_2 _ Hse), Hp.
      astep; [astep|].
      astep; [astep; [apply acts_time_Now|astep]|]. rewrite Hb.
      astep; [apply acts_Update_fail; exact Hup|]. asteps. }
    all: reflexivity. }
  eapply acts_eq.
  { astep; [astep|]. cbv beta iota. rewrite Hs.
    rewrite (bool_decide_eq_false_2 _ Hse), Hp.
    astep; [astep|].
    astep; [astep; [apply acts_time_Now|astep]|]. rewrite Hb.
    astep; [apply acts_Update_ok; [exact Hup|exact Hne']|].
    astep; [apply acts_ScheduleReminder|].
    apply acts_return_error. }
  all: reflexivity.
Qed.

Lemma save_frame r w :
  let w' := saved r w in
  svc w' = svc w /\ cronScheduler w' = cronScheduler w
  /\ user_session w' = user_session w /\ pushed w' = pushed w
  /\ logged w' = logged w /\ wall_now w' = wall_now w
  /\ wall_later w' = wall_later w /\ failing w' = failing w.
Proof. done. Qed.

Lemma find_replaced (id : N) (r' : Reminder) (l : list Reminder) :
  Reminder_ID r' = id ->
  List.find (reminderRepo.matches_id id)
    ((fun r => if reminderRepo.matches_id id r then r' else r) <$> l)
  = (fun _ => r') <$> List.find (reminderRepo.matches_id id) l.
Proof.
  intros Hid. induction l as [|x l IH]; [done|]. simpl.
  destruct (reminderRepo.matches_id id x) eqn:Hx.
  - assert (reminderRepo.matches_id id r' = true) as ->
      by (unfold reminderRepo.matches_id; by apply N.eqb_eq).
    done.
  - by rewrite Hx.
Qed.

Lemma find_replaced_other (id id' : N) (r' : Reminder) (l : list Reminder) :
  Reminder_ID r' = id -> id' ≠ id ->
  List.find (reminderRepo.matches_id id')
    ((fun r => if reminderRepo.matches_id id r then r' else r) <$> l)
  = List.find (reminderRepo.matches_id id') l.
Proof.
  intros Hid Hne. induction l as [|x l IH]; [done|]. simpl.
  destruct (reminderRepo.matches_id id x) eqn:Hx.
  - assert (reminderRepo.matches_id id' r' = false) as ->
      by (unfold reminderRepo.matches_id; apply N.eqb_neq; congruence).
    assert (reminderRepo.matches_id id' x = false) as ->; [|done].
    unfold reminderRepo.matches_id in *. apply N.eqb_eq in Hx.
    apply N.eqb_neq. congruence.
  - destruct (reminderRepo.matches_id id' x); [done|exact IH].
Qed.

Lemma find_existsb (id : N) (l : list Reminder) r :
  List.find (reminderRepo.matches_id id) l = Some r ->
  existsb (reminderRepo.matches_id id) l = true.
Proof.
  intros H. apply find_some in H as [Hin Hm]. apply existsb_exists. by exists r.
Qed.

(** The table after [Save] of a reminder whose key is in the table. *)
Lemma saved_found rid r r' w :
  find_reminder rid w = Some r -> Reminder_ID r' = rid ->
  find_reminder rid (saved r' w) = Some r'
  ∧ (forall id, id ≠ rid -> find_reminder id (saved r' w) = find_reminder id w)
  ∧ length (rows (reminder_content (saved r' w)))
    = length (rows (reminder_content w))
  ∧ sequence (reminder_content (saved r' w)) = sequence (reminder_content w).
Proof.
  unfold find_reminder, saved, sqlite.save. intros Hr Hid. simpl.
  rewrite Hid, (find_existsb _ _ _ Hr). simpl.
  split; [by rewrite find_replaced, Hr|]. split; [|split; [|done]].
  - intros id Hne. by apply find_replaced_other.
  - by rewrite length_fmap.
Qed.

Lemma tick_find rid w : find_reminder rid (tick w) = find_reminder rid w.
Proof.
  unfold find_reminder. by destruct (tick_frame w) as (_ & _ & -> & _).
Qed.

(** [SetReminderTime] writes the time that it is given into the reminder
    that the session of the user names, and arms its notification: when the
    session and the reminder are found, the table can be written, the
    notification handler is set, and the time is not zero and is before no
    reading of the clock, it returns no error; the reminder has the new time
    and is otherwise as it was, the other reminders and the sessions are as
    they were; and, the entries of the engine being those of the registry
    before the call, one entry of the engine, armed for the new time, runs
    the notify job of the reminder, and the registry holds its handle. *)
Theorem SetReminderTime_stores_the_time_and_arms_one_job
    (userID : string) (u : User) (s : string) (rid : N) (r : Reminder)
    (t : Time) (st : App) :
  exact (world st) ->
  handleNotificationFunc (svc (world st)) ≠ None ->
  failing (world st) (call_user_FindByUserID userID) = false ->
  user_session (world st) !! userID = Some u ->
  User_TextID u = Some s -> strconv_ParseUint s = Some rid ->
  failing (world st) (call_reminder_FindByID rid) = false ->
  find_reminder rid (world st) = Some r ->
  rid ≠ 0%N ->
  app_failing st (call_reminder_Update rid) = false ->
  time.IsZero t = false ->
  Forall (fun t' => time.Before t t' = false)
    (wall_now (world st) :: wall_later (world st)) ->
  let w' := world (service.SetReminderTime userID t st).2 in
  (service.SetReminderTime userID t st).1 = None
  ∧ find_reminder rid w'
    = Some (mkReminder rid (Reminder_UserID r) (Reminder_Content r) t)
  ∧ (forall id, id ≠ rid -> find_reminder id w' = find_reminder id (world st))
  ∧ length (rows (reminder_content w')) = length (rows (reminder_content (world st)))
  ∧ user_session w' = user_session (world st)
  ∧ exists e,
      registered (jobStore (svc w')) rid jobTypeNotify = Some e
      ∧ live_handles (cronScheduler w') rid jobTypeNotify = [e]
      ∧ cron.mkEntry e (schedule_at t) (notify_jobFunc rid)
        ∈ cron.entries (cronScheduler w').
Proof.
  intros He Hset Hfu Hu Hs Hp Hfr Hr Hne Hup Hz Hclock w'. subst w'.
  pose proof (find_reminder_id _ _ _ Hr) as Hid.
  destruct (acts_now _ _ _ _
              (acts_SetReminderTime_found userID u s rid r t st Hfu Hu Hs Hp Hfr Hr Hne))
    as (l & la & ->). cbn [fst snd]. rewrite world_add_logs.
  unfold set_time_result. cbn [world set_world]. unfold set_time_world.
  pose proof Hclock as Hclock'. apply Forall_cons in Hclock' as [Hb _].
  rewrite Hz, Hb, Hid, Hup.
  set (r' := with_time r t). set (w1 := saved r' (tick (world st))).
  destruct (tick_frame (world st)) as (Hsvc & Hcron & Hrem & Husr & _).
  assert (exact w1) as He1.
  { apply (exact_ext (world st)); [by rewrite <- Hsvc|by rewrite <- Hcron|done]. }
  assert (handleNotificationFunc (svc w1) ≠ None) as Hset1
    by (unfold w1; simpl; by rewrite Hsvc).
  assert (not_before_clock (Reminder_RemindTime r') w1) as Hclock1.
  { apply (tick_clock t) in Hclock. exact Hclock. }
  destruct (schedule_core_success r' w1 Hset1 Hz Hclock1) as (Hres & Hreg & Hen).
  destruct (schedule_core_frame r' w1) as (_ & _ & Hrem' & Husr' & _).
  assert (find_reminder rid (tick (world st)) = Some r) as Hr1
    by (by rewrite tick_find).
  destruct (saved_found rid r r' (tick (world st)) Hr1 Hid) as (F1 & F2 & F3 & _).
  fold w1 in F1, F2, F3.
  unfold find_reminder in *. drop_log. split; [done|]. rewrite Hrem'.
  split; [rewrite F1; unfold r', with_time; by rewrite Hid|].
  split; [intros id Hn; by rewrite F2, Hrem|].
  split; [by rewrite F3, Hrem|].
  split; [by rewrite Husr'|].
  assert (Reminder_ID r' = rid) as Hid' by done.
  rewrite Hid' in Hreg, Hen.
  eexists. split; [exact Hreg|]. split; [|exact Hen].
  rewrite (exact_live_handles _ _ _ (schedule_core_exact r' w1 He1)).
  by rewrite Hreg.
Qed.

Definition no_app_failure : app_call -> bool := fun _ => false.

Lemma SetReminderTime_witness :
  let t1 := time.Date 2025 3 2 9 0 0 0 in
  let r1 := mkReminder 1 "u" "milk" 0 in
  let u := mkUser "u" (Some "1") None constant.StatusAwaitingTime in
  let st := mkApp (started (mkTable [r1] 1) {[ "u" := u ]}
                     (time.Date 2025 3 1 12 0 0 0) [] no_failure)
              [] no_app_failure in
  let w' := world (service.SetReminderTime "u" t1 st).2 in
  (service.SetReminderTime "u" t1 st).1 = None
  ∧ rows (reminder_content w') = [mkReminder 1 "u" "milk" t1]
  ∧ exists e,
      registered (jobStore (svc w')) 1 jobTypeNotify = Some e
      ∧ live_handles (cronScheduler w') 1 jobTypeNotify = [e]
      ∧ cron.mkEntry e (schedule_at t1) (notify_jobFunc 1)
        ∈ cron.entries (cronScheduler w').
Proof.
  intros t1 r1 u st w'. subst w'.
  assert (exact (world st)) as He by apply started_exact.
  assert (handleNotificationFunc (svc (world st)) ≠ None) as Hset by done.
  assert (user_session (world st) !! "u" = Some u) as Hu
    by (vm_compute; reflexivity).
  assert (find_reminder 1 (world st) = Some r1) as Hr by (vm_compute; reflexivity).
  assert (Forall (fun t' => time.Before t1 t' = false)
            (wall_now (world st) :: wall_later (world st))) as Hclock
    by (apply (bool_decide_unpack _); vm_compute; reflexivity).
  assert ((1 : N) ≠ 0%N) as Hne by done.
  destruct (SetReminderTime_stores_the_time_and_arms_one_job "u" u "1" 1%N r1 t1 st
              He Hset eq_refl Hu eq_refl eq_refl eq_refl Hr Hne eq_refl eq_refl Hclock)
    as (Hres & _ & _ & _ & _ & Hjob).
  split; [exact Hres|]. split; [vm_compute; reflexivity|exact Hjob].
Defined.

(** ** What [SetReminderTime] refuses *)

(** The tables, the registry and the engine are the same in two worlds. *)
Definition same_data (w w' : World) : Prop :=
  svc w' = svc w ∧ cronScheduler w' = cronScheduler w
  ∧ reminder_content w' = reminder_content w
  ∧ user_session w' = user_session w ∧ pushed w' = pushed w.

Lemma same_data_refl w : same_data w w.
Proof. done. Qed.

Lemma same_data_tick w : same_data w (tick w).
Proof. by destruct (tick_frame w) as (? & ? & ? & ? & ? & _). Qed.

Lemma same_data_add_log l w w' : same_data w w' -> same_data w (add_log l w').
Proof. done. Qed.

(** [SetReminderTime] returns an error, and leaves the tables, the registry
    and the engine as they were, in each of these cases: the session cannot
    be read ([ErrDatabaseOperation]); the user has no session
    ([ErrUserNotFound]); the session names no reminder, its pending
    reference being unset or empty ([ErrInvalidStatus]); the reference is
    not the numeral of a key ([ErrInternalServer]); the reminder cannot be
    read ([ErrDatabaseOperation]) or is not in the table
    ([ErrReminderNotFound]); the time is zero or strictly before the present
    ([ErrInvalidDateTime]); the reminder cannot be written
    ([ErrDatabaseOperation]). *)
Theorem SetReminderTime_refusals_keep_tables_and_jobs
    (userID : string) (t : Time) (st : App) :
  let w := world st in
  let res := (service.SetReminderTime userID t st).1 in
  let w' := world (service.SetReminderTime userID t st).2 in
  (failing w (call_user_FindByUserID userID) = true ->
   res = Some ErrDatabaseOperation ∧ same_data w w')
  ∧ (failing w (call_user_FindByUserID userID) = false ->
     user_session w !! userID = None ->
     res = Some ErrUserNotFound ∧ same_data w w')
  ∧ (forall u,
       failing w (call_user_FindByUserID userID) = false ->
       user_session w !! userID = Some u ->
       (User_TextID u = None ∨ User_TextID u = Some "" ->
        res = Some ErrInvalidStatus ∧ same_data w w')
       ∧ (forall s, User_TextID u = Some s -> s ≠ "" ->
            (strconv_ParseUint s = None ->
             res = Some ErrInternalServer ∧ same_data w w')
            ∧ (forall rid, strconv_ParseUint s = Some rid ->
                 (failing w (call_reminder_FindByID rid) = true ->
                  res = Some ErrDatabaseOperation ∧ same_data w w')
                 ∧ (failing w (call_reminder_FindByID rid) = false ->
                    find_reminder rid w = None ->
                    res = Some ErrReminderNotFound ∧ same_data w w')
                 ∧ (forall r,
                      failing w (call_reminder_FindByID rid) = false ->
                      find_reminder rid w = Some r -> rid ≠ 0%N ->
                      (time.IsZero t = true ∨ time.Before t (wall_now w) = true ->
                       res = Some ErrInvalidDateTime ∧ same_data w w')
                      ∧ (time.IsZero t = false ->
                         time.Before t (wall_now w) = false ->
                         app_failing st (call_reminder_Update rid) = true ->
                         res = Some ErrDatabaseOperation ∧ same_data w w'))))).
Proof.
  intros w res w'. subst w res w'.
  split; [|split; [|intros u Hfu Hu; split; [|intros s Hs Hse; split;
    [|intros rid Hp; split; [|split; [|intros r Hfr Hr Hne; split]]]]]].
  - intros Hf.
    assert (acts (service.SetReminderTime userID t) st (Some ErrDatabaseOperation) st)
      as Hrun.
    { unfold service.SetReminderTime. eapply acts_eq; [asteps|reflexivity..]. }
    destruct (acts_now _ _ _ _ Hrun) as (l & la & ->). done.
  - intros Hf Hu.
    assert (acts (service.SetReminderTime userID t) st (Some ErrUserNotFound) st)
      as Hrun.
    { unfold service.SetReminderTime. eapply acts_eq; [asteps|reflexivity..]. }
    destruct (acts_now _ _ _ _ Hrun) as (l & la & ->). done.
  - intros Hnone.
    assert (acts (service.SetReminderTime userID t) st (Some ErrInvalidStatus) st)
      as Hrun.
    { unfold service.SetReminderTime.
      destruct Hnone as [Hn|Hn];
        (eapply acts_eq; [astep; [astep|]; cbv beta iota; rewrite Hn;
                          rewrite ?bool_decide_eq_true_2 by done; asteps
                         |reflexivity..]). }
    destruct (acts_now _ _ _ _ Hrun) as (l & la & ->). done.
  - intros Hp.
    assert (acts (service.SetReminderTime userID t) st (Some ErrInternalServer) st)
      as Hrun.
    { unfold service.SetReminderTime.
      eapply acts_eq.
      { astep; [astep|]. cbv beta iota. rewrite Hs.
        rewrite (bool_decide_eq_false_2 _ Hse), Hp. asteps. }
      all: reflexivity. }
    destruct (acts_now _ _ _ _ Hrun) as (l & la & ->). done.
  - intros Hfr.
    assert (acts (service.SetReminderTime userID t) st (Some ErrDatabaseOperation) st)
      as Hrun.
    { unfold service.SetReminderTime.
      eapply acts_eq.
      { astep; [astep|]. cbv beta iota. rewrite Hs.
        rewrite (bool_decide_eq_false_2 _ Hse), Hp. asteps. }
      all: reflexivity. }
    destruct (acts_now _ _ _ _ Hrun) as (l & la & ->). done.
  - intros Hfr Hr.
    assert (acts (service.SetReminderTime userID t) st (Some ErrReminderNotFound) st)
      as Hrun.
    { unfold service.SetReminderTime.
      eapply acts_eq.
      { astep; [astep|]. cbv beta iota. rewrite Hs.
        rewrite (bool_decide_eq_false_2 _ Hse), Hp. asteps. }
      all: reflexivity. }
    destruct (acts_now _ _ _ _ Hrun) as (l & la & ->). done.
  - intros Hlate.
    destruct (acts_now _ _ _ _
                (acts_SetReminderTime_found userID u s rid r t st Hfu Hu Hs Hp Hfr Hr Hne))
      as (l & la & ->). cbn [fst snd]. rewrite world_add_logs.
    unfold set_time_result. cbn [world set_world]. unfold set_time_world.
    destruct (time.IsZero t) eqn:Hz; [done|].
    destruct Hlate as [?|Hb]; [done|]. rewrite Hb.
    split; [done|]. apply same_data_add_log, same_data_tick.
  - intros Hz Hb Hup.
    pose proof (find_reminder_id _ _ _ Hr) as Hid.
    destruct (acts_now _ _ _ _
                (acts_SetReminderTime_found userID u s rid r t st Hfu Hu Hs Hp Hfr Hr Hne))
      as (l & la & ->). cbn [fst snd]. rewrite world_add_logs.
    unfold set_time_result. cbn [world set_world]. unfold set_time_world.
    rewrite Hz, Hb, Hid, Hup.
    split; [done|]. apply same_data_add_log, same_data_tick.
Qed.

(** [SetReminderTime] writes the time before it schedules, and does not
    take it back: when the time was accepted and written, and
    [ScheduleReminder] then refuses the reminder, because the clock has
    passed the time in between ([ErrScheduling]) or because the notification
    handler is not set ([ErrInternalServer]), the error is returned, the
    reminder has the new time in the table, and the registry and the engine
    are as they were: the reminder has a time and no job. *)
Theorem SetReminderTime_keeps_a_time_that_is_not_scheduled
    (userID : string) (u : User) (s : string) (rid : N) (r : Reminder)
    (t : Time) (st : App) :
  failing (world st) (call_user_FindByUserID userID) = false ->
  user_session (world st) !! userID = Some u ->
  User_TextID u = Some s -> strconv_ParseUint s = Some rid ->
  failing (world st) (call_reminder_FindByID rid) = false ->
  find_reminder rid (world st) = Some r ->
  rid ≠ 0%N ->
  app_failing st (call_reminder_Update rid) = false ->
  time.IsZero t = false ->
  time.Before t (wall_now (world st)) = false ->
  handleNotificationFunc (svc (world st)) = None
  ∨ (exists t1 l, wall_later (world st) = t1 :: l ∧ time.Before t t1 = true) ->
  let w' := world (service.SetReminderTime userID t st).2 in
  (service.SetReminderTime userID t st).1
  = Some (match handleNotificationFunc (svc (world st)) with
          | None => ErrInternalServer
          | Some _ => ErrScheduling
          end)
  ∧ find_reminder rid w'
    = Some (mkReminder rid (Reminder_UserID r) (Reminder_Content r) t)
  ∧ svc w' = svc (world st)
  ∧ cronScheduler w' = cronScheduler (world st).
Proof.
  intros Hfu Hu Hs Hp Hfr Hr Hne Hup Hz Hb Hwhy w'. subst w'.
  pose proof (find_reminder_id _ _ _ Hr) as Hid.
  destruct (acts_now _ _ _ _
              (acts_SetReminderTime_found userID u s rid r t st Hfu Hu Hs Hp Hfr Hr Hne))
    as (l & la & ->). cbn [fst snd]. rewrite world_add_logs.
  unfold set_time_result. cbn [world set_world]. unfold set_time_world.
  rewrite Hz, Hb, Hid, Hup.
  set (r' := with_time r t). set (w1 := saved r' (tick (world st))).
  destruct (tick_frame (world st)) as (Hsvc & Hcron & Hrem & _).
  assert (find_reminder rid (tick (world st)) = Some r) as Hr1
    by (by rewrite tick_find).
  destruct (saved_found rid r r' (tick (world st)) Hr1 Hid) as (F1 & _).
  fold w1 in F1.
  assert (svc w1 = svc (world st)) as Hsvc1 by (unfold w1; simpl; by rewrite Hsvc).
  assert (cronScheduler w1 = cronScheduler (world st)) as Hcron1
    by (unfold w1; simpl; by rewrite Hcron).
  unfold find_reminder in *. drop_log.
  destruct (schedule_core_frame r' w1) as (_ & _ & -> & _).
  rewrite F1. unfold schedule_result, schedule_core. rewrite Hsvc1.
  destruct (handleNotificationFunc (svc (world st))) as [h|] eqn:Hh.
  - destruct Hwhy as [?|(t1 & l1 & Hl & Hb1)]; [done|].
    assert (wall_now w1 = t1) as Hnow1
      by (unfold w1, tick; simpl; by rewrite Hl).
    unfold valid_time. rewrite Hnow1. cbn [Reminder_RemindTime r' with_time].
    rewrite Hz, Hb1. cbn [orb negb].
    destruct (refused_frame r' w1) as (-> & -> & _).
    rewrite Hsvc1, Hcron1. unfold r', with_time. by rewrite Hid.
  - rewrite Hsvc1, Hcron1. unfold r', with_time. by rewrite Hid.
Qed.

Lemma SetReminderTime_not_scheduled_witness :
  let t1 := time.Date 2025 3 1 12 0 0 0 in
  let r1 := mkReminder 1 "u" "milk" 0 in
  let u := mkUser "u" (Some "1") None constant.StatusAwaitingTime in
  let st := mkApp (started (mkTable [r1] 1) {[ "u" := u ]}
                     (time.Date 2025 3 1 12 0 0 0)
                     [time.Date 2025 3 1 12 0 1 0] no_failure)
              [] no_app_failure in
  let w' := world (service.SetReminderTime "u" t1 st).2 in
  (service.SetReminderTime "u" t1 st).1 = Some ErrScheduling
  ∧ rows (reminder_content w') = [mkReminder 1 "u" "milk" t1]
  ∧ cron.entries (cronScheduler w') = [].
Proof.
  intros t1 r1 u st w'. subst w'.
  assert (user_session (world st) !! "u" = Some u) as Hu
    by (vm_compute; reflexivity).
  assert (find_reminder 1 (world st) = Some r1) as Hr by (vm_compute; reflexivity).
  assert ((1 : N) ≠ 0%N) as Hne by done.
  assert (handleNotificationFunc (svc (world st)) = None
          ∨ (exists t' l, wall_later (world st) = t' :: l ∧ time.Before t1 t' = true))
    as Hwhy by (right; by eexists _, _).
  destruct (SetReminderTime_keeps_a_time_that_is_not_scheduled "u" u "1" 1%N r1 t1 st
              eq_refl Hu eq_refl eq_refl eq_refl Hr Hne eq_refl eq_refl eq_refl Hwhy)
    as (Hres & _ & _ & Hcron).
  split; [exact Hres|]. split; [vm_compute; reflexivity|].
  by rewrite Hcron.
Defined.

(** ** The user service *)

Lemma acts_GetUser_found userID u st :
  failing (world st) (call_user_FindByUserID userID) = false ->
  user_session (world st) !! userID = Some u ->
  acts (service.GetUser userID) st (Ok u) st.
Proof.
  intros Hf Hu. unfold service.GetUser. eapply acts_eq; [asteps|reflexivity..].
Qed.

Lemma acts_GetUser_missing userID st :
  failing (world st) (call_user_FindByUserID userID) = false ->
  user_session (world st) !! userID = None ->
  acts (service.GetUser userID) st (Err ErrUserNotFound) st.
Proof.
  intros Hf Hu. unfold service.GetUser. eapply acts_eq; [asteps|reflexivity..].
Qed.

Lemma acts_GetUser_fail userID st :
  failing (world st) (call_user_FindByUserID userID) = true ->
  acts (service.GetUser userID) st (Err ErrDatabaseOperation) st.
Proof.
  intros Hf. unfold service.GetUser. eapply acts_eq; [asteps|reflexivity..].
Qed.

#[global] Arguments service.GetUser : simpl never.

Lemma acts_user_Update_ok u st :
  failing (world st) (call_user_Update (User_ID u)) = false ->
  acts (core (userRepo.Update u)) st None
    (set_world (fun _ => save_user u (world st)) st).
Proof. intros H. eapply acts_core. by apply runs_Update_ok. Qed.

Lemma acts_user_Update_fail u st :
  failing (world st) (call_user_Update (User_ID u)) = true ->
  acts (core (userRepo.Update u)) st (Some ErrExternal) st.
Proof. intros H. eapply acts_core_same. by apply runs_Update_fail. Qed.

Lemma acts_user_Create_ok u st :
  app_failing st (call_user_Create (User_ID u)) = false ->
  user_session (world st) !! User_ID u = None ->
  acts (sqlite.userRepository_Create u) st None
    (set_world (fun _ => save_user u (world st)) st).
Proof.
  intros Hf Hu. unfold sqlite.userRepository_Create.
  eapply acts_eq.
  { astep; [astep|]. rewrite Hf. astep. rewrite Hu. astep; [|astep].
    eapply acts_core. apply runs_modify. reflexivity. }
  all: reflexivity.
Qed.

Lemma acts_user_Create_fail u st :
  app_failing st (call_user_Create (User_ID u)) = true ->
  acts (sqlite.userRepository_Create u) st (Some ErrExternal) st.
Proof.
  intros Hf. unfold sqlite.userRepository_Create.
  eapply acts_eq; [astep; [astep|]; rewrite Hf; astep|reflexivity..].
Qed.

(** The session of a user who has just followed. *)
Definition newUser (userID : string) : User :=
  mkUser userID None None constant.StatusInitial.

Lemma acts_GetOrCreateUser_found userID u st :
  failing (world st) (call_user_FindByUserID userID) = false ->
  user_session (world st) !! userID = Some u ->
  acts (service.GetOrCreateUser userID) st (Ok u) st.
Proof.
  intros Hf Hu. unfold service.GetOrCreateUser.
  eapply acts_eq; [asteps|reflexivity..].
Qed.

Lemma acts_GetOrCreateUser_created userID st :
  failing (world st) (call_user_FindByUserID userID) = false ->
  user_session (world st) !! userID = None ->
  app_failing st (call_user_Create userID) = false ->
  acts (service.GetOrCreateUser userID) st (Ok (newUser userID))
    (set_world (fun _ => save_user (newUser userID) (world st)) st).
Proof.
  intros Hf Hu Hc. unfold service.GetOrCreateUser.
  eapply acts_eq.
  { astep; [astep|]. astep; [astep|].
    astep; [apply (acts_user_Create_ok (newUser userID)); assumption|]. astep. }
  all: reflexivity.
Qed.

Lemma acts_GetOrCreateUser_not_created userID st :
  failing (world st) (call_user_FindByUserID userID) = false ->
  user_session (world st) !! userID = None ->
  app_failing st (call_user_Create userID) = true ->
  acts (service.GetOrCreateUser userID) st (Err ErrDatabaseOperation) st.
Proof.
  intros Hf Hu Hc. unfold service.GetOrCreateUser.
  eapply acts_eq.
  { astep; [astep|]. astep; [astep|].
    astep; [apply (acts_user_Create_fail (newUser userID)); assumption|]. asteps. }
  all: reflexivity.
Qed.

Lemma acts_GetOrCreateUser_fail userID st :
  failing (world st) (call_user_FindByUserID userID) = true ->
  acts (service.GetOrCreateUser userID) st (Err ErrDatabaseOperation) st.
Proof.
  intros Hf. unfold service.GetOrCreateUser.
  eapply acts_eq; [asteps|reflexivity..].
Qed.

#[global] Arguments service.GetOrCreateUser : simpl never.

(** The user after [UpdateStatus]. *)
Definition with_status (u : User) (status : Z) (textID : option string) : User :=
  mkUser (User_ID u) textID (User_LastNotifyTextID u) status.

Lemma acts_UpdateStatus_ok userID u status textID st :
  failing (world st) (call_user_FindByUserID userID) = false ->
  user_session (world st) !! userID = Some u ->
  failing (world st) (call_user_Update (User_ID u)) = false ->
  acts (service.UpdateStatus userID status textID) st None
    (set_world (fun _ => save_user (with_status u status textID) (world st)) st).
Proof.
  intros Hf Hu Hup. unfold service.UpdateStatus.
  eapply acts_eq.
  { astep; [by apply acts_GetUser_found|].
    astep; [apply (acts_user_Update_ok (with_status u status textID)); exact Hup|].
    asteps. }
  all: reflexivity.
Qed.

Lemma acts_UpdateStatus_not_written userID u status textID st :
  failing (world st) (call_user_FindByUserID userID) = false ->
  user_session (world st) !! userID = Some u ->
  failing (world st) (call_user_Update (User_ID u)) = true ->
  acts (service.UpdateStatus userID status textID) st (Some ErrDatabaseOperation) st.
Proof.
  intros Hf Hu Hup. unfold service.UpdateStatus.
  eapply acts_eq.
  { astep; [by apply acts_GetUser_found|].
    astep; [apply (acts_user_Update_fail (with_status u status textID)); exact Hup|].
    asteps. }
  all: reflexivity.
Qed.

Lemma acts_UpdateStatus_missing userID status textID st :
  failing (world st) (call_user_FindByUserID userID) = false ->
  user_session (world st) !! userID = None ->
  acts (service.UpdateStatus userID status textID) st (Some ErrUserNotFound) st.
Proof.
  intros Hf Hu. unfold service.UpdateStatus.
  eapply acts_eq; [astep; [by apply acts_GetUser_missing|]; asteps|reflexivity..].
Qed.

Lemma acts_UpdateStatus_fail userID status textID st :
  failing (world st) (call_user_FindByUserID userID) = true ->
  acts (service.UpdateStatus userID status textID) st (Some ErrDatabaseOperation) st.
Proof.
  intros Hf. unfold service.UpdateStatus.
  eapply acts_eq; [astep; [by apply acts_GetUser_fail|]; asteps|reflexivity..].
Qed.

#[global] Arguments service.UpdateStatus : simpl never.

Lemma acts_GetUserStatus_found userID u st :
  failing (world st) (call_user_FindByUserID userID) = false ->
  user_session (world st) !! userID = Some u ->
  acts (service.GetUserStatus userID) st (Ok (User_Status u)) st.
Proof.
  intros Hf Hu. unfold service.GetUserStatus.
  eapply acts_eq; [astep; [by apply acts_GetUser_found|]; asteps|reflexivity..].
Qed.

Lemma acts_GetUserStatus_missing userID st :
  failing (world st) (call_user_FindByUserID userID) = false ->
  user_session (world st) !! userID = None ->
  acts (service.GetUserStatus userID) st (Err ErrUserNotFound) st.
Proof.
  intros Hf Hu. unfold service.GetUserStatus.
  eapply acts_eq; [astep; [by apply acts_GetUser_missing|]; asteps|reflexivity..].
Qed.

Lemma acts_GetUserStatus_fail userID st :
  failing (world st) (call_user_FindByUserID userID) = true ->
  acts (service.GetUserStatus userID) st (Err ErrDatabaseOperation) st.
Proof.
  intros Hf. unfold service.GetUserStatus.
  eapply acts_eq; [astep; [by apply acts_GetUser_fail|]; asteps|reflexivity..].
Qed.

#[global] Arguments service.GetUserStatus : simpl never.

(** The world of a state, the lines of its log apart. *)
Lemma acts_world {A} (m : Act A) st r st' :
  acts m st r st' ->
  (m st).1 = r ∧ exists l, world (m st).2 = add_log l (world st').
Proof.
  intros H. destruct (acts_now _ _ _ _ H) as (l & la & ->).
  split; [done|]. by exists l.
Qed.

(** [GetOrCreateUser] returns the session of the user when there is one,
    and writes nothing; when there is none it inserts and returns a session
    with the initial status and no reference, and no other session is
    touched. Called again, it returns the same session and writes nothing;
    and [GetUserStatus] then returns the status of that session. *)
Theorem GetOrCreateUser_creates_a_session_once (userID : string) (st : App) :
  failing (world st) (call_user_FindByUserID userID) = false ->
  app_failing st (call_user_Create userID) = false ->
  let u := default (mkUser userID None None constant.StatusInitial)
             (user_session (world st) !! userID) in
  let st' := (service.GetOrCreateUser userID st).2 in
  (service.GetOrCreateUser userID st).1 = Ok u
  ∧ user_session (world st') !! userID = Some u
  ∧ (forall userID', userID' ≠ userID ->
       user_session (world st') !! userID' = user_session (world st) !! userID')
  ∧ reminder_content (world st') = reminder_content (world st)
  ∧ svc (world st') = svc (world st)
  ∧ cronScheduler (world st') = cronScheduler (world st)
  ∧ (service.GetOrCreateUser userID st').1 = Ok u
  ∧ user_session (world (service.GetOrCreateUser userID st').2)
    = user_session (world st')
  ∧ (service.GetUserStatus userID st').1 = Ok (User_Status u).
Proof.
  intros Hf Hc u st'. subst u st'.
  destruct (user_session (world st) !! userID) as [u|] eqn:Hu; simpl.
  - destruct (acts_now _ _ _ _ (acts_GetOrCreateUser_found userID u st Hf Hu))
      as (l & la & E). rewrite E. cbn [fst snd].
    assert (failing (world (add_logs l la st)) (call_user_FindByUserID userID) = false)
      as Hf' by done.
    assert (user_session (world (add_logs l la st)) !! userID = Some u) as Hu'
      by done.
    destruct (acts_world _ _ _ _ (acts_GetOrCreateUser_found userID u _ Hf' Hu'))
      as (-> & l2 & ->).
    destruct (acts_world _ _ _ _ (acts_GetUserStatus_found userID u _ Hf' Hu'))
      as (-> & _).
    done.
  - destruct (acts_now _ _ _ _ (acts_GetOrCreateUser_created userID st Hf Hu Hc))
      as (l & la & E). rewrite E. cbn [fst snd].
    set (st1 := add_logs l la _).
    assert (failing (world st1) (call_user_FindByUserID userID) = false)
      as Hf' by done.
    assert (user_session (world st1) !! userID = Some (newUser userID)) as Hu'
      by (unfold st1; simpl; apply lookup_insert_eq).
    destruct (acts_world _ _ _ _ (acts_GetOrCreateUser_found userID _ _ Hf' Hu'))
      as (-> & l2 & ->).
    destruct (acts_world _ _ _ _ (acts_GetUserStatus_found userID _ _ Hf' Hu'))
      as (-> & _).
    split; [done|]. split; [done|]. split; [|done].
    intros userID' Hne. unfold st1; simpl. by apply lookup_insert_ne.
Qed.

Lemma GetOrCreateUser_witness :
  let st := mkApp (started (mkTable [] 0) ∅ (time.Date 2025 3 1 12 0 0 0) []
                     no_failure) [] no_app_failure in
  let st' := (service.GetOrCreateUser "u" st).2 in
  (service.GetOrCreateUser "u" st).1 = Ok (mkUser "u" None None 0)
  ∧ user_session (world st') !! "u" = Some (mkUser "u" None None 0)
  ∧ (service.GetOrCreateUser "u" st').1 = Ok (mkUser "u" None None 0).
Proof.
  intros st st'. subst st'.
  destruct (GetOrCreateUser_creates_a_session_once "u" st eq_refl eq_refl)
    as (H1 & H2 & _ & _ & _ & _ & H3 & _).
  split; [exact H1|]. split; [exact H2|exact H3].
Defined.

(** [UpdateStatus] never creates a session: for a user without session it
    returns [ErrUserNotFound] and writes nothing. For a user with a session
    that can be written it returns no error; the session has the status and
    the pending reference that were given, a reference that is not given
    erasing the one that was there, and the last notified reference it had;
    nothing else changes, and [GetUserStatus] then returns the status. When
    the session cannot be written, it returns [ErrDatabaseOperation] and
    writes nothing. *)
Theorem UpdateStatus_writes_the_status_and_the_pending_reference
    (userID : string) (status : Z) (textID : option string) (st : App) :
  failing (world st) (call_user_FindByUserID userID) = false ->
  let res := (service.UpdateStatus userID status textID st).1 in
  let st' := (service.UpdateStatus userID status textID st).2 in
  reminder_content (world st') = reminder_content (world st)
  ∧ svc (world st') = svc (world st)
  ∧ cronScheduler (world st') = cronScheduler (world st)
  ∧ (user_session (world st) !! userID = None ->
     res = Some ErrUserNotFound
     ∧ user_session (world st') = user_session (world st))
  ∧ (forall u,
       user_session (world st) !! userID = Some u ->
       (failing (world st) (call_user_Update (User_ID u)) = true ->
        res = Some ErrDatabaseOperation
        ∧ user_session (world st') = user_session (world st))
       ∧ (failing (world st) (call_user_Update (User_ID u)) = false ->
          res = None
          ∧ user_session (world st')
            = <[User_ID u := mkUser (User_ID u) textID (User_LastNotifyTextID u)
                               status]> (user_session (world st))
          ∧ (User_ID u = userID ->
             (service.GetUserStatus userID st').1 = Ok status))).
Proof.
  intros Hf res st'. subst res st'.
  destruct (user_session (world st) !! userID) as [u|] eqn:Hu.
  - destruct (failing (world st) (call_user_Update (User_ID u))) eqn:Hup.
    + destruct (acts_now _ _ _ _
                  (acts_UpdateStatus_not_written userID u status textID st Hf Hu Hup))
        as (l & la & ->). cbn [fst snd].
      split; [done|]. split; [done|]. split; [done|]. split; [done|].
      intros u' [= <-]. split; [done|].
      intros Hup'. congruence.
    + destruct (acts_now _ _ _ _
                  (acts_UpdateStatus_ok userID u status textID st Hf Hu Hup))
        as (l & la & E). rewrite E. cbn [fst snd].
      set (st1 := add_logs l la _).
      split; [done|]. split; [done|]. split; [done|]. split; [done|].
      intros u' [= <-]. split; [congruence|].
      intros _. split; [done|]. split; [done|]. intros Hid.
      assert (failing (world st1) (call_user_FindByUserID userID) = false)
        as Hf' by done.
      assert (user_session (world st1) !! userID
              = Some (with_status u status textID)) as Hu'.
      { unfold st1; simpl. rewrite <- Hid. apply lookup_insert_eq. }
      by destruct (acts_world _ _ _ _ (acts_GetUserStatus_found userID _ _ Hf' Hu'))
        as (-> & _).
  - destruct (acts_now _ _ _ _
                (acts_UpdateStatus_missing userID status textID st Hf Hu))
      as (l & la & ->). cbn [fst snd].
    split; [done|]. split; [done|]. split; [done|]. split; [done|]. done.
Qed.

Lemma UpdateStatus_witness :
  let u := mkUser "u" (Some "7") (Some "3") constant.StatusAwaitingTime in
  let st := mkApp (started (mkTable [] 0) {[ "u" := u ]}
                     (time.Date 2025 3 1 12 0 0 0) [] no_failure)
              [] no_app_failure in
  let st' := (service.UpdateStatus "u" constant.StatusInitial None st).2 in
  (service.UpdateStatus "u" constant.StatusInitial None st).1 = None
  ∧ user_session (world st') !! "u" = Some (mkUser "u" None (Some "3") 0)
  ∧ (service.GetUserStatus "u" st').1 = Ok 0.
Proof.
  intros u st st'. subst st'.
  destruct (UpdateStatus_writes_the_status_and_the_pending_reference "u"
              constant.StatusInitial None st eq_refl) as (_ & _ & _ & _ & H).
  assert (user_session (world st) !! "u" = Some u) as Hu
    by (vm_compute; reflexivity).
  destruct (H u Hu) as (_ & H').
  destruct (H' eq_refl) as (Hres & Husr & Hst).
  split; [exact Hres|]. split; [|exact (Hst eq_refl)].
  rewrite Husr. apply lookup_insert_eq.
Defined.

(** The user after [UpdateLastNotify]. *)
Definition with_last_notified (u : User) (lastNotifyTextID : string) : User :=
  mkUser (User_ID u) (User_TextID u) (Some lastNotifyTextID) (User_Status u).

Lemma acts_UpdateLastNotify_ok userID u s st :
  failing (world st) (call_user_FindByUserID userID) = false ->
  user_session (world st) !! userID = Some u ->
  failing (world st) (call_user_Update (User_ID u)) = false ->
  acts (service.UpdateLastNotify userID s) st None
    (set_world (fun _ => save_user (with_last_notified u s) (world st)) st).
Proof.
  intros Hf Hu Hup. unfold service.UpdateLastNotify.
  eapply acts_eq.
  { astep; [by apply acts_GetUser_found|].
    astep; [apply (acts_user_Update_ok (with_last_notified u s)); exact Hup|].
    asteps. }
  all: reflexivity.
Qed.

Lemma acts_UpdateLastNotify_not_written userID u s st :
  failing (world st) (call_user_FindByUserID userID) = false ->
  user_session (world st) !! userID = Some u ->
  failing (world st) (call_user_Update (User_ID u)) = true ->
  acts (service.UpdateLastNotify userID s) st (Some ErrDatabaseOperation) st.
Proof.
  intros Hf Hu Hup. unfold service.UpdateLastNotify.
  eapply acts_eq.
  { astep; [by apply acts_GetUser_found|].
    astep; [apply (acts_user_Update_fail (with_last_notified u s)); exact Hup|].
    asteps. }
  all: reflexivity.
Qed.

Lemma acts_UpdateLastNotify_missing userID s st :
  failing (world st) (call_user_FindByUserID userID) = false ->
  user_session (world st) !! userID = None ->
  acts (service.UpdateLastNotify userID s) st (Some ErrUserNotFound) st.
Proof.
  intros Hf Hu. unfold service.UpdateLastNotify.
  eapply acts_eq; [astep; [by apply acts_GetUser_missing|]; asteps|reflexivity..].
Qed.

#[global] Arguments service.UpdateLastNotify : simpl never.

(** The two writers of a session keep each other's columns.
    [UpdateLastNotify] never creates a session: for a user without session
    it returns [ErrUserNotFound], and when the session cannot be written it
    returns [ErrDatabaseOperation]; in both cases it writes nothing. For a
    user whose session is found under its key and can be written, it sets
    the last notified reference and leaves the status and the pending
    reference, as [UpdateStatus] sets the status and the pending reference
    and leaves the last notified reference: called one after the other, in
    either order, the two return no error and leave the same session, which
    has the three values that were given. *)
Theorem UpdateLastNotify_and_UpdateStatus_keep_each_others_columns
    (userID lastNotifyTextID : string) (status : Z) (textID : option string)
    (st : App) :
  failing (world st) (call_user_FindByUserID userID) = false ->
  let a := service.UpdateLastNotify userID lastNotifyTextID st in
  (user_session (world st) !! userID = None ->
   a.1 = Some ErrUserNotFound ∧ user_session (world a.2) = user_session (world st))
  ∧ (forall u,
       user_session (world st) !! userID = Some u ->
       (failing (world st) (call_user_Update (User_ID u)) = true ->
        a.1 = Some ErrDatabaseOperation
        ∧ user_session (world a.2) = user_session (world st))
       ∧ (failing (world st) (call_user_Update (User_ID u)) = false ->
          User_ID u = userID ->
          let ab := service.UpdateStatus userID status textID a.2 in
          let b := service.UpdateStatus userID status textID st in
          let ba := service.UpdateLastNotify userID lastNotifyTextID b.2 in
          a.1 = None
          ∧ user_session (world a.2)
            = <[userID := mkUser userID (User_TextID u) (Some lastNotifyTextID)
                            (User_Status u)]> (user_session (world st))
          ∧ ab.1 = None ∧ b.1 = None ∧ ba.1 = None
          ∧ user_session (world ab.2)
            = <[userID := mkUser userID textID (Some lastNotifyTextID) status]>
                (user_session (world st))
          ∧ user_session (world ba.2) = user_session (world ab.2))).
Proof.
  intros Hf a. subst a. split.
  - intros Hu.
    by destruct (acts_now _ _ _ _
                   (acts_UpdateLastNotify_missing userID lastNotifyTextID st Hf Hu))
      as (l & la & ->).
  - intros u Hu. split.
    + intros Hup.
      by destruct (acts_now _ _ _ _
                     (acts_UpdateLastNotify_not_written userID u lastNotifyTextID
                        st Hf Hu Hup)) as (l & la & ->).
    + intros Hup Hid. cbv zeta.
      destruct (acts_now _ _ _ _
                  (acts_UpdateLastNotify_ok userID u lastNotifyTextID st Hf Hu Hup))
        as (l & la & Ea). rewrite Ea. cbn [fst snd].
      destruct (acts_now _ _ _ _
                  (acts_UpdateStatus_ok userID u status textID st Hf Hu Hup))
        as (l' & la' & Eb). rewrite Eb. cbn [fst snd].
      set (sa := add_logs l la _). set (sb := add_logs l' la' _).
      assert (user_session (world sa) !! userID
              = Some (with_last_notified u lastNotifyTextID)) as Hua
        by (unfold sa; simpl; rewrite <- Hid; apply lookup_insert_eq).
      assert (user_session (world sb) !! userID = Some (with_status u status textID))
        as Hub by (unfold sb; simpl; rewrite <- Hid; apply lookup_insert_eq).
      assert (failing (world sa) (call_user_FindByUserID userID) = false) as Hfa
        by exact Hf.
      assert (failing (world sb) (call_user_FindByUserID userID) = false) as Hfb
        by exact Hf.
      destruct (acts_world _ _ _ _
                  (acts_UpdateStatus_ok userID _ status textID sa Hfa Hua Hup))
        as (-> & l1 & ->).
      destruct (acts_world _ _ _ _
                  (acts_UpdateLastNotify_ok userID _ lastNotifyTextID sb Hfb Hub Hup))
        as (-> & l2 & ->).
      unfold sa, sb, with_status, with_last_notified; simpl. rewrite Hid.
      rewrite !insert_insert_eq. by repeat split.
Qed.

Lemma UpdateLastNotify_witness :
  let u := mkUser "u" (Some "7") None constant.StatusAwaitingTime in
  let st := mkApp (started (mkTable [] 0) {[ "u" := u ]}
                     (time.Date 2025 3 1 12 0 0 0) [] no_failure)
              [] no_app_failure in
  let a := service.UpdateLastNotify "u" "3" st in
  let ab := service.UpdateStatus "u" constant.StatusInitial None a.2 in
  a.1 = None
  ∧ user_session (world a.2) !! "u"
    = Some (mkUser "u" (Some "7") (Some "3") constant.StatusAwaitingTime)
  ∧ ab.1 = None
  ∧ user_session (world ab.2) !! "u"
    = Some (mkUser "u" None (Some "3") constant.StatusInitial).
Proof.
  intros u st a ab. subst a ab.
  destruct (UpdateLastNotify_and_UpdateStatus_keep_each_others_columns "u" "3"
              constant.StatusInitial None st eq_refl) as (_ & H).
  assert (user_session (world st) !! "u" = Some u) as Hu
    by (vm_compute; reflexivity).
  destruct (H u Hu) as (_ & H').
  destruct (H' eq_refl eq_refl) as (Ha & Hsa & Hab & _ & _ & Hsab & _).
  split; [exact Ha|]. split; [rewrite Hsa; apply lookup_insert_eq|].
  split; [exact Hab|]. rewrite Hsab. apply lookup_insert_eq.
Defined.

(** ** Reading a reminder and listing the active reminders *)

Lemma acts_GetReminder_found rid r st :
  failing (world st) (call_reminder_FindByID rid) = false ->
  find_reminder rid (world st) = Some r ->
  acts (service.GetReminder rid) st (Ok r) st.
Proof.
  intros Hf Hr. unfold service.GetReminder. eapply acts_eq; [asteps|reflexivity..].
Qed.

Lemma acts_GetReminder_missing rid st :
  failing (world st) (call_reminder_FindByID rid) = false ->
  find_reminder rid (world st) = None ->
  acts (service.GetReminder rid) st (Err ErrReminderNotFound) st.
Proof.
  intros Hf Hr. unfold service.GetReminder. eapply acts_eq; [asteps|reflexivity..].
Qed.

Lemma acts_GetReminder_fail rid st :
  failing (world st) (call_reminder_FindByID rid) = true ->
  acts (service.GetReminder rid) st (Err ErrDatabaseOperation) st.
Proof.
  intros Hf. unfold service.GetReminder. eapply acts_eq; [asteps|reflexivity..].
Qed.

(** [GetReminder] changes nothing but the log. It returns the reminder that
    [CreateReminder] has just added, under the key that [CreateReminder]
    returned, and returns [ErrReminderNotFound] for a key whose reminder
    [CleanupOldReminders] has deleted. *)
Theorem GetReminder_follows_create_and_cleanup
    (userID content : string) (rid : N) (st : App) :
  issued (reminder_content (world st)) ->
  failing (world st) (call_reminder_Create userID) = false ->
  failing (world st) (call_reminder_FindByID (next_id (world st))) = false ->
  failing (world st) (call_reminder_Delete rid) = false ->
  failing (world st) (call_reminder_FindByID rid) = false ->
  let created := core (reminderService.CreateReminder userID content) st in
  let cleaned := core (reminderService.CleanupOldReminders rid) st in
  (exists l la, (service.GetReminder rid st).2 = add_logs l la st)
  ∧ created.1 = Ok (next_id (world st))
  ∧ (service.GetReminder (next_id (world st)) created.2).1
    = Ok (mkReminder (next_id (world st)) userID content 0)
  ∧ cleaned.1 = None
  ∧ (service.GetReminder rid cleaned.2).1 = Err ErrReminderNotFound.
Proof.
  intros Hiss Hfc Hfn Hfd Hfr created cleaned. subst created cleaned.
  split; [|split; [|split; [|split]]].
  - destruct (find_reminder rid (world st)) as [r|] eqn:Hr.
    + destruct (acts_now _ _ _ _ (acts_GetReminder_found rid r st Hfr Hr))
        as (l & la & ->). by exists l, la.
    + destruct (acts_now _ _ _ _ (acts_GetReminder_missing rid st Hfr Hr))
        as (l & la & ->). by exists l, la.
  - destruct (runs_now _ _ _ _ _
                (runs_CreateReminder_ok userID content (world st) Hfc
                   (issued_fresh _ Hiss))) as (l & _ & E).
    unfold core. by rewrite E.
  - destruct (runs_now _ _ _ _ _
                (runs_CreateReminder_ok userID content (world st) Hfc
                   (issued_fresh _ Hiss))) as (l & _ & E).
    unfold core. rewrite E. cbn [fst snd].
    set (st1 := set_world _ st).
    pose proof (CreateReminder_adds_a_reminder_without_time_aux userID content
                  (world st) Hiss Hfc) as Hfind.
    assert (find_reminder (next_id (world st)) (world st1)
            = Some (mkReminder (next_id (world st)) userID content 0)) as Hr.
    { unfold st1, find_reminder in *. simpl. exact Hfind. }
    by destruct (acts_world _ _ _ _
                   (acts_GetReminder_found (next_id (world st)) _ st1 Hfn Hr))
      as (-> & _).
  - destruct (runs_now _ _ _ _ _ (runs_CleanupOldReminders_ok rid (world st) Hfd))
      as (l & _ & E).
    unfold core. by rewrite E.
  - destruct (runs_now _ _ _ _ _ (runs_CleanupOldReminders_ok rid (world st) Hfd))
      as (l & _ & E).
    unfold core. rewrite E. cbn [fst snd].
    set (st1 := set_world _ st).
    assert (find_reminder rid (world st1) = None) as Hr.
    { unfold st1, find_reminder, delete_reminder. simpl.
      destruct (List.find _ _) as [r|] eqn:E'; [|done].
      apply find_some in E' as [Hin Hm]. apply list_elem_of_In in Hin.
      apply list_elem_of_filter in Hin as [Hne _].
      unfold reminderRepo.matches_id in Hm. by apply N.eqb_eq in Hm. }
    by destruct (acts_world _ _ _ _ (acts_GetReminder_missing rid st1 Hfr Hr))
      as (-> & _).
Qed.

Lemma GetReminder_witness :
  let r1 := mkReminder 1 "u" "milk" (time.Date 2025 3 1 11 0 0 0) in
  let st := mkApp (started (mkTable [r1] 1) ∅ (time.Date 2025 3 1 12 0 0 0) []
                     no_failure) [] no_app_failure in
  let created := core (reminderService.CreateReminder "u" "eggs") st in
  let cleaned := core (reminderService.CleanupOldReminders 1) st in
  (service.GetReminder 1 st).1 = Ok r1
  ∧ (service.GetReminder 2 created.2).1 = Ok (mkReminder 2 "u" "eggs" 0)
  ∧ (service.GetReminder 1 cleaned.2).1 = Err ErrReminderNotFound.
Proof.
  intros r1 st created cleaned. subst created cleaned.
  assert (issued (reminder_content (world st))) as Hiss
    by (apply (bool_decide_unpack _); vm_compute; reflexivity).
  destruct (GetReminder_follows_create_and_cleanup "u" "eggs" 1 st Hiss
              eq_refl eq_refl eq_refl eq_refl) as (_ & _ & H2 & _ & H3).
  split; [vm_compute; reflexivity|]. split; [exact H2|exact H3].
Defined.

(** *** The order of the list *)

Definition by_time (a b : Reminder) : Prop :=
  Reminder_RemindTime a <= Reminder_RemindTime b.

Lemma insert_by_time_elem r x l :
  r ∈ sqlite.insert_by_time x l ↔ r = x ∨ r ∈ l.
Proof.
  induction l as [|y l IH]; simpl.
  - rewrite list_elem_of_singleton, elem_of_nil. tauto.
  - destruct (Reminder_RemindTime y <=? Reminder_RemindTime x).
    + rewrite !elem_of_cons, IH. tauto.
    + rewrite !elem_of_cons. tauto.
Qed.

Lemma insert_by_time_length x l :
  length (sqlite.insert_by_time x l) = S (length l).
Proof.
  induction l as [|y l IH]; simpl; [done|].
  destruct (_ <=? _); simpl; [by rewrite IH|done].
Qed.

Lemma insert_by_time_sorted x l :
  StronglySorted by_time l -> StronglySorted by_time (sqlite.insert_by_time x l).
Proof.
  induction l as [|y l IH]; intros Hs; simpl.
  - by repeat constructor.
  - apply StronglySorted_inv in Hs as [Hs Hy].
    destruct (Reminder_RemindTime y <=? Reminder_RemindTime x) eqn:E.
    + apply Z.leb_le in E. constructor; [by apply IH|].
      apply Forall_forall. intros z Hz.
      apply insert_by_time_elem in Hz as [->|Hz]; [done|].
      rewrite Forall_forall in Hy. by apply Hy.
    + apply Z.leb_gt in E. constructor; [by constructor|].
      constructor; [unfold by_time; lia|].
      eapply Forall_impl; [exact Hy|]. unfold by_time. simpl. intros z Hz. lia.
Qed.

Lemma order_by_time_spec acc l :
  StronglySorted by_time acc ->
  let res := foldl (fun acc r => sqlite.insert_by_time r acc) acc l in
  StronglySorted by_time res
  ∧ (forall r, r ∈ res ↔ r ∈ acc ∨ r ∈ l)
  ∧ length res = (length acc + length l)%nat.
Proof.
  revert acc. induction l as [|x l IH]; intros acc Hs; simpl.
  - split; [done|]. split; [|lia]. intros r. rewrite elem_of_nil. tauto.
  - destruct (IH (sqlite.insert_by_time x acc) (insert_by_time_sorted x acc Hs))
      as (H1 & H2 & H3).
    split; [done|]. split.
    + intros r. rewrite H2, insert_by_time_elem, elem_of_cons. tauto.
    + rewrite H3, insert_by_time_length. lia.
Qed.

Lemma acts_FindActiveByUserID_ok userID st :
  app_failing st (call_reminder_FindActiveByUserID userID) = false ->
  acts (sqlite.reminderRepository_FindActiveByUserID userID) st
    (Ok (sqlite.order_by_time
           (List.filter (sqlite.active userID (wall_now (world st)))
              (rows (reminder_content (world st))))))
    (set_world (fun _ => tick (world st)) st).
Proof.
  intros Hf. unfold sqlite.reminderRepository_FindActiveByUserID.
  eapply acts_eq.
  { astep; [apply acts_time_Now|]. astep; [astep|].
    cbn [app_failing set_world]. rewrite Hf. astep. astep. }
  - simpl. by destruct (tick_frame (world st)) as (_ & _ & -> & _).
  - reflexivity.
Qed.

Lemma acts_FindActiveByUserID_fail userID st :
  app_failing st (call_reminder_FindActiveByUserID userID) = true ->
  acts (sqlite.reminderRepository_FindActiveByUserID userID) st (Err ErrExternal)
    (set_world (fun _ => tick (world st)) st).
Proof.
  intros Hf. unfold sqlite.reminderRepository_FindActiveByUserID.
  eapply acts_eq.
  { astep; [apply acts_time_Now|]. astep; [astep|].
    cbn [app_failing set_world]. rewrite Hf. astep. }
  all: reflexivity.
Qed.

#[global] Arguments sqlite.reminderRepository_FindActiveByUserID : simpl never.

(** What [ListActiveReminders] returns, as reminders. *)
Definition active_reminders (userID : string) (w : World) : list Reminder :=
  sqlite.order_by_time
    (List.filter (sqlite.active userID (wall_now w)) (rows (reminder_content w))).

Lemma acts_ListActiveReminders_ok userID st :
  app_failing st (call_reminder_FindActiveByUserID userID) = false ->
  acts (service.ListActiveReminders userID) st
    (Ok (dto.ToReminderResponseList (active_reminders userID (world st))))
    (set_world (fun _ => tick (world st)) st).
Proof.
  intros Hf. unfold service.ListActiveReminders.
  eapply acts_eq;
    [astep; [by apply acts_FindActiveByUserID_ok|]; asteps|reflexivity..].
Qed.

Lemma acts_ListActiveReminders_fail userID st :
  app_failing st (call_reminder_FindActiveByUserID userID) = true ->
  acts (service.ListActiveReminders userID) st (Err ErrDatabaseOperation)
    (set_world (fun _ => tick (world st)) st).
Proof.
  intros Hf. unfold service.ListActiveReminders.
  eapply acts_eq;
    [astep; [by apply acts_FindActiveByUserID_fail|]; asteps|reflexivity..].
Qed.

#[global] Arguments service.ListActiveReminders : simpl never.

(** [ListActiveReminders] lists, with their key, content and time, the
    reminders of the user whose time is strictly after the present, each
    once, by ascending time: a reminder that has no time yet or whose time
    has come is not listed, nor is a reminder of another user. It writes
    nothing. When the table cannot be read it returns
    [ErrDatabaseOperation]. *)
Theorem ListActiveReminders_lists_the_future_reminders_by_time
    (userID : string) (st : App) :
  let w := world st in
  let res := (service.ListActiveReminders userID st).1 in
  same_data w (world (service.ListActiveReminders userID st).2)
  ∧ (app_failing st (call_reminder_FindActiveByUserID userID) = true ->
     res = Err ErrDatabaseOperation)
  ∧ (app_failing st (call_reminder_FindActiveByUserID userID) = false ->
     exists rs,
       res = Ok (dto.ToReminderResponse <$> rs)
       ∧ (forall r, r ∈ rs
                    ↔ r ∈ rows (reminder_content w) ∧ Reminder_UserID r = userID
                      ∧ wall_now w < Reminder_RemindTime r)
       ∧ length rs
         = length (filter (fun r => Reminder_UserID r = userID
                                    ∧ wall_now w < Reminder_RemindTime r)
                     (rows (reminder_content w)))
       ∧ StronglySorted (fun a b => Reminder_RemindTime a <= Reminder_RemindTime b) rs).
Proof.
  intros w res. subst w res.
  destruct (app_failing st (call_reminder_FindActiveByUserID userID)) eqn:Hf.
  - destruct (acts_now _ _ _ _ (acts_ListActiveReminders_fail userID st Hf))
      as (l & la & ->). cbn [fst snd].
    split; [apply same_data_add_log, same_data_tick|]. done.
  - destruct (acts_now _ _ _ _ (acts_ListActiveReminders_ok userID st Hf))
      as (l & la & ->). cbn [fst snd].
    split; [apply same_data_add_log, same_data_tick|]. split; [done|]. intros _.
    exists (active_reminders userID (world st)). split; [done|].
    unfold active_reminders, sqlite.order_by_time.
    destruct (order_by_time_spec []
                (List.filter (sqlite.active userID (wall_now (world st)))
                   (rows (reminder_content (world st))))) as (H1 & H2 & H3).
    { constructor. }
    split; [|split; [|exact H1]].
    + intros r. rewrite H2, elem_of_nil, list_elem_of_In, filter_In.
      rewrite <- list_elem_of_In. unfold sqlite.active.
      rewrite andb_true_iff, bool_decide_eq_true, Z.ltb_lt. tauto.
    + rewrite H3. simpl. clear H1 H2 H3.
      induction (rows (reminder_content (world st))) as [|x xs IH]; [done|].
      simpl. rewrite filter_cons. unfold sqlite.active at 1.
      destruct (decide (Reminder_UserID x = userID
                        ∧ wall_now (world st) < Reminder_RemindTime x)) as [[Hu Ht]|Hn].
      * rewrite bool_decide_eq_true_2 by done.
        apply Z.ltb_lt in Ht. rewrite Ht. simpl. by rewrite IH.
      * destruct (bool_decide (Reminder_UserID x = userID)) eqn:Eu; simpl; [|done].
        apply bool_decide_eq_true in Eu.
        destruct (wall_now (world st) <? Reminder_RemindTime x) eqn:Et; [|done].
        apply Z.ltb_lt in Et. tauto.
Qed.
